(** * Stream-output (SOL) state encoding of the ilo driver

    A shallow embedding of [src/gallium/drivers/ilo/core/ilo_state_sol.c]
    and the properties of the command words it produces.

    Integers of the C program are modelled as [Z] with the wrap-around of
    every narrowing assignment written out ([wrap 8], [wrap 16], [wrap 32],
    [wrap 64]).  Arrays of four elements ([streams], [buffer_strides], the
    local per-stream arrays) are [arr4]; the six command words and the
    declaration table are lists updated by index. *)

From Stdlib Require Import ZArith Bool Lia.
From stdpp Require Import base list.

Local Open Scope Z_scope.

(** ** Fixed-width values and bit fields *)

(** The value kept by an unsigned [n]-bit object. *)
Definition wrap (n x : Z) : Z := x mod 2 ^ n.

(** A bit field: [shift] of its lowest bit and its [width]. *)
Record fld := Fld { f_shift : Z; f_width : Z }.

(** The bits [[f_shift f, f_shift f + f_width f)] of [w], read as a number. *)
Definition field (w : Z) (f : fld) : Z :=
  Z.land (Z.shiftr w (f_shift f)) (Z.ones (f_width f)).

(** [f] lies inside an [n]-bit word. *)
Definition fld_in (n : Z) (f : fld) : bool :=
  (0 <=? f_shift f) && (0 <=? f_width f) && (f_shift f + f_width f <=? n).

(** [f] and [g] share no bit. *)
Definition fld_disj (f g : fld) : bool :=
  (f_shift f + f_width f <=? f_shift g) || (f_shift g + f_width g <=? f_shift f).

(** Every field lies in the word and no two of them overlap. *)
Fixpoint flds_ok (n : Z) (fs : list fld) : bool :=
  match fs with
  | [] => true
  | f :: rest => fld_in n f && forallb (fld_disj f) rest && flds_ok n rest
  end.

(** Values shifted to their fields and or-ed together. *)
Fixpoint pack (fs : list (fld * Z)) : Z :=
  match fs with
  | [] => 0
  | (f, v) :: rest => Z.lor (Z.shiftl v (f_shift f)) (pack rest)
  end.

(** The value fits the width of its field. *)
Definition fits (fv : fld * Z) : Prop := 0 <= snd fv < 2 ^ f_width (fst fv).


(** ** Data model *)

(** Indices of the arrays of [ILO_STATE_SOL_MAX_STREAM_COUNT] streams and
    [ILO_STATE_SOL_MAX_BUFFER_COUNT] buffers; the encoder names the four
    elements of both one by one. *)
Inductive idx4 := I0 | I1 | I2 | I3.

Definition idx4_Z (i : idx4) : Z :=
  match i with I0 => 0 | I1 => 1 | I2 => 2 | I3 => 3 end.

Definition all_idx4 : list idx4 := [I0; I1; I2; I3].

Record arr4 (A : Type) := Arr4 { a0 : A; a1 : A; a2 : A; a3 : A }.
Arguments Arr4 {A}.
Arguments a0 {A}.
Arguments a1 {A}.
Arguments a2 {A}.
Arguments a3 {A}.

Definition get4 {A} (a : arr4 A) (i : idx4) : A :=
  match i with I0 => a0 a | I1 => a1 a | I2 => a2 a | I3 => a3 a end.

Definition set4 {A} (a : arr4 A) (i : idx4) (x : A) : arr4 A :=
  match i with
  | I0 => Arr4 x (a1 a) (a2 a) (a3 a)
  | I1 => Arr4 (a0 a) x (a2 a) (a3 a)
  | I2 => Arr4 (a0 a) (a1 a) x (a3 a)
  | I3 => Arr4 (a0 a) (a1 a) (a2 a) x
  end.

(** Modelled from the spec: [ILO_STATE_SOL_MAX_DECL_COUNT] of
    ilo_state_sol.h, the fixed maximum of declarations of one stream, which
    the spec gives as 128. *)
Definition ILO_STATE_SOL_MAX_DECL_COUNT : Z := 128.

(** Modelled from the spec: [ILO_STATE_SOL_MAX_BUFFER_COUNT] of
    ilo_state_sol.h, the fixed buffer-count maximum (4). *)
Definition ILO_STATE_SOL_MAX_BUFFER_COUNT : Z := 4.

(** Modelled from the spec: one stream declaration, the
    [struct ilo_state_sol_decl_info] of ilo_state_sol.h.  The integer fields
    are taken as [uint8_t], the type of the locals of the encoder that
    receive them. *)
Record ilo_state_sol_decl_info := {
  attr : Z;
  is_hole : bool;
  component_base : Z;
  component_count : Z;
  buffer : Z }.

(** Modelled from the spec: one stream info, the
    [struct ilo_state_sol_stream_info] of ilo_state_sol.h; the three VUE
    fields are taken as [uint8_t].  The counted array ([decls],
    [decl_count]) is the list of its first [decl_count] elements, and
    [decl_count], a [uint8_t] like the local [decl_counts] that receives
    it, is its length. *)
Record ilo_state_sol_stream_info := {
  cv_vue_attr_count : Z;
  vue_read_base : Z;
  vue_read_count : Z;
  decls : list ilo_state_sol_decl_info }.

Definition decl_count (stream : ilo_state_sol_stream_info) : Z :=
  Z.of_nat (length (decls stream)).

(** Modelled from the spec: the triangle-strip reorder mode, an enumeration
    with the values 0 and 1. *)
Inductive gen_reorder_mode := GEN7_REORDER_LEADING | GEN7_REORDER_TRAILING.

Definition reorder_Z (r : gen_reorder_mode) : Z :=
  match r with GEN7_REORDER_LEADING => 0 | GEN7_REORDER_TRAILING => 1 end.

(** The encoder addresses one region of memory besides the state object:
    the caller's scratch region, [info->data]. *)
Inductive pointer := NULL | info_data.

(** Modelled from the spec: the SOL info, the [struct ilo_state_sol_info]
    of ilo_state_sol.h.  [render_stream] is taken as a [uint8_t], like the
    other small integers, and the strides, which go up to 2048, as
    [uint16_t].  [data_size] is not a field here: the scratch region is
    memory, kept in the [machine] below, and its size is computed from
    it. *)
Record ilo_state_sol_info := {
  data : pointer;
  sol_enable : bool;
  stats_enable : bool;
  tristrip_reorder : gen_reorder_mode;
  render_disable : bool;
  render_stream : Z;
  buffer_strides : arr4 Z;
  streams : arr4 ilo_state_sol_stream_info }.

(** Modelled from the spec: the SOL state, the [struct ilo_state_sol] of
    ilo_state_sol.h: six command words (the source asserts
    [ARRAY_SIZE(so->so) >= 6]), the pointer to the declaration table and the
    length of the table, [decl_count] in the source ([sol_decl_count] here,
    to tell it from the count of a stream). *)
Record ilo_state_sol := {
  so : list Z;
  decl : pointer;
  sol_decl_count : Z }.

(** The memory an encode call works on: the destination state object and
    the rows of the scratch region.  A row is one 64-bit entry of the
    declaration table (the [uint32_t [2]] of the source); the split of a row
    into two words, and so the byte order, is not modelled. *)
Record machine := {
  sol : ilo_state_sol;
  scratch : list Z }.

(** The rows behind a pointer; nothing is behind [NULL]. *)
Definition region (p : pointer) (m : machine) : list Z :=
  match p with NULL => [] | info_data => scratch m end.

(** [info->data_size], in bytes. *)
Definition data_size (info : ilo_state_sol_info) (m : machine) : Z :=
  8 * Z.of_nat (length (region (data info) m)).

(** Modelled from the spec: the hardware generation tag, an ordered value
    ([struct ilo_dev], [ilo_dev_gen] and [ILO_GEN] of ilo_dev.h are not
    among the sources).  The tag of generation [g] is taken as [100 * g],
    which leaves room for generation 7.5 between [ILO_GEN 7] and
    [ILO_GEN 8]; only the order matters to the encoder. *)
Record ilo_dev := { ilo_dev_gen : Z }.

Definition ILO_GEN (gen : Z) : Z := gen * 100.
Arguments ILO_GEN : simpl never.

(** The values fit their C types. *)
Definition u8 (x : Z) : bool := (0 <=? x) && (x <=? 255).
Definition u16 (x : Z) : bool := (0 <=? x) && (x <=? 65535).

Definition decl_wt (d : ilo_state_sol_decl_info) : bool :=
  u8 (attr d) && u8 (component_base d) && u8 (component_count d) && u8 (buffer d).

Definition stream_wt (s : ilo_state_sol_stream_info) : bool :=
  u8 (cv_vue_attr_count s) && u8 (vue_read_base s) && u8 (vue_read_count s) &&
  u8 (decl_count s) && forallb decl_wt (decls s).

Definition info_wt (info : ilo_state_sol_info) : bool :=
  u8 (render_stream info) &&
  forallb (fun i => u16 (get4 (buffer_strides info) i)) all_idx4 &&
  forallb (fun i => stream_wt (get4 (streams info) i)) all_idx4.

(** ** Hardware command layout *)

(** The shifts and flags of genhw's gen_render_3d.xml.h, which is not
    among the sources: they are parameters of the encoder.  The fields keep
    the names of the macros. *)
Record genhw := {
  GEN7_SO_DW1_SO_ENABLE : Z;
  GEN7_SO_DW1_RENDER_DISABLE : Z;
  GEN7_SO_DW1_RENDER_STREAM_SELECT__SHIFT : Z;
  GEN7_SO_DW1_REORDER_MODE__SHIFT : Z;
  GEN7_SO_DW1_STATISTICS : Z;
  GEN7_SO_DW1_BUFFER_ENABLES__SHIFT : Z;
  GEN7_SO_DW2_STREAM3_READ_OFFSET__SHIFT : Z;
  GEN7_SO_DW2_STREAM3_READ_LEN__SHIFT : Z;
  GEN7_SO_DW2_STREAM2_READ_OFFSET__SHIFT : Z;
  GEN7_SO_DW2_STREAM2_READ_LEN__SHIFT : Z;
  GEN7_SO_DW2_STREAM1_READ_OFFSET__SHIFT : Z;
  GEN7_SO_DW2_STREAM1_READ_LEN__SHIFT : Z;
  GEN7_SO_DW2_STREAM0_READ_OFFSET__SHIFT : Z;
  GEN7_SO_DW2_STREAM0_READ_LEN__SHIFT : Z;
  GEN8_SO_DW3_BUFFER1_PITCH__SHIFT : Z;
  GEN8_SO_DW3_BUFFER0_PITCH__SHIFT : Z;
  GEN8_SO_DW4_BUFFER3_PITCH__SHIFT : Z;
  GEN8_SO_DW4_BUFFER2_PITCH__SHIFT : Z;
  GEN7_SO_DECL_OUTPUT_SLOT__SHIFT : Z;
  GEN7_SO_DECL_HOLE_FLAG : Z;
  GEN7_SO_DECL_REG_INDEX__SHIFT : Z;
  GEN7_SO_DECL_COMPONENT_MASK__SHIFT : Z;
  GEN7_SO_DECL_DW1_STREAM3_BUFFER_SELECTS__SHIFT : Z;
  GEN7_SO_DECL_DW1_STREAM2_BUFFER_SELECTS__SHIFT : Z;
  GEN7_SO_DECL_DW1_STREAM1_BUFFER_SELECTS__SHIFT : Z;
  GEN7_SO_DECL_DW1_STREAM0_BUFFER_SELECTS__SHIFT : Z;
  GEN7_SO_DECL_DW2_STREAM3_ENTRY_COUNT__SHIFT : Z;
  GEN7_SO_DECL_DW2_STREAM2_ENTRY_COUNT__SHIFT : Z;
  GEN7_SO_DECL_DW2_STREAM1_ENTRY_COUNT__SHIFT : Z;
  GEN7_SO_DECL_DW2_STREAM0_ENTRY_COUNT__SHIFT : Z }.

(** The layout of the Ivy Bridge and Broadwell command references: the
    values the genhw header gives to the macros. *)
Definition ivb_hw : genhw := {|
  GEN7_SO_DW1_SO_ENABLE := Z.shiftl 1 31;
  GEN7_SO_DW1_RENDER_DISABLE := Z.shiftl 1 30;
  GEN7_SO_DW1_RENDER_STREAM_SELECT__SHIFT := 27;
  GEN7_SO_DW1_REORDER_MODE__SHIFT := 26;
  GEN7_SO_DW1_STATISTICS := Z.shiftl 1 25;
  GEN7_SO_DW1_BUFFER_ENABLES__SHIFT := 8;
  GEN7_SO_DW2_STREAM3_READ_OFFSET__SHIFT := 29;
  GEN7_SO_DW2_STREAM3_READ_LEN__SHIFT := 24;
  GEN7_SO_DW2_STREAM2_READ_OFFSET__SHIFT := 21;
  GEN7_SO_DW2_STREAM2_READ_LEN__SHIFT := 16;
  GEN7_SO_DW2_STREAM1_READ_OFFSET__SHIFT := 13;
  GEN7_SO_DW2_STREAM1_READ_LEN__SHIFT := 8;
  GEN7_SO_DW2_STREAM0_READ_OFFSET__SHIFT := 5;
  GEN7_SO_DW2_STREAM0_READ_LEN__SHIFT := 0;
  GEN8_SO_DW3_BUFFER1_PITCH__SHIFT := 16;
  GEN8_SO_DW3_BUFFER0_PITCH__SHIFT := 0;
  GEN8_SO_DW4_BUFFER3_PITCH__SHIFT := 16;
  GEN8_SO_DW4_BUFFER2_PITCH__SHIFT := 0;
  GEN7_SO_DECL_OUTPUT_SLOT__SHIFT := 12;
  GEN7_SO_DECL_HOLE_FLAG := Z.shiftl 1 11;
  GEN7_SO_DECL_REG_INDEX__SHIFT := 4;
  GEN7_SO_DECL_COMPONENT_MASK__SHIFT := 0;
  GEN7_SO_DECL_DW1_STREAM3_BUFFER_SELECTS__SHIFT := 12;
  GEN7_SO_DECL_DW1_STREAM2_BUFFER_SELECTS__SHIFT := 8;
  GEN7_SO_DECL_DW1_STREAM1_BUFFER_SELECTS__SHIFT := 4;
  GEN7_SO_DECL_DW1_STREAM0_BUFFER_SELECTS__SHIFT := 0;
  GEN7_SO_DECL_DW2_STREAM3_ENTRY_COUNT__SHIFT := 24;
  GEN7_SO_DECL_DW2_STREAM2_ENTRY_COUNT__SHIFT := 16;
  GEN7_SO_DECL_DW2_STREAM1_ENTRY_COUNT__SHIFT := 8;
  GEN7_SO_DECL_DW2_STREAM0_ENTRY_COUNT__SHIFT := 0 |}.

(** ** Assertions and effects *)

(** A computation that reads its arguments only: it returns a value or
    stops at a failed assertion ([None]). *)
Definition check (A : Type) : Type := option A.

Definition check_bind {A B} (c : check A) (k : A -> check B) : check B :=
  match c with Some a => k a | None => None end.

Declare Scope check_scope.
Delimit Scope check_scope with check.
Notation "x <- c ;; k" := (check_bind c (fun x => k))
  (at level 100, c at next level, right associativity) : check_scope.
Notation "c ;; k" := (check_bind c (fun _ => k))
  (at level 100, right associativity) : check_scope.

(** An encode step works on the machine: it returns a value and the new
    machine, or stops at a failed assertion with the machine as it then
    was. *)
Inductive outcome (A : Type) :=
  | Abort (m : machine)
  | Ret (a : A) (m : machine).
Arguments Abort {A}.
Arguments Ret {A}.

Definition M (A : Type) : Type := machine -> outcome A.

Definition ret {A} (a : A) : M A := fun m => Ret a m.

Definition bind {A B} (c : M A) (k : A -> M B) : M B :=
  fun m => match c m with Abort m' => Abort m' | Ret a m' => k a m' end.

Declare Scope run_scope.
Delimit Scope run_scope with run.
Notation "x <- c ;; k" := (bind c (fun x => k))
  (at level 100, c at next level, right associativity) : run_scope.
Notation "c ;; k" := (bind c (fun _ => k))
  (at level 100, right associativity) : run_scope.

(** A read-only computation run as an encode step. *)
Definition lift {A} (c : check A) : M A :=
  fun m => match c with Some a => Ret a m | None => Abort m end.

(** A read-only computation that looks at the machine. *)
Definition reading {A} (f : machine -> check A) : M A := fun m => lift (f m) m.

Definition set_sol (f : ilo_state_sol -> ilo_state_sol) : M unit :=
  fun m => Ret tt {| sol := f (sol m); scratch := scratch m |}.

(** [so->so[i] = w] *)
Definition set_so (i : nat) (w : Z) : M unit :=
  set_sol (fun s => {| so := <[i := w]> (so s); decl := decl s;
                       sol_decl_count := sol_decl_count s |}).

(** [so->decl = p] *)
Definition set_decl (p : pointer) : M unit :=
  set_sol (fun s => {| so := so s; decl := p; sol_decl_count := sol_decl_count s |}).

(** [so->decl_count = n] *)
Definition set_decl_count (n : Z) : M unit :=
  set_sol (fun s => {| so := so s; decl := decl s; sol_decl_count := n |}).

(** [memcpy(so->decl, rows, sizeof(so->decl[0]) * length rows)].  The copy
    overwrites the first rows of the region.  The source has no test of the
    pointer or of the size: the model follows it for a copy that fits the
    region behind a pointer that is set, and for an empty copy; outside of
    that (a copy through [NULL], a copy longer than the region) the source
    is undefined, the model copies what fits, and the properties below
    that run the encoders on an arbitrary destination assume a set pointer
    and a region that holds the rows.  The entry point asserts that the
    region is large enough before it encodes. *)
Definition memcpy_decl (rows : list Z) : M unit :=
  fun m =>
    match decl (sol m) with
    | NULL => Ret tt m
    | info_data =>
        Ret tt {| sol := sol m;
                  scratch := take (length (scratch m)) rows
                               ++ drop (length rows) (scratch m) |}
    end.

(** Modelled from the spec: the test for zero-initialised memory,
    [ilo_is_zeroed] of ilo_core.h: every byte of the object is zero. *)
Definition ilo_is_zeroed (rows : list Z) : bool := forallb (Z.eqb 0) rows.

Definition ilo_is_zeroed_sol (s : ilo_state_sol) : bool :=
  ilo_is_zeroed (so s) &&
  match decl s with NULL => true | info_data => false end &&
  (sol_decl_count s =? 0).

(** Modelled from the spec: [ilo_state_sol_data_size] of ilo_state_sol.h,
    the size query: the exact byte size of a table of [max_decl_count]
    rows, from generation 7 on. *)
Definition ilo_state_sol_data_size (dev : ilo_dev) (max_decl_count : Z) : Z :=
  if ILO_GEN 7 <=? ilo_dev_gen dev then 8 * max_decl_count else 0.

(** ** The encoder *)

Section Encoder.

(** The command layout. *)
Variable hw : genhw.

(** The build: with [NDEBUG] the assertions are compiled out.  Inputs that
    fail an assertion can then reach shifts and array accesses that C
    leaves undefined; the model computes them with wrap-around and cut-off
    updates, and is meant for such inputs only where every operation is
    defined. *)
Variable NDEBUG : bool.

(** [assert(c)] *)
Definition c_assert (c : bool) : check unit :=
  if NDEBUG || c then Some tt else None.

(** Modelled from the spec: [ILO_DEV_ASSERT(dev, min_gen, max_gen)] of
    ilo_dev.h, the assertion that the generation of the device is one of
    those the function is written for. *)
Definition ILO_DEV_ASSERT (dev : ilo_dev) (min_gen max_gen : Z) : check unit :=
  c_assert ((ILO_GEN min_gen <=? ilo_dev_gen dev) &&
            (ilo_dev_gen dev <=? ILO_GEN max_gen)).

(** The body of the loop over the declarations of a stream, in
    [sol_stream_validate_gen7]. *)
Definition decl_validate (stream : ilo_state_sol_stream_info)
    (decl : ilo_state_sol_decl_info) : check unit :=
  (c_assert (is_hole decl || (attr decl <? vue_read_count stream)) ;;
   c_assert (attr decl <? 33) ;;
   c_assert ((component_base decl <? 4) &&
             (component_base decl + component_count decl <=? 4)) ;;
   c_assert (buffer decl <? ILO_STATE_SOL_MAX_BUFFER_COUNT))%check.

Fixpoint check_each {A} (f : A -> check unit) (l : list A) : check unit :=
  match l with
  | [] => Some tt
  | x :: rest => (f x ;; check_each f rest)%check
  end.

Definition sol_stream_validate_gen7 (dev : ilo_dev)
    (stream : ilo_state_sol_stream_info) : check bool :=
  (ILO_DEV_ASSERT dev 7 8 ;;
   c_assert (vue_read_base stream + vue_read_count stream <=?
             cv_vue_attr_count stream) ;;
   c_assert ((vue_read_base stream =? 0) || (vue_read_base stream =? 2)) ;;
   c_assert (vue_read_count stream <=? 34) ;;
   c_assert (decl_count stream <=? ILO_STATE_SOL_MAX_DECL_COUNT) ;;
   check_each (decl_validate stream) (decls stream) ;;
   Some true)%check.

(** The loop over the streams in [sol_validate_gen7], which returns at the
    first stream that does not validate. *)
Fixpoint validate_streams (dev : ilo_dev) (info : ilo_state_sol_info)
    (ids : list idx4) : check bool :=
  match ids with
  | [] => Some true
  | i :: rest =>
      (ok <- sol_stream_validate_gen7 dev (get4 (streams info) i) ;;
       if ok then validate_streams dev info rest else Some false)%check
  end.

Definition sol_validate_gen7 (dev : ilo_dev) (info : ilo_state_sol_info)
    : check bool :=
  (ILO_DEV_ASSERT dev 7 8 ;;
   ok <- validate_streams dev info all_idx4 ;;
   if ok then
     check_each (fun i =>
       c_assert ((get4 (buffer_strides info) i <=? 2048) &&
                 (get4 (buffer_strides info) i mod 4 =? 0))) all_idx4 ;;
     Some true
   else Some false)%check.

(** [vue_read[i].offset] and [vue_read[i].len] of
    [sol_set_gen7_3DSTATE_STREAMOUT]; both are [uint8_t], and the operands
    of [/] are not negative. *)
Definition vue_read_offset (stream : ilo_state_sol_stream_info) : Z :=
  wrap 8 (vue_read_base stream / 2).

Definition vue_read_len (stream : ilo_state_sol_stream_info) : Z :=
  let len := wrap 8 ((vue_read_count stream + 1) / 2) in
  if len =? 0 then len else wrap 8 (len - 1).

(** [(bool) x] *)
Definition to_bool (x : Z) : Z := Z.b2z (negb (x =? 0)).

Definition buffer_enables (info : ilo_state_sol_info) : Z :=
  wrap 8
    (Z.lor (Z.lor (Z.lor
       (Z.shiftl (to_bool (get4 (buffer_strides info) I3)) 3)
       (Z.shiftl (to_bool (get4 (buffer_strides info) I2)) 2))
       (Z.shiftl (to_bool (get4 (buffer_strides info) I1)) 1))
       (to_bool (get4 (buffer_strides info) I0))).

(** [if (b) dw1 |= flag;] on a [uint32_t]. *)
Definition or_flag (b : bool) (dw1 flag : Z) : Z :=
  if b then wrap 32 (Z.lor dw1 flag) else dw1.

(** [dw1] of [sol_set_gen7_3DSTATE_STREAMOUT], a [uint32_t]. *)
Definition streamout_dw1 (dev : ilo_dev) (info : ilo_state_sol_info) : Z :=
  let dw1 :=
    wrap 32 (Z.lor
      (Z.shiftl (render_stream info) (GEN7_SO_DW1_RENDER_STREAM_SELECT__SHIFT hw))
      (Z.shiftl (reorder_Z (tristrip_reorder info))
                (GEN7_SO_DW1_REORDER_MODE__SHIFT hw))) in
  let dw1 := or_flag (sol_enable info) dw1 (GEN7_SO_DW1_SO_ENABLE hw) in
  let dw1 := or_flag (render_disable info) dw1 (GEN7_SO_DW1_RENDER_DISABLE hw) in
  let dw1 := or_flag (stats_enable info) dw1 (GEN7_SO_DW1_STATISTICS hw) in
  if ilo_dev_gen dev <? ILO_GEN 8 then
    wrap 32 (Z.lor dw1 (Z.shiftl (buffer_enables info)
                                 (GEN7_SO_DW1_BUFFER_ENABLES__SHIFT hw)))
  else dw1.

(** [dw2] of [sol_set_gen7_3DSTATE_STREAMOUT]. *)
Definition streamout_dw2 (info : ilo_state_sol_info) : Z :=
  let offset i := vue_read_offset (get4 (streams info) i) in
  let len i := vue_read_len (get4 (streams info) i) in
  wrap 32
    (Z.lor (Z.lor (Z.lor (Z.lor (Z.lor (Z.lor (Z.lor
       (Z.shiftl (offset I3) (GEN7_SO_DW2_STREAM3_READ_OFFSET__SHIFT hw))
       (Z.shiftl (len I3) (GEN7_SO_DW2_STREAM3_READ_LEN__SHIFT hw)))
       (Z.shiftl (offset I2) (GEN7_SO_DW2_STREAM2_READ_OFFSET__SHIFT hw)))
       (Z.shiftl (len I2) (GEN7_SO_DW2_STREAM2_READ_LEN__SHIFT hw)))
       (Z.shiftl (offset I1) (GEN7_SO_DW2_STREAM1_READ_OFFSET__SHIFT hw)))
       (Z.shiftl (len I1) (GEN7_SO_DW2_STREAM1_READ_LEN__SHIFT hw)))
       (Z.shiftl (offset I0) (GEN7_SO_DW2_STREAM0_READ_OFFSET__SHIFT hw)))
       (Z.shiftl (len I0) (GEN7_SO_DW2_STREAM0_READ_LEN__SHIFT hw))).

(** [dw3] and [dw4], written from generation 8 on. *)
Definition streamout_dw3 (info : ilo_state_sol_info) : Z :=
  wrap 32 (Z.lor
    (Z.shiftl (get4 (buffer_strides info) I1) (GEN8_SO_DW3_BUFFER1_PITCH__SHIFT hw))
    (Z.shiftl (get4 (buffer_strides info) I0) (GEN8_SO_DW3_BUFFER0_PITCH__SHIFT hw))).

Definition streamout_dw4 (info : ilo_state_sol_info) : Z :=
  wrap 32 (Z.lor
    (Z.shiftl (get4 (buffer_strides info) I3) (GEN8_SO_DW4_BUFFER3_PITCH__SHIFT hw))
    (Z.shiftl (get4 (buffer_strides info) I2) (GEN8_SO_DW4_BUFFER2_PITCH__SHIFT hw))).

Definition sol_set_gen7_3DSTATE_STREAMOUT (dev : ilo_dev)
    (info : ilo_state_sol_info) : M bool :=
  (lift (ILO_DEV_ASSERT dev 7 8) ;;
   ok <- lift (sol_validate_gen7 dev info) ;;
   if negb ok then ret false else
   let dw1 := streamout_dw1 dev info in
   let dw2 := streamout_dw2 info in
   set_so 0 dw1 ;;
   set_so 1 dw2 ;;
   (if ILO_GEN 8 <=? ilo_dev_gen dev then
      let dw3 := streamout_dw3 info in
      let dw4 := streamout_dw4 info in
      set_so 2 dw3 ;;
      set_so 3 dw4
    else ret tt) ;;
   ret true)%run.

(** [mask] of [sol_set_gen7_3DSTATE_SO_DECL_LIST], a [uint8_t]. *)
Definition decl_mask (decl : ilo_state_sol_decl_info) : Z :=
  wrap 8 (Z.shiftl (Z.shiftl 1 (component_count decl) - 1) (component_base decl)).

(** [val], the packed row of one declaration, a [uint16_t]. *)
Definition decl_val (decl : ilo_state_sol_decl_info) : Z :=
  let val :=
    wrap 16 (Z.lor
      (Z.shiftl (buffer decl) (GEN7_SO_DECL_OUTPUT_SLOT__SHIFT hw))
      (Z.shiftl (decl_mask decl) (GEN7_SO_DECL_COMPONENT_MASK__SHIFT hw))) in
  if is_hole decl then wrap 16 (Z.lor val (GEN7_SO_DECL_HOLE_FLAG hw))
  else wrap 16 (Z.lor val
         (Z.shiftl (attr decl) (GEN7_SO_DECL_REG_INDEX__SHIFT hw))).

(** The loop over the declarations [decls[j]], [decls[j+1]], ... of stream
    [i]: it ors each row into [decl_list] and collects the buffers in
    [buffer_selects[i]] (a [uint8_t]).  [decl_list] holds the
    [max_decl_count] entries that the [memset] clears; the entries of the C
    array behind them are never read or copied, and an update there is
    dropped. *)
Fixpoint decl_loop (i : idx4) (j : nat) (ds : list ilo_state_sol_decl_info)
    (decl_list : list Z) (buffer_selects_i : Z) : list Z * Z :=
  match ds with
  | [] => (decl_list, buffer_selects_i)
  | decl :: rest =>
      let val := decl_val decl in
      let decl_list :=
        alter (fun row => Z.lor row (wrap 64 (Z.shiftl val (16 * idx4_Z i))))
              j decl_list in
      let buffer_selects_i :=
        wrap 8 (Z.lor buffer_selects_i (Z.shiftl 1 (buffer decl))) in
      decl_loop i (S j) rest decl_list buffer_selects_i
  end.

(** The local arrays of [sol_set_gen7_3DSTATE_SO_DECL_LIST]. *)
Record decl_locals := {
  decl_list : list Z;
  decl_counts : arr4 Z;
  buffer_selects : arr4 Z }.

(** The body of the loop over the streams. *)
Definition decl_stream (info : ilo_state_sol_info) (max_decl_count : Z)
    (l : decl_locals) (i : idx4) : check decl_locals :=
  let stream := get4 (streams info) i in
  (c_assert (decl_count stream <=? max_decl_count) ;;
   let '(rows, selects) := decl_loop i 0 (decls stream) (decl_list l) 0 in
   Some {| decl_list := rows;
           decl_counts := set4 (decl_counts l) i (decl_count stream);
           buffer_selects := set4 (buffer_selects l) i selects |})%check.

Fixpoint decl_streams (info : ilo_state_sol_info) (max_decl_count : Z)
    (ids : list idx4) (l : decl_locals) : check decl_locals :=
  match ids with
  | [] => Some l
  | i :: rest =>
      (l' <- decl_stream info max_decl_count l i ;;
       decl_streams info max_decl_count rest l')%check
  end.

(** [dw1] and [dw2] of [sol_set_gen7_3DSTATE_SO_DECL_LIST]. *)
Definition decl_dw1 (buffer_selects : arr4 Z) : Z :=
  wrap 32
    (Z.lor (Z.lor (Z.lor
       (Z.shiftl (get4 buffer_selects I3)
                 (GEN7_SO_DECL_DW1_STREAM3_BUFFER_SELECTS__SHIFT hw))
       (Z.shiftl (get4 buffer_selects I2)
                 (GEN7_SO_DECL_DW1_STREAM2_BUFFER_SELECTS__SHIFT hw)))
       (Z.shiftl (get4 buffer_selects I1)
                 (GEN7_SO_DECL_DW1_STREAM1_BUFFER_SELECTS__SHIFT hw)))
       (Z.shiftl (get4 buffer_selects I0)
                 (GEN7_SO_DECL_DW1_STREAM0_BUFFER_SELECTS__SHIFT hw))).

Definition decl_dw2 (decl_counts : arr4 Z) : Z :=
  wrap 32
    (Z.lor (Z.lor (Z.lor
       (Z.shiftl (get4 decl_counts I3)
                 (GEN7_SO_DECL_DW2_STREAM3_ENTRY_COUNT__SHIFT hw))
       (Z.shiftl (get4 decl_counts I2)
                 (GEN7_SO_DECL_DW2_STREAM2_ENTRY_COUNT__SHIFT hw)))
       (Z.shiftl (get4 decl_counts I1)
                 (GEN7_SO_DECL_DW2_STREAM1_ENTRY_COUNT__SHIFT hw)))
       (Z.shiftl (get4 decl_counts I0)
                 (GEN7_SO_DECL_DW2_STREAM0_ENTRY_COUNT__SHIFT hw))).

(** The locals before the loop: the [memset] has cleared [max_decl_count]
    entries of [decl_list]; the two other arrays are assigned in the loop
    before they are read.  [decl_list] has [ILO_STATE_SOL_MAX_DECL_COUNT]
    entries in the source: the model follows it for a [max_decl_count] of at
    most 128, which the validator asserts of every stream; beyond it the
    [memset] of the source leaves the array. *)
Definition decl_locals_init (max_decl_count : Z) : decl_locals :=
  {| decl_list := replicate (Z.to_nat max_decl_count) 0;
     decl_counts := Arr4 0 0 0 0;
     buffer_selects := Arr4 0 0 0 0 |}.

Definition sol_set_gen7_3DSTATE_SO_DECL_LIST (dev : ilo_dev)
    (info : ilo_state_sol_info) (max_decl_count : Z) : M bool :=
  (lift (ILO_DEV_ASSERT dev 7 8) ;;
   l <- lift (decl_streams info max_decl_count all_idx4
                (decl_locals_init max_decl_count)) ;;
   let dw1 := decl_dw1 (buffer_selects l) in
   let dw2 := decl_dw2 (decl_counts l) in
   set_so 4 dw1 ;;
   set_so 5 dw2 ;;
   memcpy_decl (decl_list l) ;;
   set_decl_count max_decl_count ;;
   ret true)%run.

(** [max_decl_count] as [ilo_state_sol_init] computes it. *)
Definition max_decl_count_of (info : ilo_state_sol_info) : Z :=
  fold_left
    (fun max_decl_count i =>
       if max_decl_count <? decl_count (get4 (streams info) i)
       then decl_count (get4 (streams info) i) else max_decl_count)
    [I1; I2; I3] (decl_count (get4 (streams info) I0)).

Definition ilo_state_sol_init (dev : ilo_dev) (info : ilo_state_sol_info)
    : M bool :=
  (reading (fun m => c_assert (ilo_is_zeroed_sol (sol m))) ;;
   reading (fun m => c_assert (ilo_is_zeroed (region (data info) m))) ;;
   r <- (if ILO_GEN 7 <=? ilo_dev_gen dev then
           let max_decl_count := max_decl_count_of info in
           reading (fun m =>
             c_assert (ilo_state_sol_data_size dev max_decl_count <=?
                       data_size info m)) ;;
           set_decl (data info) ;;
           r1 <- sol_set_gen7_3DSTATE_STREAMOUT dev info ;;
           r2 <- sol_set_gen7_3DSTATE_SO_DECL_LIST dev info max_decl_count ;;
           ret (true && r1 && r2)
         else ret true) ;;
   lift (c_assert r) ;;
   ret r)%run.

(** [memset(&info, 0, sizeof(info))] *)
Definition info_zero : ilo_state_sol_info :=
  let stream := {| cv_vue_attr_count := 0; vue_read_base := 0;
                   vue_read_count := 0; decls := [] |} in
  {| data := NULL; sol_enable := false; stats_enable := false;
     tristrip_reorder := GEN7_REORDER_LEADING; render_disable := false;
     render_stream := 0; buffer_strides := Arr4 0 0 0 0;
     streams := Arr4 stream stream stream stream |}.

Definition ilo_state_sol_init_disabled (dev : ilo_dev) (disable : bool)
    : M bool :=
  let info :=
    {| data := data info_zero; sol_enable := sol_enable info_zero;
       stats_enable := stats_enable info_zero;
       tristrip_reorder := tristrip_reorder info_zero;
       render_disable := disable;
       render_stream := render_stream info_zero;
       buffer_strides := buffer_strides info_zero;
       streams := streams info_zero |} in
  ilo_state_sol_init dev info.

End Encoder.

(** ** Vocabulary of the properties *)

Section Layout.

Variable hw : genhw.

(** The fields of the command words, at the shifts of the layout and with
    the widths of the values the validated encoder puts there. *)
Definition read_offset_fld (s : idx4) : fld :=
  Fld (match s with
       | I0 => GEN7_SO_DW2_STREAM0_READ_OFFSET__SHIFT hw
       | I1 => GEN7_SO_DW2_STREAM1_READ_OFFSET__SHIFT hw
       | I2 => GEN7_SO_DW2_STREAM2_READ_OFFSET__SHIFT hw
       | I3 => GEN7_SO_DW2_STREAM3_READ_OFFSET__SHIFT hw
       end) 1.

Definition read_len_fld (s : idx4) : fld :=
  Fld (match s with
       | I0 => GEN7_SO_DW2_STREAM0_READ_LEN__SHIFT hw
       | I1 => GEN7_SO_DW2_STREAM1_READ_LEN__SHIFT hw
       | I2 => GEN7_SO_DW2_STREAM2_READ_LEN__SHIFT hw
       | I3 => GEN7_SO_DW2_STREAM3_READ_LEN__SHIFT hw
       end) 5.

Definition buffer_enables_fld : fld :=
  Fld (GEN7_SO_DW1_BUFFER_ENABLES__SHIFT hw) 4.

(** [render_stream] is not validated: as a [uint8_t] it can take 8 bits. *)
Definition render_stream_fld : fld :=
  Fld (GEN7_SO_DW1_RENDER_STREAM_SELECT__SHIFT hw) 8.

Definition reorder_mode_fld : fld :=
  Fld (GEN7_SO_DW1_REORDER_MODE__SHIFT hw) 1.

(** A pitch is at most 2048 and takes 12 bits. *)
Definition pitch_fld (b : idx4) : fld :=
  Fld (match b with
       | I0 => GEN8_SO_DW3_BUFFER0_PITCH__SHIFT hw
       | I1 => GEN8_SO_DW3_BUFFER1_PITCH__SHIFT hw
       | I2 => GEN8_SO_DW4_BUFFER2_PITCH__SHIFT hw
       | I3 => GEN8_SO_DW4_BUFFER3_PITCH__SHIFT hw
       end) 12.

Definition output_slot_fld : fld := Fld (GEN7_SO_DECL_OUTPUT_SLOT__SHIFT hw) 2.
Definition component_mask_fld : fld :=
  Fld (GEN7_SO_DECL_COMPONENT_MASK__SHIFT hw) 4.
Definition reg_index_fld : fld := Fld (GEN7_SO_DECL_REG_INDEX__SHIFT hw) 6.

Definition buffer_selects_fld (s : idx4) : fld :=
  Fld (match s with
       | I0 => GEN7_SO_DECL_DW1_STREAM0_BUFFER_SELECTS__SHIFT hw
       | I1 => GEN7_SO_DECL_DW1_STREAM1_BUFFER_SELECTS__SHIFT hw
       | I2 => GEN7_SO_DECL_DW1_STREAM2_BUFFER_SELECTS__SHIFT hw
       | I3 => GEN7_SO_DECL_DW1_STREAM3_BUFFER_SELECTS__SHIFT hw
       end) 4.

Definition entry_count_shift (s : idx4) : Z :=
  match s with
  | I0 => GEN7_SO_DECL_DW2_STREAM0_ENTRY_COUNT__SHIFT hw
  | I1 => GEN7_SO_DECL_DW2_STREAM1_ENTRY_COUNT__SHIFT hw
  | I2 => GEN7_SO_DECL_DW2_STREAM2_ENTRY_COUNT__SHIFT hw
  | I3 => GEN7_SO_DECL_DW2_STREAM3_ENTRY_COUNT__SHIFT hw
  end.

(** A declaration count is a [uint8_t] of at most 128: it takes 8 bits. *)
Definition entry_count_fld (s : idx4) : fld := Fld (entry_count_shift s) 8.

(** A flag is a value of the [n]-bit word that leaves the fields of
    [clear] alone. *)
Definition flag_ok (n flag : Z) (clear : list fld) : bool :=
  (0 <=? flag) && (flag <? 2 ^ n) && forallb (fun f => field flag f =? 0) clear.

Definition dw1_ok : bool :=
  fld_in 32 buffer_enables_fld &&
  fld_disj buffer_enables_fld render_stream_fld &&
  fld_disj buffer_enables_fld reorder_mode_fld &&
  flag_ok 32 (GEN7_SO_DW1_SO_ENABLE hw) [buffer_enables_fld] &&
  flag_ok 32 (GEN7_SO_DW1_RENDER_DISABLE hw) [buffer_enables_fld] &&
  flag_ok 32 (GEN7_SO_DW1_STATISTICS hw) [buffer_enables_fld].

Definition dw2_ok : bool :=
  flds_ok 32 [read_offset_fld I3; read_len_fld I3;
              read_offset_fld I2; read_len_fld I2;
              read_offset_fld I1; read_len_fld I1;
              read_offset_fld I0; read_len_fld I0].

Definition pitch_ok : bool :=
  flds_ok 32 [pitch_fld I1; pitch_fld I0] &&
  flds_ok 32 [pitch_fld I3; pitch_fld I2].

Definition row_ok : bool :=
  flds_ok 16 [output_slot_fld; component_mask_fld; reg_index_fld] &&
  flag_ok 16 (GEN7_SO_DECL_HOLE_FLAG hw)
          [output_slot_fld; component_mask_fld; reg_index_fld] &&
  (0 <? GEN7_SO_DECL_HOLE_FLAG hw).

Definition selects_ok : bool :=
  flds_ok 32 [buffer_selects_fld I3; buffer_selects_fld I2;
              buffer_selects_fld I1; buffer_selects_fld I0].

Definition counts_ok : bool :=
  flds_ok 32 [entry_count_fld I3; entry_count_fld I2;
              entry_count_fld I1; entry_count_fld I0].

(** The layout keeps the fields of every word apart. *)
Definition genhw_ok : bool :=
  dw1_ok && dw2_ok && pitch_ok && row_ok && selects_ok && counts_ok.

End Layout.

(** The bits of stream [s] in a row of the declaration table. *)
Definition row_fld (s : idx4) : fld := Fld (16 * idx4_Z s) 16.

(** The checks of the validators, as one test. *)
Definition decl_valid (stream : ilo_state_sol_stream_info)
    (d : ilo_state_sol_decl_info) : bool :=
  (is_hole d || (attr d <? vue_read_count stream)) &&
  (attr d <? 33) &&
  ((component_base d <? 4) && (component_base d + component_count d <=? 4)) &&
  (buffer d <? ILO_STATE_SOL_MAX_BUFFER_COUNT).

Definition dev_valid (dev : ilo_dev) : bool :=
  (ILO_GEN 7 <=? ilo_dev_gen dev) && (ilo_dev_gen dev <=? ILO_GEN 8).

Definition stream_valid (stream : ilo_state_sol_stream_info) : bool :=
  (vue_read_base stream + vue_read_count stream <=? cv_vue_attr_count stream) &&
  ((vue_read_base stream =? 0) || (vue_read_base stream =? 2)) &&
  (vue_read_count stream <=? 34) &&
  (decl_count stream <=? ILO_STATE_SOL_MAX_DECL_COUNT) &&
  forallb (decl_valid stream) (decls stream).

Definition stride_valid (stride : Z) : bool :=
  (stride <=? 2048) && (stride mod 4 =? 0).

Definition info_valid (dev : ilo_dev) (info : ilo_state_sol_info) : bool :=
  dev_valid dev &&
  forallb (fun i => stream_valid (get4 (streams info) i)) all_idx4 &&
  forallb (fun i => stride_valid (get4 (buffer_strides info) i)) all_idx4.

(** A valid SOL info: the validator of an assert-enabled build accepts
    it. *)
Definition validates (dev : ilo_dev) (info : ilo_state_sol_info) : Prop :=
  sol_validate_gen7 false dev info = Some true.

(** The zero-initialised destination: the state object with its six words,
    pointer and count cleared, and a cleared scratch region of [n] rows. *)
Definition zero_machine (n : nat) : machine :=
  {| sol := {| so := replicate 6 0; decl := NULL; sol_decl_count := 0 |};
     scratch := replicate n 0 |}.

(** The scratch region of [n] rows is as large as the size query asks. *)
Definition scratch_fits (dev : ilo_dev) (info : ilo_state_sol_info) (n : nat)
    : bool :=
  ilo_state_sol_data_size dev (max_decl_count_of info) <=?
  data_size info (zero_machine n).

(** The declaration table of a state: the [decl_count] rows at [decl]. *)
Definition decl_table (m : machine) : list Z :=
  take (Z.to_nat (sol_decl_count (sol m))) (region (decl (sol m)) m).

(** The largest of the four declaration counts. *)
Definition largest_decl_count (info : ilo_state_sol_info) : Z :=
  Z.max (Z.max (decl_count (get4 (streams info) I0))
               (decl_count (get4 (streams info) I1)))
        (Z.max (decl_count (get4 (streams info) I2))
               (decl_count (get4 (streams info) I3))).

(** [c / 2], rounded up. *)
Definition ceil_half (c : Z) : Z := c / 2 + c mod 2.

(** The machine an encode step stopped with. *)
Definition outcome_machine {A} (o : outcome A) : machine :=
  match o with Abort m => m | Ret _ m => m end.

(** The info with the attribute index of declaration [k] of stream [s]
    replaced. *)
Definition set_attr (d : ilo_state_sol_decl_info) (a : Z)
    : ilo_state_sol_decl_info :=
  {| attr := a; is_hole := is_hole d; component_base := component_base d;
     component_count := component_count d; buffer := buffer d |}.

Definition stream_set_attr (stream : ilo_state_sol_stream_info) (k : nat)
    (a : Z) : ilo_state_sol_stream_info :=
  {| cv_vue_attr_count := cv_vue_attr_count stream;
     vue_read_base := vue_read_base stream;
     vue_read_count := vue_read_count stream;
     decls := alter (fun d => set_attr d a) k (decls stream) |}.

Definition info_set_attr (info : ilo_state_sol_info) (s : idx4) (k : nat)
    (a : Z) : ilo_state_sol_info :=
  {| data := data info; sol_enable := sol_enable info;
     stats_enable := stats_enable info;
     tristrip_reorder := tristrip_reorder info;
     render_disable := render_disable info;
     render_stream := render_stream info;
     buffer_strides := buffer_strides info;
     streams := set4 (streams info) s
                  (stream_set_attr (get4 (streams info) s) k a) |}.

(** ** The encoded state in closed form *)

Section Encoded.

Variable hw : genhw.

(** The machine with its command words replaced. *)
Definition with_so (m : machine) (ws : list Z) : machine :=
  {| sol := {| so := ws; decl := decl (sol m);
               sol_decl_count := sol_decl_count (sol m) |};
     scratch := scratch m |}.

(** The command words after [sol_set_gen7_3DSTATE_STREAMOUT]. *)
Definition streamout_words (dev : ilo_dev) (info : ilo_state_sol_info)
    (ws : list Z) : list Z :=
  let ws := <[1%nat := streamout_dw2 hw info]>
              (<[0%nat := streamout_dw1 hw dev info]> ws) in
  if ILO_GEN 8 <=? ilo_dev_gen dev
  then <[3%nat := streamout_dw4 hw info]> (<[2%nat := streamout_dw3 hw info]> ws)
  else ws.

(** What the declarations [ds] of a stream add to [buffer_selects[i]]. *)
Definition stream_selects (ds : list ilo_state_sol_decl_info) (bs : Z) : Z :=
  fold_left (fun bs d => wrap 8 (Z.lor bs (Z.shiftl 1 (buffer d)))) ds bs.

(** What stream [i] ors into the row of slot [k]. *)
Definition row_part (i : idx4) (ds : list ilo_state_sol_decl_info) (k : nat)
    : Z :=
  match ds !! k with
  | Some d => wrap 64 (Z.shiftl (decl_val hw d) (16 * idx4_Z i))
  | None => 0
  end.

(** The row of stream [s] at slot [k]: the packed declaration, or 0 behind
    the last declaration of the stream. *)
Definition stream_row (stream : ilo_state_sol_stream_info) (k : nat) : Z :=
  match decls stream !! k with
  | Some d => decl_val hw d
  | None => 0
  end.

(** The row of slot [k] after the four streams. *)
Definition table_row (info : ilo_state_sol_info) (k : nat) : Z :=
  Z.lor (Z.lor (Z.lor (Z.lor 0
    (row_part I0 (decls (get4 (streams info) I0)) k))
    (row_part I1 (decls (get4 (streams info) I1)) k))
    (row_part I2 (decls (get4 (streams info) I2)) k))
    (row_part I3 (decls (get4 (streams info) I3)) k).

Definition decl_rows (info : ilo_state_sol_info) (max_decl_count : Z)
    : list Z :=
  table_row info <$> seq 0 (Z.to_nat max_decl_count).

(** The local arrays after the loop over the streams. *)
Definition decl_locals_final (info : ilo_state_sol_info) (max_decl_count : Z)
    : decl_locals :=
  {| decl_list := decl_rows info max_decl_count;
     decl_counts :=
       Arr4 (decl_count (get4 (streams info) I0))
            (decl_count (get4 (streams info) I1))
            (decl_count (get4 (streams info) I2))
            (decl_count (get4 (streams info) I3));
     buffer_selects :=
       Arr4 (stream_selects (decls (get4 (streams info) I0)) 0)
            (stream_selects (decls (get4 (streams info) I1)) 0)
            (stream_selects (decls (get4 (streams info) I2)) 0)
            (stream_selects (decls (get4 (streams info) I3)) 0) |}.

(** The machine after [sol_set_gen7_3DSTATE_SO_DECL_LIST]. *)
Definition decl_list_machine (info : ilo_state_sol_info) (max_decl_count : Z)
    (m : machine) : machine :=
  let l := decl_locals_final info max_decl_count in
  {| sol := {| so := <[5%nat := decl_dw2 hw (decl_counts l)]>
                       (<[4%nat := decl_dw1 hw (buffer_selects l)]> (so (sol m)));
               decl := decl (sol m);
               sol_decl_count := max_decl_count |};
     scratch :=
       match decl (sol m) with
       | NULL => scratch m
       | info_data => take (length (scratch m)) (decl_list l)
                        ++ drop (length (decl_list l)) (scratch m)
       end |}.

(** The machine with [so->decl] set. *)
Definition with_decl (m : machine) (p : pointer) : machine :=
  {| sol := {| so := so (sol m); decl := p;
               sol_decl_count := sol_decl_count (sol m) |};
     scratch := scratch m |}.

(** The machine after a successful [ilo_state_sol_init] from generation 7
    on. *)
Definition encoded (dev : ilo_dev) (info : ilo_state_sol_info) (m : machine)
    : machine :=
  let m1 := with_decl m (data info) in
  let m2 := with_so m1 (streamout_words dev info (so (sol m1))) in
  decl_list_machine info (max_decl_count_of info) m2.

End Encoded.

(** ** Sample inputs *)

Definition dev7 : ilo_dev := {| ilo_dev_gen := ILO_GEN 7 |}.
Definition dev8 : ilo_dev := {| ilo_dev_gen := ILO_GEN 8 |}.

Definition stream_zero : ilo_state_sol_stream_info :=
  {| cv_vue_attr_count := 0; vue_read_base := 0; vue_read_count := 0;
     decls := [] |}.

(** Scenario B of the spec: one stream reading four attributes, with one
    declaration of all four components of attribute 0 to buffer 0; a
    second stream holds a hole. *)
Definition decl_b : ilo_state_sol_decl_info :=
  {| attr := 0; is_hole := false; component_base := 0; component_count := 4;
     buffer := 0 |}.

Definition decl_hole : ilo_state_sol_decl_info :=
  {| attr := 5; is_hole := true; component_base := 1; component_count := 2;
     buffer := 1 |}.

Definition info_b : ilo_state_sol_info :=
  {| data := info_data; sol_enable := true; stats_enable := false;
     tristrip_reorder := GEN7_REORDER_LEADING; render_disable := false;
     render_stream := 0; buffer_strides := Arr4 16 32 0 0;
     streams :=
       Arr4 {| cv_vue_attr_count := 4; vue_read_base := 0;
               vue_read_count := 4; decls := [decl_b] |}
            {| cv_vue_attr_count := 5; vue_read_base := 2;
               vue_read_count := 3; decls := [decl_hole; decl_b] |}
            stream_zero stream_zero |}.

(** Scenario C of the spec: a stream that reads 35 attributes from base 2. *)
Definition info_c : ilo_state_sol_info :=
  {| data := NULL; sol_enable := false; stats_enable := false;
     tristrip_reorder := GEN7_REORDER_LEADING; render_disable := false;
     render_stream := 0; buffer_strides := Arr4 0 0 0 0;
     streams :=
       Arr4 {| cv_vue_attr_count := 37; vue_read_base := 2;
               vue_read_count := 35; decls := [] |}
            stream_zero stream_zero stream_zero |}.

(** The all-zero info but for a render stream of 4, outside the 0..3 that
    the spec documents. *)
Definition info_rs4 : ilo_state_sol_info :=
  {| data := NULL; sol_enable := false; stats_enable := false;
     tristrip_reorder := GEN7_REORDER_LEADING; render_disable := false;
     render_stream := 4; buffer_strides := Arr4 0 0 0 0;
     streams := Arr4 stream_zero stream_zero stream_zero stream_zero |}.

(** An info whose first stream has 64 declarations. *)
Definition info_64 : ilo_state_sol_info :=
  {| data := info_data; sol_enable := true; stats_enable := false;
     tristrip_reorder := GEN7_REORDER_LEADING; render_disable := false;
     render_stream := 0; buffer_strides := Arr4 16 0 0 0;
     streams :=
       Arr4 {| cv_vue_attr_count := 4; vue_read_base := 0;
               vue_read_count := 4; decls := replicate 64 decl_b |}
            stream_zero stream_zero stream_zero |}.

(** ** Where the stream validator stops *)

(** The assertions of [sol_stream_validate_gen7], named in the order of the
    source; the four of the loop body carry the index of the declaration
    they are made on. *)
Inductive stream_assertion :=
| assert_dev_gen
| assert_read_window
| assert_read_base
| assert_read_count
| assert_decl_count
| assert_decl_attr_read (i : nat)
| assert_decl_attr (i : nat)
| assert_decl_components (i : nat)
| assert_decl_buffer (i : nat).

(** The conditions asserted in the loop, from declaration [i] on. *)
Fixpoint decl_assertions (stream : ilo_state_sol_stream_info) (i : nat)
    (ds : list ilo_state_sol_decl_info) : list (stream_assertion * bool) :=
  match ds with
  | [] => []
  | d :: rest =>
      (assert_decl_attr_read i,
       is_hole d || (attr d <? vue_read_count stream)) ::
      (assert_decl_attr i, attr d <? 33) ::
      (assert_decl_components i,
       (component_base d <? 4) &&
       (component_base d + component_count d <=? 4)) ::
      (assert_decl_buffer i, buffer d <? ILO_STATE_SOL_MAX_BUFFER_COUNT) ::
      decl_assertions stream (S i) rest
  end.

(** Every assertion that [sol_stream_validate_gen7] makes on a stream, with
    its condition, in the order in which the source makes them. *)
Definition stream_assertions (dev : ilo_dev)
    (stream : ilo_state_sol_stream_info) : list (stream_assertion * bool) :=
  (assert_dev_gen,
   (ILO_GEN 7 <=? ilo_dev_gen dev) && (ilo_dev_gen dev <=? ILO_GEN 8)) ::
  (assert_read_window,
   vue_read_base stream + vue_read_count stream <=? cv_vue_attr_count stream) ::
  (assert_read_base,
   (vue_read_base stream =? 0) || (vue_read_base stream =? 2)) ::
  (assert_read_count, vue_read_count stream <=? 34) ::
  (assert_decl_count, decl_count stream <=? ILO_STATE_SOL_MAX_DECL_COUNT) ::
  decl_assertions stream 0 (decls stream).

(** The first assertion of a sequence whose condition is false. *)
Fixpoint first_failed {A} (l : list (A * bool)) : option A :=
  match l with
  | [] => None
  | (a, c) :: rest => if c then first_failed rest else Some a
  end.

(** The assertion at which [sol_stream_validate_gen7] stops in a build with
    assertions, if it stops. *)
Definition sol_stream_validate_gen7_stops (dev : ilo_dev)
    (stream : ilo_state_sol_stream_info) : option stream_assertion :=
  first_failed (stream_assertions dev stream).

(** What [sol_set_gen7_3DSTATE_SO_DECL_LIST] needs of an info to stay
    inside its [decl_list[ILO_STATE_SOL_MAX_DECL_COUNT]] and inside the
    width of its shifts: at most 128 declarations in a stream, each with
    the fields that the validator asserts. *)
Definition decls_in_bounds (info : ilo_state_sol_info) : bool :=
  (max_decl_count_of info <=? ILO_STATE_SOL_MAX_DECL_COUNT) &&
  forallb (fun s => forallb (decl_valid (get4 (streams info) s))
                            (decls (get4 (streams info) s))) all_idx4.

(** ** Vocabulary of the further properties *)

Section SelectorLayout.

Variable hw : genhw.

(** The render-stream selector of the streams 0 to 3: two bits. *)
Definition render_select_fld : fld :=
  Fld (GEN7_SO_DW1_RENDER_STREAM_SELECT__SHIFT hw) 2.

Definition dw1_flds : list fld :=
  [render_select_fld; reorder_mode_fld hw; buffer_enables_fld hw].

(** The primary word can be decoded: its three fields are apart, and its
    three flags are not zero, leave the fields alone and share no bit. *)
Definition dw1_decodable : bool :=
  flds_ok 32 dw1_flds &&
  (flag_ok 32 (GEN7_SO_DW1_SO_ENABLE hw) dw1_flds &&
   flag_ok 32 (GEN7_SO_DW1_RENDER_DISABLE hw) dw1_flds &&
   flag_ok 32 (GEN7_SO_DW1_STATISTICS hw) dw1_flds) &&
  ((0 <? GEN7_SO_DW1_SO_ENABLE hw) &&
   (0 <? GEN7_SO_DW1_RENDER_DISABLE hw) &&
   (0 <? GEN7_SO_DW1_STATISTICS hw)) &&
  ((Z.land (GEN7_SO_DW1_SO_ENABLE hw) (GEN7_SO_DW1_RENDER_DISABLE hw) =? 0) &&
   (Z.land (GEN7_SO_DW1_SO_ENABLE hw) (GEN7_SO_DW1_STATISTICS hw) =? 0) &&
   (Z.land (GEN7_SO_DW1_RENDER_DISABLE hw) (GEN7_SO_DW1_STATISTICS hw) =? 0)).

End SelectorLayout.

(** The info with [cv_vue_attr_count] of stream [s] replaced. *)
Definition stream_set_cv (stream : ilo_state_sol_stream_info) (c : Z)
    : ilo_state_sol_stream_info :=
  {| cv_vue_attr_count := c;
     vue_read_base := vue_read_base stream;
     vue_read_count := vue_read_count stream;
     decls := decls stream |}.

Definition info_set_cv (info : ilo_state_sol_info) (s : idx4) (c : Z)
    : ilo_state_sol_info :=
  {| data := data info; sol_enable := sol_enable info;
     stats_enable := stats_enable info;
     tristrip_reorder := tristrip_reorder info;
     render_disable := render_disable info;
     render_stream := render_stream info;
     buffer_strides := buffer_strides info;
     streams := set4 (streams info) s (stream_set_cv (get4 (streams info) s) c) |}.

(** The two encoders of [ilo_state_sol_init] one after the other, in the
    order of the source and in the other order. *)
Definition streamout_then_decl_list (hw : genhw) (nd : bool) (dev : ilo_dev)
    (info : ilo_state_sol_info) : M bool :=
  (r1 <- sol_set_gen7_3DSTATE_STREAMOUT hw nd dev info ;;
   r2 <- sol_set_gen7_3DSTATE_SO_DECL_LIST hw nd dev info (max_decl_count_of info) ;;
   ret (r1 && r2))%run.

Definition decl_list_then_streamout (hw : genhw) (nd : bool) (dev : ilo_dev)
    (info : ilo_state_sol_info) : M bool :=
  (r2 <- sol_set_gen7_3DSTATE_SO_DECL_LIST hw nd dev info (max_decl_count_of info) ;;
   r1 <- sol_set_gen7_3DSTATE_STREAMOUT hw nd dev info ;;
   ret (r1 && r2))%run.

(** Further sample inputs: generations outside 7 to 8, and a destination
    that is in use. *)
Definition dev6 : ilo_dev := {| ilo_dev_gen := ILO_GEN 6 |}.
Definition dev9 : ilo_dev := {| ilo_dev_gen := ILO_GEN 9 |}.

Definition used_machine : machine :=
  {| sol := {| so := [1; 2; 3; 4; 5; 6]; decl := info_data;
               sol_decl_count := 7 |};
     scratch := [9; 9; 9] |}.

Definition info_sel : ilo_state_sol_info :=
  {| data := info_data; sol_enable := true; stats_enable := true;
     tristrip_reorder := GEN7_REORDER_TRAILING; render_disable := false;
     render_stream := 2; buffer_strides := Arr4 16 0 2048 0;
     streams := streams info_b |}.

(** * Properties *)

(** Case analysis on every test and every optional result of the goal. *)
Ltac outcome_cases :=
  repeat match goal with
         | |- context [if ?b then _ else _] => destruct b
         | |- context [match ?o with Some _ => _ | None => _ end] => destruct o
         end.

(** ** Bit fields *)

Section BitFields.

Lemma testbit_wrap n x j :
  0 <= n -> Z.testbit (wrap n x) j = Z.testbit x j && (j <? n).
Proof.
  intros Hn. unfold wrap.
  destruct (Z.ltb_spec j n) as [Hlt | Hge].
  - destruct (Z.neg_nonneg_cases j) as [Hneg | Hpos].
    + now rewrite !Z.testbit_neg_r.
    + rewrite Z.mod_pow2_bits_low by lia. now rewrite andb_true_r.
  - rewrite Z.mod_pow2_bits_high by lia. now rewrite andb_false_r.
Qed.

Lemma testbit_field w f j :
  0 <= j -> 0 <= f_width f ->
  Z.testbit (field w f) j = Z.testbit w (j + f_shift f) && (j <? f_width f).
Proof.
  intros Hj Hw. unfold field.
  rewrite Z.land_spec, Z.shiftr_spec by lia.
  f_equal. rewrite Z.testbit_ones by lia.
  destruct (Z.leb_spec 0 j); [reflexivity | lia].
Qed.

Lemma testbit_small v m j :
  0 <= v < 2 ^ m -> m <= j -> Z.testbit v j = false.
Proof.
  intros [Hv Hlt] Hj.
  destruct (Z.eq_dec v 0) as [-> | Hnz]; [apply Z.bits_0 |].
  apply Z.bits_above_log2; [lia |].
  destruct (Z.lt_ge_cases m 0) as [Hm | Hm].
  - rewrite Z.pow_neg_r in Hlt by lia. lia.
  - enough (Z.log2 v < m) by lia. apply Z.log2_lt_pow2; lia.
Qed.

Lemma small_by_bits v m :
  0 <= v -> 0 <= m -> (forall j, m <= j -> Z.testbit v j = false) -> v < 2 ^ m.
Proof.
  intros Hv Hm Hb.
  destruct (Z.eq_dec v 0) as [-> | Hnz]; [apply Z.pow_pos_nonneg; lia |].
  apply Z.log2_lt_pow2; [lia |].
  destruct (Z.lt_ge_cases (Z.log2 v) m) as [Hlt | Hge]; [exact Hlt |].
  specialize (Hb (Z.log2 v) Hge).
  rewrite Z.bit_log2 in Hb by lia. discriminate.
Qed.

Lemma field_0 f : field 0 f = 0.
Proof. unfold field. now rewrite Z.shiftr_0_l, Z.land_0_l. Qed.

Lemma field_lor a b f :
  field (Z.lor a b) f = Z.lor (field a f) (field b f).
Proof.
  unfold field. rewrite Z.shiftr_lor.
  apply Z.bits_inj'. intros j Hj.
  rewrite Z.lor_spec, !Z.land_spec, Z.lor_spec.
  destruct (Z.testbit (Z.shiftr a _) j), (Z.testbit (Z.shiftr b _) j),
    (Z.testbit (Z.ones _) j); reflexivity.
Qed.

Lemma field_wrap n x f :
  fld_in n f = true -> field (wrap n x) f = field x f.
Proof.
  unfold fld_in. rewrite !andb_true_iff, !Z.leb_le. intros [[Hs Hw] Hn].
  apply Z.bits_inj'. intros j Hj.
  rewrite !testbit_field by lia. rewrite testbit_wrap by lia.
  destruct (Z.ltb_spec j (f_width f)) as [Hlt | Hge].
  - destruct (Z.ltb_spec (j + f_shift f) n); [now rewrite andb_true_r | lia].
  - now rewrite !andb_false_r.
Qed.

(** A value read back from the field it was shifted to. *)
Lemma field_shiftl_hit f v :
  0 <= f_shift f -> fits (f, v) -> field (Z.shiftl v (f_shift f)) f = v.
Proof.
  unfold fits; simpl. intros Hs Hv.
  destruct (Z.lt_ge_cases (f_width f) 0) as [Hneg | Hw].
  { rewrite Z.pow_neg_r in Hv by lia. lia. }
  apply Z.bits_inj'. intros j Hj.
  rewrite testbit_field by lia. rewrite Z.shiftl_spec by lia.
  replace (j + f_shift f - f_shift f) with j by lia.
  destruct (Z.ltb_spec j (f_width f)) as [Hlt | Hge].
  - now rewrite andb_true_r.
  - rewrite andb_false_r. symmetry. now apply testbit_small with (f_width f).
Qed.

(** A value shifted to a field that does not meet [f] leaves [f] clear. *)
Lemma field_shiftl_miss f g v :
  0 <= f_shift f -> 0 <= f_width f -> fld_disj f g = true -> fits (g, v) ->
  field (Z.shiftl v (f_shift g)) f = 0.
Proof.
  unfold fits, fld_disj; simpl. rewrite orb_true_iff, !Z.leb_le.
  intros Hs Hwf Hd Hv.
  destruct (Z.lt_ge_cases (f_width g) 0) as [Hneg | Hwg].
  { rewrite Z.pow_neg_r in Hv by lia. lia. }
  apply Z.bits_inj'. intros j Hj.
  rewrite testbit_field by lia. rewrite Z.shiftl_spec, Z.bits_0 by lia.
  destruct (Z.ltb_spec j (f_width f)) as [Hlt | Hge];
    [rewrite andb_true_r | now rewrite andb_false_r].
  destruct (Z.lt_ge_cases (j + f_shift f - f_shift g) 0) as [Hlo | Hhi].
  - now apply Z.testbit_neg_r.
  - apply testbit_small with (f_width g); lia.
Qed.

(** Reading, from a packed word, a field that none of the packed ones
    meets. *)
Lemma field_pack_miss f fs :
  0 <= f_shift f -> 0 <= f_width f ->
  Forall (fun gv => fld_disj f (fst gv) = true /\ fits gv) fs ->
  field (pack fs) f = 0.
Proof.
  intros Hs Hw. induction 1 as [| [g v] rest [Hd Hv] _ IH]; simpl.
  - apply field_0.
  - rewrite field_lor, IH, Z.lor_0_r. now apply (field_shiftl_miss f g v).
Qed.

(** Reading back one of the packed fields, when no other one meets it. *)
Lemma field_pack_hit f v pre post :
  0 <= f_shift f -> 0 <= f_width f -> fits (f, v) ->
  Forall (fun gv => fld_disj f (fst gv) = true /\ fits gv) (pre ++ post) ->
  field (pack (pre ++ (f, v) :: post)) f = v.
Proof.
  intros Hs Hw Hv Hall. apply Forall_app in Hall as [Hpre Hpost].
  induction Hpre as [| [g u] pre' [Hd Hu] _ IH]; simpl.
  - rewrite field_lor, field_pack_miss, Z.lor_0_r by assumption.
    now apply field_shiftl_hit.
  - rewrite field_lor, IH, (field_shiftl_miss f g) by assumption.
    apply Z.lor_0_l.
Qed.

Lemma field_nonneg w f : 0 <= w -> 0 <= field w f.
Proof.
  intros Hw. unfold field. apply Z.land_nonneg. left.
  now apply Z.shiftr_nonneg.
Qed.

Lemma wrap_range n x : 0 <= n -> 0 <= wrap n x < 2 ^ n.
Proof. intros Hn. unfold wrap. apply Z.mod_pos_bound. now apply Z.pow_pos_nonneg. Qed.

Lemma wrap_small n x : 0 <= x < 2 ^ n -> wrap n x = x.
Proof. intros Hx. unfold wrap. now apply Z.mod_small. Qed.

Lemma wrap_lor n a b : 0 <= n -> wrap n (Z.lor a b) = Z.lor (wrap n a) (wrap n b).
Proof.
  intros Hn. unfold wrap. rewrite <- !Z.land_ones by lia.
  apply Z.land_lor_distr_l.
Qed.

Lemma wrap_wrap n x : 0 <= n -> wrap n (wrap n x) = wrap n x.
Proof. intros Hn. apply wrap_small. now apply wrap_range. Qed.

Lemma lor_range n a b : 0 <= n ->
  0 <= a < 2 ^ n -> 0 <= b < 2 ^ n -> 0 <= Z.lor a b < 2 ^ n.
Proof.
  intros Hn [Ha Ha'] [Hb Hb'].
  assert (H0 : 0 <= Z.lor a b) by (apply Z.lor_nonneg; lia).
  split; [exact H0 |]. apply small_by_bits; try lia.
  intros j Hj. rewrite Z.lor_spec.
  rewrite (testbit_small a n), (testbit_small b n) by lia. reflexivity.
Qed.

Lemma fld_disj_sym f g : fld_disj f g = fld_disj g f.
Proof. unfold fld_disj. apply orb_comm. Qed.

Lemma forallb_Forall {A} (p : A -> bool) l :
  forallb p l = true -> Forall (fun x => p x = true) l.
Proof.
  induction l as [| x rest IH]; simpl; [constructor |].
  rewrite andb_true_iff. intros [Hx Hrest]. constructor; auto.
Qed.

Lemma flds_ok_split n pre f post :
  flds_ok n (pre ++ f :: post) = true ->
  fld_in n f = true /\ Forall (fun g => fld_disj f g = true) (pre ++ post).
Proof.
  induction pre as [| g pre' IH]; simpl; rewrite !andb_true_iff.
  - intros [[Hin Hd] _]. split; [exact Hin | now apply forallb_Forall].
  - intros [[_ Hd] Hrest]. destruct (IH Hrest) as [Hin Hall].
    split; [exact Hin |]. constructor; [| exact Hall].
    apply forallb_Forall in Hd. apply Forall_app in Hd as [_ Hd].
    inversion Hd; subst. now rewrite fld_disj_sym.
Qed.

Lemma Forall_disj_fits f (l : list (fld * Z)) :
  Forall (fun g => fld_disj f g = true) (map fst l) -> Forall fits l ->
  Forall (fun gv => fld_disj f (fst gv) = true /\ fits gv) l.
Proof.
  induction l as [| gv rest IH]; simpl; intros Hd Hf; [constructor |].
  inversion Hd; subst. inversion Hf; subst. constructor; auto.
Qed.

(** Reading back one field of a word packed from fields that the layout
    keeps apart. *)
Lemma field_pack_In_exact n fvs f v :
  flds_ok n (map fst fvs) = true -> Forall fits fvs -> In (f, v) fvs ->
  field (pack fvs) f = v.
Proof.
  intros Hok Hfits Hin.
  apply in_split in Hin as (pre & post & ->).
  rewrite map_app in Hok. simpl in Hok.
  apply flds_ok_split in Hok as [Hin Hd].
  unfold fld_in in Hin. rewrite !andb_true_iff, !Z.leb_le in Hin.
  apply Forall_app in Hfits as [Hpre Hpost]. inversion Hpost; subst.
  apply field_pack_hit; try tauto.
  apply Forall_disj_fits.
  - now rewrite map_app.
  - apply Forall_app. split; assumption.
Qed.

Lemma flds_ok_In n fs f : flds_ok n fs = true -> In f fs -> fld_in n f = true.
Proof.
  intros Hok Hin. apply in_split in Hin as (pre & post & ->).
  now apply flds_ok_split in Hok as [Hin _].
Qed.

Lemma field_pack_In n fvs f v :
  flds_ok n (map fst fvs) = true -> Forall fits fvs -> In (f, v) fvs ->
  field (wrap n (pack fvs)) f = v.
Proof.
  intros Hok Hfits Hin. rewrite field_wrap.
  - now apply (field_pack_In_exact n).
  - apply (flds_ok_In n (map fst fvs)); [exact Hok |].
    apply (in_map fst) in Hin. exact Hin.
Qed.

End BitFields.

(** ** The validators *)

Section Validators.

Variable nd : bool.

Lemma c_assert_then {B} (a : bool) (k : check B) :
  check_bind (c_assert nd a) (fun _ => k) = if nd || a then k else None.
Proof. unfold c_assert. now destruct (nd || a). Qed.

Lemma guard_merge {B} (a b : bool) (k : check B) :
  (if nd || a then if nd || b then k else None else None) =
  if nd || (a && b) then k else None.
Proof. now destruct nd, a, b. Qed.

Lemma check_each_forallb {A} (f : A -> check unit) (g : A -> bool) l :
  (forall x, f x = c_assert nd (g x)) ->
  check_each f l = c_assert nd (forallb g l).
Proof.
  intros Hf. induction l as [| x rest IH]; simpl.
  - unfold c_assert. now rewrite orb_true_r.
  - rewrite Hf, IH. unfold c_assert, check_bind.
    now destruct nd, (g x), (forallb g rest).
Qed.

Lemma decl_validate_spec stream d :
  decl_validate nd stream d = c_assert nd (decl_valid stream d).
Proof.
  unfold decl_validate, decl_valid.
  rewrite !c_assert_then. unfold c_assert at 1.
  rewrite !guard_merge. now rewrite !andb_assoc.
Qed.

Lemma sol_stream_validate_gen7_spec dev stream :
  sol_stream_validate_gen7 nd dev stream =
  if nd || (dev_valid dev && stream_valid stream) then Some true else None.
Proof.
  unfold sol_stream_validate_gen7, ILO_DEV_ASSERT.
  rewrite (check_each_forallb _ (decl_valid stream))
    by apply decl_validate_spec.
  rewrite !c_assert_then, !guard_merge.
  unfold dev_valid, stream_valid. now rewrite !andb_assoc.
Qed.

Lemma validate_streams_spec dev info ids :
  validate_streams nd dev info ids =
  if nd || forallb (fun i => dev_valid dev && stream_valid (get4 (streams info) i)) ids
  then Some true else None.
Proof.
  induction ids as [| i rest IH]; simpl.
  - now rewrite orb_true_r.
  - rewrite sol_stream_validate_gen7_spec, IH.
    now destruct nd, (dev_valid dev), (stream_valid (get4 (streams info) i)).
Qed.

Lemma sol_validate_gen7_spec dev info :
  sol_validate_gen7 nd dev info =
  if nd || info_valid dev info then Some true else None.
Proof.
  unfold sol_validate_gen7.
  change (ILO_DEV_ASSERT nd dev 7 8) with (c_assert nd (dev_valid dev)).
  rewrite validate_streams_spec.
  rewrite (check_each_forallb _
             (fun i => stride_valid (get4 (buffer_strides info) i)))
    by reflexivity.
  rewrite c_assert_then. unfold info_valid, c_assert.
  destruct nd; [reflexivity |].
  destruct (dev_valid dev); [| reflexivity].
  cbn [orb andb forallb all_idx4 check_bind].
  repeat match goal with
         | |- context [stream_valid ?s] => destruct (stream_valid s); cbn [andb]
         end; try reflexivity.
  match goal with |- context [if ?b then Some tt else None] => now destruct b end.
Qed.

(** The validator never returns [false]: it accepts or it stops at an
    assertion. *)
Lemma sol_validate_gen7_cases dev info :
  sol_validate_gen7 nd dev info = Some true \/ sol_validate_gen7 nd dev info = None.
Proof. rewrite sol_validate_gen7_spec. destruct (nd || _); auto. Qed.

End Validators.

Lemma validates_iff dev info : validates dev info <-> info_valid dev info = true.
Proof.
  unfold validates. rewrite sol_validate_gen7_spec. simpl.
  destruct (info_valid dev info); split; congruence.
Qed.

Lemma validates_any_build nd dev info :
  validates dev info -> sol_validate_gen7 nd dev info = Some true.
Proof.
  rewrite validates_iff, sol_validate_gen7_spec. intros ->.
  now rewrite orb_true_r.
Qed.

Lemma valid_dev nd dev info :
  validates dev info -> ILO_DEV_ASSERT nd dev 7 8 = Some tt.
Proof.
  rewrite validates_iff. unfold info_valid, dev_valid, ILO_DEV_ASSERT, c_assert.
  rewrite !andb_true_iff. intros [[[H1 H2] _] _]. rewrite H1, H2.
  now rewrite orb_true_r.
Qed.

Lemma valid_gen dev info :
  validates dev info -> ILO_GEN 7 <= ilo_dev_gen dev <= ILO_GEN 8.
Proof.
  rewrite validates_iff. unfold info_valid, dev_valid.
  rewrite !andb_true_iff, !Z.leb_le. tauto.
Qed.

Lemma valid_stream dev info s :
  validates dev info -> stream_valid (get4 (streams info) s) = true.
Proof.
  rewrite validates_iff. unfold info_valid. simpl.
  rewrite !andb_true_iff. intros [[_ H] _]. destruct s; simpl; tauto.
Qed.

Lemma valid_stride dev info b :
  validates dev info -> stride_valid (get4 (buffer_strides info) b) = true.
Proof.
  rewrite validates_iff. unfold info_valid. simpl.
  rewrite !andb_true_iff. intros [_ H]. destruct b; simpl; tauto.
Qed.

Lemma wt_stream info s :
  info_wt info = true -> stream_wt (get4 (streams info) s) = true.
Proof.
  unfold info_wt. simpl. rewrite !andb_true_iff. intros [_ H].
  destruct s; simpl; tauto.
Qed.

Lemma wt_stride info b :
  info_wt info = true -> u16 (get4 (buffer_strides info) b) = true.
Proof.
  unfold info_wt. simpl. rewrite !andb_true_iff. intros [[_ H] _].
  destruct b; simpl; tauto.
Qed.

(** ** Running the encoder *)

Section Running.

Variable hw : genhw.
Variable nd : bool.

(** [sol_set_gen7_3DSTATE_STREAMOUT] stops at an assertion, with the
    machine as it was, or writes its words and returns [true]. *)
Lemma streamout_cases dev info m :
  sol_set_gen7_3DSTATE_STREAMOUT hw nd dev info m = Abort m \/
  sol_set_gen7_3DSTATE_STREAMOUT hw nd dev info m =
    Ret true (with_so m (streamout_words hw dev info (so (sol m)))).
Proof.
  unfold sol_set_gen7_3DSTATE_STREAMOUT, bind, lift.
  destruct (ILO_DEV_ASSERT nd dev 7 8); [| now left].
  destruct (sol_validate_gen7_cases nd dev info) as [-> | ->]; [| now left].
  right. unfold streamout_words, with_so, set_so, set_sol, ret. simpl.
  now destruct (ILO_GEN 8 <=? ilo_dev_gen dev).
Qed.

Lemma streamout_run dev info m :
  validates dev info ->
  sol_set_gen7_3DSTATE_STREAMOUT hw nd dev info m =
    Ret true (with_so m (streamout_words hw dev info (so (sol m)))).
Proof.
  intros Hv. unfold sol_set_gen7_3DSTATE_STREAMOUT, bind, lift.
  rewrite (valid_dev nd dev info Hv), (validates_any_build nd dev info Hv).
  unfold streamout_words, with_so, set_so, set_sol, ret. simpl.
  now destruct (ILO_GEN 8 <=? ilo_dev_gen dev).
Qed.

(** With assertions enabled, an info that does not validate stops
    [sol_set_gen7_3DSTATE_STREAMOUT] before it writes. *)
Lemma streamout_rejects dev info m :
  ~ validates dev info ->
  sol_set_gen7_3DSTATE_STREAMOUT hw false dev info m = Abort m.
Proof.
  intros Hv. unfold sol_set_gen7_3DSTATE_STREAMOUT, bind, lift.
  destruct (ILO_DEV_ASSERT false dev 7 8); [| reflexivity].
  destruct (sol_validate_gen7_cases false dev info) as [H | ->];
    [now elim Hv | reflexivity].
Qed.

Lemma decl_loop_snd i j ds l bs :
  snd (decl_loop hw i j ds l bs) = stream_selects ds bs.
Proof.
  revert j l bs. induction ds as [| d rest IH]; intros j l bs; simpl.
  - reflexivity.
  - apply IH.
Qed.

Lemma row_part_cons i d rest k :
  row_part hw i (d :: rest) (S k) = row_part hw i rest k.
Proof. reflexivity. Qed.

Lemma decl_loop_fst i j ds l bs k :
  fst (decl_loop hw i j ds l bs) !! k =
  (fun row => Z.lor row (if (j <=? k)%nat then row_part hw i ds (k - j) else 0))
    <$> l !! k.
Proof.
  revert j l bs. induction ds as [| d rest IH]; intros j l bs; simpl.
  - unfold row_part. rewrite lookup_nil.
    destruct (l !! k) as [row |]; simpl; [| reflexivity].
    destruct (j <=? k)%nat; now rewrite Z.lor_0_r.
  - rewrite IH. destruct (Nat.eq_dec j k) as [-> | Hne].
    + rewrite list_lookup_alter_eq.
      replace (S k <=? k)%nat with false by (symmetry; apply Nat.leb_gt; lia).
      rewrite Nat.leb_refl, Nat.sub_diag.
      destruct (l !! k) as [row |]; simpl; [| reflexivity].
      now rewrite Z.lor_0_r.
    + rewrite list_lookup_alter_ne by exact Hne.
      destruct (Nat.leb_spec (S j) k) as [Hle | Hgt].
      * replace (j <=? k)%nat with true by (symmetry; apply Nat.leb_le; lia).
        replace (k - j)%nat with (S (k - S j)) by lia.
        reflexivity.
      * replace (j <=? k)%nat with false by (symmetry; apply Nat.leb_gt; lia).
        reflexivity.
Qed.

Lemma decl_loop_length i j ds l bs :
  length (fst (decl_loop hw i j ds l bs)) = length l.
Proof.
  revert j l bs. induction ds as [| d rest IH]; intros j l bs; simpl.
  - reflexivity.
  - rewrite IH. apply length_alter.
Qed.

Lemma ltb_max a b : (if a <? b then b else a) = Z.max a b.
Proof. destruct (Z.ltb_spec a b); lia. Qed.

Lemma max_decl_count_of_largest info :
  max_decl_count_of info = largest_decl_count info.
Proof.
  unfold max_decl_count_of, largest_decl_count. simpl.
  rewrite !ltb_max. lia.
Qed.

Lemma decl_count_le_max info s :
  decl_count (get4 (streams info) s) <= max_decl_count_of info.
Proof.
  rewrite max_decl_count_of_largest. unfold largest_decl_count.
  destruct s; simpl; lia.
Qed.

Lemma decl_count_nonneg stream : 0 <= decl_count stream.
Proof. unfold decl_count. lia. Qed.

(** The loop over the streams, when no declaration count exceeds
    [max_decl_count]. *)
Lemma decl_streams_run info max_decl_count :
  (forall s, decl_count (get4 (streams info) s) <= max_decl_count) ->
  decl_streams hw nd info max_decl_count all_idx4
    (decl_locals_init max_decl_count) =
  Some (decl_locals_final hw info max_decl_count).
Proof.
  intros Hle.
  assert (Hstep : forall l i,
    decl_stream hw nd info max_decl_count l i =
    Some {| decl_list :=
              fst (decl_loop hw i 0 (decls (get4 (streams info) i)) (decl_list l) 0);
            decl_counts :=
              set4 (decl_counts l) i (decl_count (get4 (streams info) i));
            buffer_selects :=
              set4 (buffer_selects l) i
                   (stream_selects (decls (get4 (streams info) i)) 0) |}).
  { intros l i. unfold decl_stream, c_assert.
    replace (decl_count (get4 (streams info) i) <=? max_decl_count) with true
      by (symmetry; apply Z.leb_le, Hle).
    rewrite orb_true_r. simpl.
    rewrite <- (decl_loop_snd i 0 _ (decl_list l) 0).
    now destruct (decl_loop hw i 0 _ (decl_list l) 0). }
  unfold all_idx4. cbn [decl_streams].
  repeat (rewrite Hstep; cbn [check_bind]).
  simpl. unfold decl_locals_final. do 2 f_equal.
  apply list_eq. intros k. rewrite !decl_loop_fst. simpl.
  rewrite Nat.sub_0_r. unfold decl_rows. rewrite list_lookup_fmap.
  destruct (Nat.lt_ge_cases k (Z.to_nat max_decl_count)) as [Hlt | Hge].
  - rewrite lookup_replicate_2 by exact Hlt.
    rewrite lookup_seq_lt by exact Hlt. reflexivity.
  - rewrite (proj1 (lookup_replicate_None _ _ _) Hge).
    rewrite lookup_seq_ge by exact Hge. reflexivity.
Qed.

Lemma decl_rows_length info max_decl_count :
  length (decl_rows hw info max_decl_count) = Z.to_nat max_decl_count.
Proof. unfold decl_rows. now rewrite length_fmap, length_seq. Qed.

(** [sol_set_gen7_3DSTATE_SO_DECL_LIST] returns [true] or stops at an
    assertion with the machine as it was. *)
Lemma decl_list_cases dev info max_decl_count m :
  sol_set_gen7_3DSTATE_SO_DECL_LIST hw nd dev info max_decl_count m = Abort m \/
  exists m', sol_set_gen7_3DSTATE_SO_DECL_LIST hw nd dev info max_decl_count m
             = Ret true m' /\
             forall k, (k < 4)%nat -> so (sol m') !! k = so (sol m) !! k.
Proof.
  unfold sol_set_gen7_3DSTATE_SO_DECL_LIST, bind, lift.
  destruct (ILO_DEV_ASSERT nd dev 7 8); [| now left].
  destruct (decl_streams _ _ _ _ _ _) as [l |]; [| now left].
  right. unfold set_so, set_sol, memcpy_decl, set_decl_count, ret. simpl.
  destruct (decl (sol m)); simpl; eexists; (split; [reflexivity |]);
    intros k Hk; simpl; rewrite !list_lookup_insert_ne by lia; reflexivity.
Qed.

Lemma decl_list_run dev info m :
  ILO_DEV_ASSERT nd dev 7 8 = Some tt ->
  sol_set_gen7_3DSTATE_SO_DECL_LIST hw nd dev info (max_decl_count_of info) m =
    Ret true (decl_list_machine hw info (max_decl_count_of info) m).
Proof.
  intros Hdev. unfold sol_set_gen7_3DSTATE_SO_DECL_LIST, bind, lift.
  rewrite Hdev.
  rewrite decl_streams_run by (intros s; apply decl_count_le_max).
  unfold decl_list_machine, set_so, set_sol, memcpy_decl, set_decl_count, ret.
  simpl. now destruct (decl (sol m)).
Qed.

(** [sol_set_gen7_3DSTATE_STREAMOUT] in one equation. *)
Lemma streamout_eval dev info m :
  sol_set_gen7_3DSTATE_STREAMOUT hw nd dev info m =
  match ILO_DEV_ASSERT nd dev 7 8, sol_validate_gen7 nd dev info with
  | Some _, Some _ =>
      Ret true (with_so m (streamout_words hw dev info (so (sol m))))
  | _, _ => Abort m
  end.
Proof.
  unfold sol_set_gen7_3DSTATE_STREAMOUT, bind, lift.
  destruct (ILO_DEV_ASSERT nd dev 7 8); [| reflexivity].
  destruct (sol_validate_gen7_cases nd dev info) as [-> | ->]; [| reflexivity].
  unfold streamout_words, with_so, set_so, set_sol, ret. simpl.
  now destruct (ILO_GEN 8 <=? ilo_dev_gen dev).
Qed.

(** [ilo_state_sol_init] in one equation: it stops at one of its
    assertions or in the validation, all before the first command word is
    written, or it encodes and returns [true]. *)
Lemma init_eval dev info m :
  ilo_state_sol_init hw nd dev info m =
  if negb (nd || ilo_is_zeroed_sol (sol m)) then Abort m
  else if negb (nd || ilo_is_zeroed (region (data info) m)) then Abort m
  else if ILO_GEN 7 <=? ilo_dev_gen dev then
    if negb (nd || (ilo_state_sol_data_size dev (max_decl_count_of info) <=?
                    data_size info m))
    then Abort m
    else match ILO_DEV_ASSERT nd dev 7 8, sol_validate_gen7 nd dev info with
         | Some _, Some _ => Ret true (encoded hw dev info m)
         | _, _ => Abort (with_decl m (data info))
         end
  else Ret true m.
Proof.
  unfold ilo_state_sol_init, bind, reading, lift.
  unfold c_assert at 1. destruct (nd || ilo_is_zeroed_sol (sol m)); [| reflexivity].
  cbv beta iota. unfold c_assert at 1.
  destruct (nd || ilo_is_zeroed (region (data info) m)); [| reflexivity].
  cbv beta iota. cbn [negb].
  destruct (ILO_GEN 7 <=? ilo_dev_gen dev).
  - unfold c_assert at 1.
    destruct (nd || (_ <=? _)); [| reflexivity].
    cbv beta iota. cbn [negb]. unfold set_decl, set_sol. cbv beta iota.
    rewrite streamout_eval.
    destruct (ILO_DEV_ASSERT nd dev 7 8) as [[] |] eqn:Hdev; [| reflexivity].
    destruct (sol_validate_gen7 nd dev info); [| reflexivity].
    rewrite (decl_list_run dev info _ Hdev). cbv beta iota.
    unfold ret, c_assert. simpl andb. now rewrite orb_true_r.
  - unfold ret, c_assert. now rewrite orb_true_r.
Qed.

End Running.

Section RunningInit.

Variable hw : genhw.
Variable nd : bool.

Lemma ilo_is_zeroed_replicate n : ilo_is_zeroed (replicate n 0) = true.
Proof. induction n; simpl; auto. Qed.

Lemma c_assert_true : c_assert nd true = Some tt.
Proof. unfold c_assert. now rewrite orb_true_r. Qed.

(** A valid info is encoded, from the zero-initialised destination, into
    the state [encoded]. *)
Lemma init_run dev info n :
  validates dev info -> scratch_fits dev info n = true ->
  ilo_state_sol_init hw nd dev info (zero_machine n) =
    Ret true (encoded hw dev info (zero_machine n)).
Proof.
  intros Hv Hfit. pose proof (valid_gen dev info Hv) as [Hg7 _].
  assert (Hz : ilo_is_zeroed (region (data info) (zero_machine n)) = true).
  { destruct (data info); [reflexivity | apply ilo_is_zeroed_replicate]. }
  rewrite init_eval, Hz.
  change (ilo_is_zeroed_sol (sol (zero_machine n))) with true.
  unfold scratch_fits in Hfit. rewrite Hfit, !orb_true_r. cbn [negb].
  replace (ILO_GEN 7 <=? ilo_dev_gen dev) with true
    by (symmetry; now apply Z.leb_le).
  now rewrite (valid_dev nd dev info Hv), (validates_any_build nd dev info Hv).
Qed.

End RunningInit.

(** ** The primary control words *)

Section PrimaryWords.

Variable hw : genhw.

Lemma stream_bounds stream :
  stream_wt stream = true -> stream_valid stream = true ->
  (vue_read_base stream = 0 \/ vue_read_base stream = 2) /\
  0 <= vue_read_count stream <= 34.
Proof.
  unfold stream_wt, stream_valid, u8.
  rewrite !andb_true_iff, orb_true_iff, !Z.leb_le, !Z.eqb_eq. lia.
Qed.

Lemma vue_read_offset_spec stream :
  stream_wt stream = true -> stream_valid stream = true ->
  vue_read_offset stream = vue_read_base stream / 2 /\
  0 <= vue_read_offset stream < 2 ^ 1.
Proof.
  intros Hwt Hv. destruct (stream_bounds stream Hwt Hv) as [Hb _].
  unfold vue_read_offset. destruct Hb as [-> | ->]; now vm_compute.
Qed.

Lemma vue_read_len_spec stream :
  stream_wt stream = true -> stream_valid stream = true ->
  vue_read_len stream = Z.max 0 (ceil_half (vue_read_count stream) - 1) /\
  0 <= vue_read_len stream < 2 ^ 5.
Proof.
  intros Hwt Hv. destruct (stream_bounds stream Hwt Hv) as [_ Hc].
  unfold vue_read_len, ceil_half.
  assert (Hq : 0 <= (vue_read_count stream + 1) / 2 <= 17)
    by (Z.div_mod_to_equations; lia).
  rewrite (wrap_small 8 ((vue_read_count stream + 1) / 2)) by lia.
  destruct (Z.eqb_spec ((vue_read_count stream + 1) / 2) 0) as [H0 | Hn0].
  - rewrite H0. Z.div_mod_to_equations. lia.
  - rewrite wrap_small by lia. Z.div_mod_to_equations. lia.
Qed.

Lemma streamout_dw2_pack info :
  streamout_dw2 hw info =
  wrap 32 (pack
    [(read_offset_fld hw I3, vue_read_offset (get4 (streams info) I3));
     (read_len_fld hw I3, vue_read_len (get4 (streams info) I3));
     (read_offset_fld hw I2, vue_read_offset (get4 (streams info) I2));
     (read_len_fld hw I2, vue_read_len (get4 (streams info) I2));
     (read_offset_fld hw I1, vue_read_offset (get4 (streams info) I1));
     (read_len_fld hw I1, vue_read_len (get4 (streams info) I1));
     (read_offset_fld hw I0, vue_read_offset (get4 (streams info) I0));
     (read_len_fld hw I0, vue_read_len (get4 (streams info) I0))]).
Proof.
  unfold streamout_dw2. cbn [pack read_offset_fld read_len_fld f_shift].
  now rewrite Z.lor_0_r, !Z.lor_assoc.
Qed.

Lemma genhw_ok_parts :
  genhw_ok hw = true ->
  dw1_ok hw = true /\ dw2_ok hw = true /\ pitch_ok hw = true /\
  row_ok hw = true /\ selects_ok hw = true /\ counts_ok hw = true.
Proof. unfold genhw_ok. rewrite !andb_true_iff. tauto. Qed.

(** The fields of [dw2] read back the offset and length of each stream. *)
Lemma streamout_dw2_fields dev info s :
  genhw_ok hw = true -> info_wt info = true -> validates dev info ->
  field (streamout_dw2 hw info) (read_offset_fld hw s) =
    vue_read_offset (get4 (streams info) s) /\
  field (streamout_dw2 hw info) (read_len_fld hw s) =
    vue_read_len (get4 (streams info) s).
Proof.
  intros Hhw Hwt Hv. apply genhw_ok_parts in Hhw as (_ & Hok & _).
  assert (Hfits : forall i,
    fits (read_offset_fld hw i, vue_read_offset (get4 (streams info) i)) /\
    fits (read_len_fld hw i, vue_read_len (get4 (streams info) i))).
  { intros i. pose proof (wt_stream info i Hwt) as Hwi.
    pose proof (valid_stream dev info i Hv) as Hvi.
    split; unfold fits; simpl;
      [apply vue_read_offset_spec | apply vue_read_len_spec]; assumption. }
  rewrite streamout_dw2_pack.
  split; apply field_pack_In; try exact Hok;
    try (repeat constructor; apply Hfits);
    destruct s; simpl; tauto.
Qed.

End PrimaryWords.

(** C1: for every stream of a valid SOL info, the second primary control
    word holds, in the read-offset field of the stream, [vue_read_base / 2]
    and, in its read-length field, [max(0, ceil(vue_read_count / 2) - 1)],
    which is 0 when [vue_read_count] is 0 or 1. *)
Theorem streamout_vue_read_fields hw nd dev info m s :
  genhw_ok hw = true -> info_wt info = true -> validates dev info ->
  length (so (sol m)) = 6%nat ->
  exists m' dw2,
    sol_set_gen7_3DSTATE_STREAMOUT hw nd dev info m = Ret true m' /\
    so (sol m') !! 1%nat = Some dw2 /\
    field dw2 (read_offset_fld hw s) = vue_read_base (get4 (streams info) s) / 2 /\
    field dw2 (read_len_fld hw s) =
      Z.max 0 (ceil_half (vue_read_count (get4 (streams info) s)) - 1) /\
    (vue_read_count (get4 (streams info) s) <= 1 ->
     field dw2 (read_len_fld hw s) = 0).
Proof.
  intros Hhw Hwt Hv Hlen.
  destruct (streamout_dw2_fields hw dev info s Hhw Hwt Hv) as [Hoff Hl].
  pose proof (wt_stream info s Hwt) as Hws.
  pose proof (valid_stream dev info s Hv) as Hvs.
  destruct (vue_read_offset_spec _ Hws Hvs) as [Ho _].
  destruct (vue_read_len_spec _ Hws Hvs) as [Hn _].
  destruct (stream_bounds _ Hws Hvs) as [_ Hc].
  exists (with_so m (streamout_words hw dev info (so (sol m)))),
         (streamout_dw2 hw info).
  split; [now apply streamout_run |].
  split.
  { unfold streamout_words. simpl.
    destruct (ILO_GEN 8 <=? ilo_dev_gen dev);
      rewrite ?list_lookup_insert_ne by lia;
      apply list_lookup_insert_eq; rewrite ?length_insert; lia. }
  rewrite Hoff, Hl, Ho, Hn. repeat split.
  intros Hle. unfold ceil_half. Z.div_mod_to_equations. lia.
Qed.

Lemma streamout_vue_read_fields_witness :
  exists m' dw2,
    sol_set_gen7_3DSTATE_STREAMOUT ivb_hw false dev7 info_b (zero_machine 2)
      = Ret true m' /\
    so (sol m') !! 1%nat = Some dw2 /\
    field dw2 (read_offset_fld ivb_hw I1) = 2 / 2 /\
    field dw2 (read_len_fld ivb_hw I1) = Z.max 0 (ceil_half 3 - 1) /\
    (3 <= 1 -> field dw2 (read_len_fld ivb_hw I1) = 0).
Proof.
  apply (streamout_vue_read_fields ivb_hw false dev7 info_b (zero_machine 2) I1);
    reflexivity.
Defined.

Section BufferWords.

Variable hw : genhw.

Lemma buffer_enables_bits info i :
  Z.testbit (buffer_enables info) (idx4_Z i) =
  negb (get4 (buffer_strides info) i =? 0).
Proof.
  unfold buffer_enables, to_bool. destruct i; cbn [get4];
  destruct (a0 (buffer_strides info) =? 0), (a1 (buffer_strides info) =? 0),
    (a2 (buffer_strides info) =? 0), (a3 (buffer_strides info) =? 0);
    reflexivity.
Qed.

Lemma buffer_enables_range info : 0 <= buffer_enables info < 2 ^ 4.
Proof.
  unfold buffer_enables, to_bool. cbn [get4].
  destruct (a0 (buffer_strides info) =? 0), (a1 (buffer_strides info) =? 0),
    (a2 (buffer_strides info) =? 0), (a3 (buffer_strides info) =? 0);
    vm_compute; split; congruence.
Qed.

Lemma field_flag (b : bool) x flag f :
  fld_in 32 f = true -> field x f = 0 -> field flag f = 0 ->
  field (or_flag b x flag) f = 0.
Proof.
  intros Hin Hx Hf. unfold or_flag. destruct b; [| exact Hx].
  now rewrite field_wrap, field_lor, Hx, Hf by exact Hin.
Qed.

Lemma flag_ok_clear n flag f :
  flag_ok n flag [f] = true -> 0 <= flag < 2 ^ n /\ field flag f = 0.
Proof.
  unfold flag_ok. simpl.
  rewrite !andb_true_iff, Z.leb_le, Z.ltb_lt, Z.eqb_eq. tauto.
Qed.

Lemma reorder_Z_range r : 0 <= reorder_Z r < 2 ^ 1.
Proof. destruct r; simpl; lia. Qed.

(** The buffer-enable field of [dw1]: the enables before generation 8,
    clear from generation 8 on. *)
Lemma streamout_dw1_enables dev info :
  genhw_ok hw = true -> info_wt info = true ->
  field (streamout_dw1 hw dev info) (buffer_enables_fld hw) =
  if ilo_dev_gen dev <? ILO_GEN 8 then buffer_enables info else 0.
Proof.
  intros Hhw Hwt. apply genhw_ok_parts in Hhw as (Hok & _).
  unfold dw1_ok in Hok. rewrite !andb_true_iff in Hok.
  destruct Hok as [[[[[Hin Hrs] Hro] Hse] Hrd] Hst].
  apply flag_ok_clear in Hse as [_ Hse].
  apply flag_ok_clear in Hrd as [_ Hrd].
  apply flag_ok_clear in Hst as [_ Hst].
  assert (Hsh : 0 <= f_shift (buffer_enables_fld hw) /\
                0 <= f_width (buffer_enables_fld hw)).
  { unfold fld_in in Hin. rewrite !andb_true_iff, !Z.leb_le in Hin. tauto. }
  assert (Hr : 0 <= render_stream info < 2 ^ 8).
  { unfold info_wt, u8 in Hwt. rewrite !andb_true_iff, !Z.leb_le in Hwt. lia. }
  unfold streamout_dw1.
  set (base := wrap 32 (Z.lor (Z.shiftl (render_stream info) _) _)).
  assert (Hbase : field base (buffer_enables_fld hw) = 0).
  { unfold base. rewrite field_wrap, field_lor by exact Hin.
    assert (E1 : field (Z.shiftl (render_stream info)
                          (GEN7_SO_DW1_RENDER_STREAM_SELECT__SHIFT hw))
                       (buffer_enables_fld hw) = 0).
    { apply (field_shiftl_miss _ (render_stream_fld hw));
        unfold fits; simpl; tauto. }
    assert (E2 : field (Z.shiftl (reorder_Z (tristrip_reorder info))
                          (GEN7_SO_DW1_REORDER_MODE__SHIFT hw))
                       (buffer_enables_fld hw) = 0).
    { apply (field_shiftl_miss _ (reorder_mode_fld hw)); try tauto.
      apply reorder_Z_range. }
    now rewrite E1, E2. }
  pose proof (field_flag (sol_enable info) base _ _ Hin Hbase Hse) as H1.
  pose proof (field_flag (render_disable info) _ _ _ Hin H1 Hrd) as H2.
  pose proof (field_flag (stats_enable info) _ _ _ Hin H2 Hst) as H3.
  destruct (ilo_dev_gen dev <? ILO_GEN 8); [| exact H3].
  rewrite field_wrap, field_lor, H3, Z.lor_0_l by exact Hin.
  apply (field_shiftl_hit (buffer_enables_fld hw)); [tauto |].
  unfold fits; simpl. apply buffer_enables_range.
Qed.

Lemma stride_fits dev info b :
  info_wt info = true -> validates dev info ->
  fits (pitch_fld hw b, get4 (buffer_strides info) b).
Proof.
  intros Hwt Hv. pose proof (wt_stride info b Hwt) as Hw.
  pose proof (valid_stride dev info b Hv) as Hs.
  unfold u16 in Hw. unfold stride_valid in Hs.
  rewrite !andb_true_iff, !Z.leb_le in *. unfold fits; simpl. lia.
Qed.

(** The pitch words read back the four strides. *)
Lemma streamout_pitch_fields dev info :
  genhw_ok hw = true -> info_wt info = true -> validates dev info ->
  field (streamout_dw3 hw info) (pitch_fld hw I0) = get4 (buffer_strides info) I0 /\
  field (streamout_dw3 hw info) (pitch_fld hw I1) = get4 (buffer_strides info) I1 /\
  field (streamout_dw4 hw info) (pitch_fld hw I2) = get4 (buffer_strides info) I2 /\
  field (streamout_dw4 hw info) (pitch_fld hw I3) = get4 (buffer_strides info) I3.
Proof.
  intros Hhw Hwt Hv. apply genhw_ok_parts in Hhw as (_ & _ & Hok & _).
  unfold pitch_ok in Hok. rewrite andb_true_iff in Hok. destruct Hok as [H10 H32].
  assert (E3 : streamout_dw3 hw info =
    wrap 32 (pack [(pitch_fld hw I1, get4 (buffer_strides info) I1);
                   (pitch_fld hw I0, get4 (buffer_strides info) I0)])).
  { unfold streamout_dw3. cbn [pack pitch_fld f_shift]. now rewrite Z.lor_0_r. }
  assert (E4 : streamout_dw4 hw info =
    wrap 32 (pack [(pitch_fld hw I3, get4 (buffer_strides info) I3);
                   (pitch_fld hw I2, get4 (buffer_strides info) I2)])).
  { unfold streamout_dw4. cbn [pack pitch_fld f_shift]. now rewrite Z.lor_0_r. }
  rewrite E3, E4.
  repeat split; apply field_pack_In; try assumption;
    try (repeat constructor; now apply (stride_fits dev));
    simpl; tauto.
Qed.

Lemma streamout_words_lookup dev info ws :
  length ws = 6%nat ->
  streamout_words hw dev info ws !! 0%nat = Some (streamout_dw1 hw dev info) /\
  streamout_words hw dev info ws !! 1%nat = Some (streamout_dw2 hw info) /\
  streamout_words hw dev info ws !! 2%nat =
    (if ILO_GEN 8 <=? ilo_dev_gen dev then Some (streamout_dw3 hw info)
     else ws !! 2%nat) /\
  streamout_words hw dev info ws !! 3%nat =
    (if ILO_GEN 8 <=? ilo_dev_gen dev then Some (streamout_dw4 hw info)
     else ws !! 3%nat) /\
  forall k, (4 <= k)%nat -> streamout_words hw dev info ws !! k = ws !! k.
Proof.
  intros Hlen. unfold streamout_words.
  destruct (ILO_GEN 8 <=? ilo_dev_gen dev);
    repeat split; try (intros k Hk);
    repeat first
      [ rewrite list_lookup_insert_ne by lia
      | rewrite list_lookup_insert_eq by (rewrite ?length_insert; lia) ];
    reflexivity.
Qed.

End BufferWords.

(** C4: for a valid SOL info, before generation 8 the primary word has one
    enable bit per buffer, set when the stride of the buffer is not zero,
    and words 2 and 3 are not written; from generation 8 on the enable bits
    are clear and words 2 and 3 carry the four pitches, two to a word. *)
Theorem streamout_buffer_words hw nd dev info m :
  genhw_ok hw = true -> info_wt info = true -> validates dev info ->
  length (so (sol m)) = 6%nat ->
  exists m' dw1,
    sol_set_gen7_3DSTATE_STREAMOUT hw nd dev info m = Ret true m' /\
    so (sol m') !! 0%nat = Some dw1 /\
    if ilo_dev_gen dev <? ILO_GEN 8 then
      (forall i, Z.testbit dw1 (GEN7_SO_DW1_BUFFER_ENABLES__SHIFT hw + idx4_Z i)
                 = negb (get4 (buffer_strides info) i =? 0)) /\
      so (sol m') !! 2%nat = so (sol m) !! 2%nat /\
      so (sol m') !! 3%nat = so (sol m) !! 3%nat
    else
      (forall i, Z.testbit dw1 (GEN7_SO_DW1_BUFFER_ENABLES__SHIFT hw + idx4_Z i)
                 = false) /\
      exists dw3 dw4,
        so (sol m') !! 2%nat = Some dw3 /\ so (sol m') !! 3%nat = Some dw4 /\
        field dw3 (pitch_fld hw I0) = get4 (buffer_strides info) I0 /\
        field dw3 (pitch_fld hw I1) = get4 (buffer_strides info) I1 /\
        field dw4 (pitch_fld hw I2) = get4 (buffer_strides info) I2 /\
        field dw4 (pitch_fld hw I3) = get4 (buffer_strides info) I3.
Proof.
  intros Hhw Hwt Hv Hlen.
  destruct (streamout_words_lookup hw dev info _ Hlen)
    as (H0 & _ & H2 & H3 & _).
  pose proof (streamout_dw1_enables hw dev info Hhw Hwt) as Hen.
  assert (Hbit : forall i,
    Z.testbit (streamout_dw1 hw dev info)
              (GEN7_SO_DW1_BUFFER_ENABLES__SHIFT hw + idx4_Z i) =
    Z.testbit (field (streamout_dw1 hw dev info) (buffer_enables_fld hw))
              (idx4_Z i)).
  { intros i. rewrite testbit_field by (simpl; destruct i; simpl; lia).
    simpl. rewrite (Z.add_comm (idx4_Z i)).
    destruct i; simpl; now rewrite andb_true_r. }
  exists (with_so m (streamout_words hw dev info (so (sol m)))),
         (streamout_dw1 hw dev info).
  split; [now apply streamout_run |]. split; [exact H0 |].
  simpl. rewrite H2, H3.
  destruct (Z.ltb_spec (ilo_dev_gen dev) (ILO_GEN 8)) as [Hlt | Hge].
  - replace (ILO_GEN 8 <=? ilo_dev_gen dev) with false
      by (symmetry; apply Z.leb_gt; lia).
    repeat split. intros i. rewrite Hbit, Hen. apply buffer_enables_bits.
  - replace (ILO_GEN 8 <=? ilo_dev_gen dev) with true
      by (symmetry; apply Z.leb_le; lia).
    split.
    + intros i. rewrite Hbit, Hen. apply Z.bits_0.
    + exists (streamout_dw3 hw info), (streamout_dw4 hw info).
      split; [reflexivity |]. split; [reflexivity |].
      now apply (streamout_pitch_fields hw dev).
Qed.

Lemma streamout_buffer_words_witness :
  (exists m' dw1,
     sol_set_gen7_3DSTATE_STREAMOUT ivb_hw false dev7 info_b (zero_machine 2)
       = Ret true m' /\
     so (sol m') !! 0%nat = Some dw1 /\
     (forall i, Z.testbit dw1 (8 + idx4_Z i)
                = negb (get4 (buffer_strides info_b) i =? 0)) /\
     so (sol m') !! 2%nat = Some 0 /\ so (sol m') !! 3%nat = Some 0) /\
  (exists m' dw1,
     sol_set_gen7_3DSTATE_STREAMOUT ivb_hw false dev8 info_b (zero_machine 2)
       = Ret true m' /\
     so (sol m') !! 0%nat = Some dw1 /\
     (forall i, Z.testbit dw1 (8 + idx4_Z i) = false) /\
     exists dw3 dw4,
       so (sol m') !! 2%nat = Some dw3 /\ so (sol m') !! 3%nat = Some dw4 /\
       field dw3 (pitch_fld ivb_hw I0) = 16 /\
       field dw3 (pitch_fld ivb_hw I1) = 32 /\
       field dw4 (pitch_fld ivb_hw I2) = 0 /\
       field dw4 (pitch_fld ivb_hw I3) = 0).
Proof.
  split.
  - apply (streamout_buffer_words ivb_hw false dev7 info_b (zero_machine 2));
      reflexivity.
  - apply (streamout_buffer_words ivb_hw false dev8 info_b (zero_machine 2));
      reflexivity.
Defined.

(** ** Words that generation 7 leaves alone *)

(** Before generation 8, [sol_set_gen7_3DSTATE_STREAMOUT] writes words 0
    and 1 only, whatever the info and whether it stops or returns. *)
Lemma streamout_frame hw nd dev info m k :
  ilo_dev_gen dev < ILO_GEN 8 -> (2 <= k)%nat ->
  so (sol (outcome_machine (sol_set_gen7_3DSTATE_STREAMOUT hw nd dev info m))) !! k
  = so (sol m) !! k.
Proof.
  intros Hgen Hk.
  destruct (streamout_cases hw nd dev info m) as [-> | ->]; simpl;
    [reflexivity |].
  unfold streamout_words.
  replace (ILO_GEN 8 <=? ilo_dev_gen dev) with false
    by (symmetry; apply Z.leb_gt; lia).
  now rewrite !list_lookup_insert_ne by lia.
Qed.

(** Before generation 8, the whole entry point leaves words 2 and 3 as they
    were, whatever the info and the outcome. *)
Lemma init_frame hw nd dev info m k :
  ilo_dev_gen dev < ILO_GEN 8 -> k = 2%nat \/ k = 3%nat ->
  so (sol (outcome_machine (ilo_state_sol_init hw nd dev info m))) !! k
  = so (sol m) !! k.
Proof.
  intros Hgen Hk. rewrite init_eval.
  outcome_cases; simpl; try reflexivity.
  unfold streamout_words. simpl.
  replace (ILO_GEN 8 <=? ilo_dev_gen dev) with false
    by (symmetry; apply Z.leb_gt; lia).
  now rewrite !list_lookup_insert_ne by lia.
Qed.

(** C10: before generation 8 the primary control-word encoder writes only
    words 0 and 1: every later word is as it was; the whole entry point
    leaves words 2 and 3 as they were; and after the encode of a valid info
    into a zero-initialised destination words 2 and 3 are zero. *)
Theorem streamout_gen7_words_2_3 hw nd dev info m n :
  ilo_dev_gen dev < ILO_GEN 8 -> validates dev info ->
  scratch_fits dev info n = true ->
  (forall k, (2 <= k)%nat ->
     so (sol (outcome_machine (sol_set_gen7_3DSTATE_STREAMOUT hw nd dev info m))) !! k
     = so (sol m) !! k) /\
  (forall k, k = 2%nat \/ k = 3%nat ->
     so (sol (outcome_machine (ilo_state_sol_init hw nd dev info m))) !! k
     = so (sol m) !! k) /\
  exists m',
    ilo_state_sol_init hw nd dev info (zero_machine n) = Ret true m' /\
    so (sol m') !! 2%nat = Some 0 /\ so (sol m') !! 3%nat = Some 0.
Proof.
  intros Hgen Hv Hfit. split; [| split].
  - intros k Hk. now apply streamout_frame.
  - intros k Hk. now apply init_frame.
  - exists (encoded hw dev info (zero_machine n)).
    pose proof (init_run hw nd dev info n Hv Hfit) as Hrun.
    split; [exact Hrun |].
    pose proof (init_frame hw nd dev info (zero_machine n) 2 Hgen) as H2.
    pose proof (init_frame hw nd dev info (zero_machine n) 3 Hgen) as H3.
    rewrite Hrun in H2, H3. simpl outcome_machine in H2, H3.
    rewrite H2, H3 by auto. split; reflexivity.
Qed.

Lemma streamout_gen7_words_2_3_witness :
  (forall k, (2 <= k)%nat ->
     so (sol (outcome_machine
       (sol_set_gen7_3DSTATE_STREAMOUT ivb_hw false dev7 info_b (zero_machine 2)))) !! k
     = so (sol (zero_machine 2)) !! k) /\
  (forall k, k = 2%nat \/ k = 3%nat ->
     so (sol (outcome_machine
       (ilo_state_sol_init ivb_hw false dev7 info_b (zero_machine 2)))) !! k
     = so (sol (zero_machine 2)) !! k) /\
  exists m',
    ilo_state_sol_init ivb_hw false dev7 info_b (zero_machine 2) = Ret true m' /\
    so (sol m') !! 2%nat = Some 0 /\ so (sol m') !! 3%nat = Some 0.
Proof.
  apply (streamout_gen7_words_2_3 ivb_hw false dev7 info_b (zero_machine 2) 2);
    reflexivity.
Defined.

(** ** The disabled state *)

Lemma info_disabled_validates dev disable :
  ILO_GEN 7 <= ilo_dev_gen dev <= ILO_GEN 8 ->
  validates dev
    {| data := NULL; sol_enable := false; stats_enable := false;
       tristrip_reorder := GEN7_REORDER_LEADING; render_disable := disable;
       render_stream := 0; buffer_strides := Arr4 0 0 0 0;
       streams := Arr4 stream_zero stream_zero stream_zero stream_zero |}.
Proof.
  intros [H7 H8]. apply validates_iff. unfold info_valid, dev_valid.
  rewrite !andb_true_iff, !Z.leb_le. repeat split; auto.
Qed.

(** C7: the disabled constructor succeeds on a zero-initialised
    destination: word 0 is the render-disable flag when it is asked for and
    zero otherwise, every other word is zero, and the declaration table has
    length 0. *)
Theorem init_disabled_state hw nd dev disable n :
  genhw_ok hw = true -> ILO_GEN 7 <= ilo_dev_gen dev <= ILO_GEN 8 ->
  ilo_state_sol_init_disabled hw nd dev disable (zero_machine n) =
  Ret true
    {| sol := {| so := [if disable then GEN7_SO_DW1_RENDER_DISABLE hw else 0;
                        0; 0; 0; 0; 0];
                 decl := NULL; sol_decl_count := 0 |};
       scratch := replicate n 0 |}.
Proof.
  intros Hhw Hgen. apply genhw_ok_parts in Hhw as (Hok & _).
  unfold dw1_ok in Hok. rewrite !andb_true_iff in Hok.
  destruct Hok as [[[[[_ _] _] _] Hrd] _].
  apply flag_ok_clear in Hrd as [Hrd _].
  unfold ilo_state_sol_init_disabled.
  match goal with
  | |- ilo_state_sol_init _ _ _ ?i _ = _ => set (info := i)
  end.
  rewrite init_run.
  2: { now apply (info_disabled_validates dev disable). }
  2: { unfold scratch_fits, ilo_state_sol_data_size, data_size. simpl.
       now destruct (ILO_GEN 7 <=? ilo_dev_gen dev). }
  assert (E2 : streamout_dw2 hw info = 0).
  { unfold streamout_dw2. simpl.
    change (vue_read_offset stream_zero) with 0.
    change (vue_read_len stream_zero) with 0.
    now rewrite !Z.shiftl_0_l. }
  assert (E1 : streamout_dw1 hw dev info
               = if disable then GEN7_SO_DW1_RENDER_DISABLE hw else 0).
  { unfold streamout_dw1, or_flag. simpl.
    change (buffer_enables info) with 0.
    rewrite !Z.shiftl_0_l. simpl Z.lor. change (wrap 32 0) with 0.
    destruct disable; simpl Z.lor;
      destruct (ilo_dev_gen dev <? ILO_GEN 8);
      rewrite ?Z.lor_0_r, ?wrap_wrap by lia; try reflexivity;
      now apply wrap_small. }
  f_equal. unfold encoded, decl_list_machine, with_so, with_decl. simpl.
  f_equal. f_equal.
  unfold streamout_words, decl_dw1, decl_dw2, streamout_dw3, streamout_dw4.
  rewrite E1, E2. simpl.
  rewrite !Z.shiftl_0_l. change (wrap 32 0) with 0.
  now destruct (ILO_GEN 8 <=? ilo_dev_gen dev).
Qed.

Lemma init_disabled_state_witness :
  ilo_state_sol_init_disabled ivb_hw false dev7 true (zero_machine 0) =
  Ret true
    {| sol := {| so := [GEN7_SO_DW1_RENDER_DISABLE ivb_hw; 0; 0; 0; 0; 0];
                 decl := NULL; sol_decl_count := 0 |};
       scratch := [] |}.
Proof.
  apply (init_disabled_state ivb_hw false dev7 true 0); [reflexivity |].
  vm_compute. split; discriminate.
Defined.

(** ** The declaration table *)

Section DeclTable.

Variable hw : genhw.

Lemma decl_val_range d : 0 <= decl_val hw d < 2 ^ 16.
Proof. unfold decl_val. destruct (is_hole d); apply wrap_range; lia. Qed.

Lemma stream_row_range stream k : 0 <= stream_row hw stream k < 2 ^ 16.
Proof.
  unfold stream_row. destruct (decls stream !! k); [apply decl_val_range | lia].
Qed.

Lemma row_part_shift i stream k :
  row_part hw i (decls stream) k =
  Z.shiftl (stream_row hw stream k) (16 * idx4_Z i).
Proof.
  unfold row_part, stream_row.
  destruct (decls stream !! k) as [d |]; [| now rewrite Z.shiftl_0_l].
  apply wrap_small. pose proof (decl_val_range d) as Hd.
  rewrite Z.shiftl_mul_pow2 by (destruct i; simpl; lia).
  assert (Hp : 0 < 2 ^ (16 * idx4_Z i) <= 2 ^ 48).
  { split; [apply Z.pow_pos_nonneg; destruct i; simpl; lia |].
    apply Z.pow_le_mono_r; destruct i; simpl; lia. }
  change (2 ^ 64) with (2 ^ 16 * 2 ^ 48). nia.
Qed.

Lemma table_row_pack info k :
  table_row hw info k =
  pack [(row_fld I0, stream_row hw (get4 (streams info) I0) k);
        (row_fld I1, stream_row hw (get4 (streams info) I1) k);
        (row_fld I2, stream_row hw (get4 (streams info) I2) k);
        (row_fld I3, stream_row hw (get4 (streams info) I3) k)].
Proof.
  unfold table_row. rewrite !row_part_shift. cbn [pack row_fld f_shift].
  now rewrite Z.lor_0_l, Z.lor_0_r, !Z.lor_assoc.
Qed.

(** Each row holds the row of stream [s] exactly in its 16 bits. *)
Lemma table_row_field info k s :
  field (table_row hw info k) (row_fld s) =
  stream_row hw (get4 (streams info) s) k.
Proof.
  rewrite table_row_pack. apply (field_pack_In_exact 64).
  - reflexivity.
  - repeat constructor; unfold fits; simpl; apply stream_row_range.
  - destruct s; simpl; tauto.
Qed.

Lemma row_part_range i ds k : 0 <= row_part hw i ds k < 2 ^ 64.
Proof.
  unfold row_part. destruct (ds !! k); [apply wrap_range |]; lia.
Qed.

(** A row is a 64-bit value. *)
Lemma table_row_range info k : 0 <= table_row hw info k < 2 ^ 64.
Proof.
  unfold table_row.
  repeat (apply lor_range; [lia | | apply row_part_range]). lia.
Qed.

Lemma scratch_fits_rows dev info n :
  ILO_GEN 7 <= ilo_dev_gen dev -> scratch_fits dev info n = true ->
  (Z.to_nat (max_decl_count_of info)
   <= length (region (data info) (zero_machine n)))%nat.
Proof.
  intros Hgen. unfold scratch_fits, ilo_state_sol_data_size, data_size.
  replace (ILO_GEN 7 <=? ilo_dev_gen dev) with true
    by (symmetry; now apply Z.leb_le).
  rewrite Z.leb_le. lia.
Qed.

(** The table of the encoded state is the list of the packed rows. *)
Lemma decl_table_encoded dev info n :
  validates dev info -> scratch_fits dev info n = true ->
  decl_table (encoded hw dev info (zero_machine n)) =
  decl_rows hw info (max_decl_count_of info).
Proof.
  intros Hv Hfit. pose proof (valid_gen dev info Hv) as [Hg7 _].
  pose proof (scratch_fits_rows dev info n Hg7 Hfit) as Hle.
  pose proof (decl_rows_length hw info (max_decl_count_of info)) as Hlen.
  unfold decl_table, encoded, decl_list_machine. simpl.
  destruct (data info); simpl in *.
  - rewrite take_nil. symmetry. apply nil_length_inv. lia.
  - rewrite length_replicate in *.
    rewrite (take_ge (decl_rows hw info (max_decl_count_of info)) n) by lia.
    rewrite <- Hlen at 1.
    now rewrite take_app_length.
Qed.

Lemma streamout_words_length dev info ws :
  length (streamout_words hw dev info ws) = length ws.
Proof.
  unfold streamout_words.
  destruct (ILO_GEN 8 <=? ilo_dev_gen dev); now rewrite !length_insert.
Qed.

End DeclTable.

(** C2: for a valid SOL info the declaration table has as many rows as the
    largest declaration count of the four streams, and the row of slot [k]
    holds, in bits [16s, 16s+16), the packed row of declaration [k] of
    stream [s], or 0 when stream [s] has no declaration [k]. *)
Theorem decl_table_rows hw nd dev info n :
  validates dev info -> scratch_fits dev info n = true ->
  exists m',
    ilo_state_sol_init hw nd dev info (zero_machine n) = Ret true m' /\
    sol_decl_count (sol m') = largest_decl_count info /\
    length (decl_table m') = Z.to_nat (largest_decl_count info) /\
    forall (k : nat) (s : idx4), (k < length (decl_table m'))%nat ->
      exists row,
        decl_table m' !! k = Some row /\ 0 <= row < 2 ^ 64 /\
        field row (row_fld s) =
          match decls (get4 (streams info) s) !! k with
          | Some d => decl_val hw d
          | None => 0
          end.
Proof.
  intros Hv Hfit. exists (encoded hw dev info (zero_machine n)).
  split; [now apply init_run |].
  rewrite (decl_table_encoded hw dev info n Hv Hfit), decl_rows_length.
  rewrite <- max_decl_count_of_largest.
  repeat split.
  intros k s Hk. exists (table_row hw info k). split; [| split].
  - unfold decl_rows. rewrite list_lookup_fmap, lookup_seq_lt by exact Hk.
    reflexivity.
  - apply table_row_range.
  - apply table_row_field.
Qed.

Lemma decl_table_rows_witness :
  exists m',
    ilo_state_sol_init ivb_hw false dev7 info_b (zero_machine 2) = Ret true m' /\
    sol_decl_count (sol m') = largest_decl_count info_b /\
    length (decl_table m') = Z.to_nat (largest_decl_count info_b) /\
    forall (k : nat) (s : idx4), (k < length (decl_table m'))%nat ->
      exists row,
        decl_table m' !! k = Some row /\ 0 <= row < 2 ^ 64 /\
        field row (row_fld s) =
          match decls (get4 (streams info_b) s) !! k with
          | Some d => decl_val ivb_hw d
          | None => 0
          end.
Proof.
  apply (decl_table_rows ivb_hw false dev7 info_b 2); reflexivity.
Defined.

(** ** The summary words of the declaration list *)

Section Summary.

Variable hw : genhw.

Lemma decl_bounds stream d :
  decl_wt d = true -> decl_valid stream d = true ->
  0 <= attr d < 33 /\ 0 <= buffer d < 4 /\
  0 <= component_base d < 4 /\ 0 <= component_count d /\
  component_base d + component_count d <= 4.
Proof.
  unfold decl_wt, decl_valid, u8, ILO_STATE_SOL_MAX_BUFFER_COUNT.
  rewrite !andb_true_iff, !Z.leb_le, !Z.ltb_lt. lia.
Qed.

Lemma stream_decl_bounds stream :
  stream_wt stream = true -> stream_valid stream = true ->
  Forall (fun d => decl_wt d = true /\ decl_valid stream d = true) (decls stream).
Proof.
  unfold stream_wt, stream_valid. rewrite !andb_true_iff.
  intros [_ Hw] [_ Hv].
  apply forallb_Forall in Hw. apply forallb_Forall in Hv.
  induction (decls stream) as [| d rest IH]; [constructor |].
  inversion Hw; subst. inversion Hv; subst. constructor; auto.
Qed.

Lemma testbit_shiftl_1 buf b :
  0 <= buf -> Z.testbit (Z.shiftl 1 buf) b = (buf =? b).
Proof. intros Hb. rewrite Z.shiftl_1_l. now apply Z.pow2_bits_eqb. Qed.

Lemma shiftl_1_range buf : 0 <= buf < 4 -> 0 <= Z.shiftl 1 buf < 2 ^ 4.
Proof.
  intros Hb. rewrite Z.shiftl_1_l. split; [apply Z.pow_nonneg; lia |].
  apply Z.pow_lt_mono_r; lia.
Qed.

(** The buffer-selects mask of a stream: below 16, with bit [b] set when
    it was set before or a declaration writes to buffer [b]. *)
Lemma stream_selects_spec ds bs :
  0 <= bs < 2 ^ 4 -> Forall (fun d => 0 <= buffer d < 4) ds ->
  0 <= stream_selects ds bs < 2 ^ 4 /\
  forall b, Z.testbit (stream_selects ds bs) b =
            Z.testbit bs b || existsb (fun d => buffer d =? b) ds.
Proof.
  intros Hbs Hds. revert bs Hbs.
  induction Hds as [| d rest Hd _ IH]; intros bs Hbs; simpl.
  - split; [exact Hbs |]. intros b. now rewrite orb_false_r.
  - pose proof (shiftl_1_range (buffer d) Hd) as H1.
    pose proof (lor_range 4 bs _ ltac:(lia) Hbs H1) as Hl.
    rewrite wrap_small by lia.
    destruct (IH _ Hl) as [Hr Hbits]. split; [exact Hr |].
    intros b. rewrite Hbits, Z.lor_spec, testbit_shiftl_1 by lia.
    now rewrite orb_assoc.
Qed.

Lemma decl_dw1_pack (sel : arr4 Z) :
  decl_dw1 hw sel =
  wrap 32 (pack [(buffer_selects_fld hw I3, get4 sel I3);
                 (buffer_selects_fld hw I2, get4 sel I2);
                 (buffer_selects_fld hw I1, get4 sel I1);
                 (buffer_selects_fld hw I0, get4 sel I0)]).
Proof.
  unfold decl_dw1. cbn [pack buffer_selects_fld f_shift].
  now rewrite Z.lor_0_r, !Z.lor_assoc.
Qed.

Lemma decl_dw2_pack (cnt : arr4 Z) :
  decl_dw2 hw cnt =
  wrap 32 (pack [(entry_count_fld hw I3, get4 cnt I3);
                 (entry_count_fld hw I2, get4 cnt I2);
                 (entry_count_fld hw I1, get4 cnt I1);
                 (entry_count_fld hw I0, get4 cnt I0)]).
Proof.
  unfold decl_dw2. cbn [pack entry_count_fld entry_count_shift f_shift].
  now rewrite Z.lor_0_r, !Z.lor_assoc.
Qed.

Lemma valid_buffers dev info s :
  info_wt info = true -> validates dev info ->
  Forall (fun d => 0 <= buffer d < 4) (decls (get4 (streams info) s)).
Proof.
  intros Hwt Hv.
  pose proof (stream_decl_bounds _ (wt_stream info s Hwt)
                (valid_stream dev info s Hv)) as Hall.
  induction Hall as [| d rest [Hw Hd] _ IH]; constructor; [| exact IH].
  apply (decl_bounds _ d Hw Hd).
Qed.

Lemma valid_decl_count dev info s :
  validates dev info ->
  0 <= decl_count (get4 (streams info) s) <= ILO_STATE_SOL_MAX_DECL_COUNT.
Proof.
  intros Hv. pose proof (valid_stream dev info s Hv) as Hs.
  unfold stream_valid in Hs. rewrite !andb_true_iff, !Z.leb_le in Hs.
  split; [apply decl_count_nonneg | tauto].
Qed.

(** The selects word reads back the mask of each stream and the count
    word its declaration count. *)
Lemma summary_fields dev info s :
  genhw_ok hw = true -> info_wt info = true -> validates dev info ->
  let l := decl_locals_final hw info (max_decl_count_of info) in
  field (decl_dw1 hw (buffer_selects l)) (buffer_selects_fld hw s) =
    stream_selects (decls (get4 (streams info) s)) 0 /\
  field (decl_dw2 hw (decl_counts l)) (entry_count_fld hw s) =
    decl_count (get4 (streams info) s).
Proof.
  intros Hhw Hwt Hv l.
  apply genhw_ok_parts in Hhw as (_ & _ & _ & _ & Hsel & Hcnt).
  assert (Hs : forall i,
    0 <= stream_selects (decls (get4 (streams info) i)) 0 < 2 ^ 4).
  { intros i. apply stream_selects_spec; [lia |]. now apply (valid_buffers dev). }
  assert (Hc : forall i, 0 <= decl_count (get4 (streams info) i) < 2 ^ 8).
  { intros i. pose proof (valid_decl_count dev info i Hv) as H.
    unfold ILO_STATE_SOL_MAX_DECL_COUNT in H. lia. }
  subst l. unfold decl_locals_final. cbn [buffer_selects decl_counts].
  rewrite decl_dw1_pack, decl_dw2_pack.
  split; apply field_pack_In; try assumption;
    try (repeat (apply Forall_cons_2;
           [ unfold fits; simpl;
             first [ apply (Hs I0) | apply (Hs I1) | apply (Hs I2) | apply (Hs I3)
                   | apply (Hc I0) | apply (Hc I1) | apply (Hc I2) | apply (Hc I3) ]
           | ]); apply Forall_nil);
    destruct s; simpl; tauto.
Qed.

Lemma encoded_summary_words dev info m :
  length (so (sol m)) = 6%nat ->
  let l := decl_locals_final hw info (max_decl_count_of info) in
  so (sol (encoded hw dev info m)) !! 4%nat = Some (decl_dw1 hw (buffer_selects l)) /\
  so (sol (encoded hw dev info m)) !! 5%nat = Some (decl_dw2 hw (decl_counts l)).
Proof.
  intros Hlen l. unfold encoded, decl_list_machine. simpl. split.
  - rewrite list_lookup_insert_ne by lia.
    apply list_lookup_insert_eq. rewrite streamout_words_length. lia.
  - apply list_lookup_insert_eq.
    rewrite length_insert, streamout_words_length. lia.
Qed.

(** No field of six bits holds 64. *)
Lemma six_bit_field_below_64 w shift : field w (Fld shift 6) < 64.
Proof.
  unfold field. simpl f_width. rewrite Z.land_ones by lia.
  change (2 ^ 6) with 64. apply Z.mod_pos_bound. lia.
Qed.

End Summary.

(** C3, as amended: for a valid SOL info, bit [b] of the 4-bit
    buffer-selects nibble of stream [s] is set exactly when a declaration of
    stream [s] has buffer index [b], and the count field of stream [s], 8
    bits wide, equals the declaration count of the stream. *)
Theorem decl_summary_words hw nd dev info n :
  genhw_ok hw = true -> info_wt info = true -> validates dev info ->
  scratch_fits dev info n = true ->
  exists m' dw1 dw2,
    ilo_state_sol_init hw nd dev info (zero_machine n) = Ret true m' /\
    so (sol m') !! 4%nat = Some dw1 /\ so (sol m') !! 5%nat = Some dw2 /\
    forall s,
      (forall b, 0 <= b < 4 ->
         Z.testbit (field dw1 (buffer_selects_fld hw s)) b = true <->
         exists d, In d (decls (get4 (streams info) s)) /\ buffer d = b) /\
      field dw2 (entry_count_fld hw s) = decl_count (get4 (streams info) s).
Proof.
  intros Hhw Hwt Hv Hfit.
  destruct (encoded_summary_words hw dev info (zero_machine n) eq_refl)
    as [H4 H5].
  eexists _, _, _. split; [now apply init_run |].
  split; [exact H4 |]. split; [exact H5 |].
  intros s. destruct (summary_fields hw dev info s Hhw Hwt Hv) as [Hsel Hcnt].
  split; [| exact Hcnt].
  intros b Hb. rewrite Hsel.
  destruct (stream_selects_spec (decls (get4 (streams info) s)) 0
              ltac:(lia) (valid_buffers dev info s Hwt Hv)) as [_ Hbits].
  rewrite Hbits, Z.bits_0, orb_false_l, existsb_exists.
  split; intros [d [Hin Hd]]; exists d; (split; [exact Hin |]).
  - now apply Z.eqb_eq.
  - now apply Z.eqb_eq.
Qed.

Lemma decl_summary_words_witness :
  exists m' dw1 dw2,
    ilo_state_sol_init ivb_hw false dev7 info_b (zero_machine 2) = Ret true m' /\
    so (sol m') !! 4%nat = Some dw1 /\ so (sol m') !! 5%nat = Some dw2 /\
    forall s,
      (forall b, 0 <= b < 4 ->
         Z.testbit (field dw1 (buffer_selects_fld ivb_hw s)) b = true <->
         exists d, In d (decls (get4 (streams info_b) s)) /\ buffer d = b) /\
      field dw2 (entry_count_fld ivb_hw s) = decl_count (get4 (streams info_b) s).
Proof.
  apply (decl_summary_words ivb_hw false dev7 info_b 2); reflexivity.
Defined.

(** C3, as stated, fails: a valid info whose first stream has 64
    declarations is encoded with a count word whose 6-bit field of stream 0
    is 0, not 64. *)
Lemma decl_count_six_bits_counterexample :
  info_wt info_64 = true /\ validates dev7 info_64 /\
  decl_count (get4 (streams info_64) I0) = 64 /\
  exists m' dw2,
    ilo_state_sol_init ivb_hw false dev7 info_64 (zero_machine 64) = Ret true m' /\
    so (sol m') !! 5%nat = Some dw2 /\
    field dw2 (Fld (entry_count_shift ivb_hw I0) 6) = 0.
Proof.
  split; [reflexivity |]. split; [reflexivity |]. split; [reflexivity |].
  eexists _, _. split; [apply init_run; reflexivity |].
  split; [apply encoded_summary_words; reflexivity |].
  reflexivity.
Qed.

(** ** Determinism *)

(** C8: encoding a valid SOL info twice, into two zero-initialised
    destinations whose scratch regions may differ in size, gives the same
    command words, the same declaration-table length and the same table. *)
Theorem init_deterministic hw nd dev info n1 n2 :
  validates dev info ->
  scratch_fits dev info n1 = true -> scratch_fits dev info n2 = true ->
  exists m1 m2,
    ilo_state_sol_init hw nd dev info (zero_machine n1) = Ret true m1 /\
    ilo_state_sol_init hw nd dev info (zero_machine n2) = Ret true m2 /\
    so (sol m1) = so (sol m2) /\
    sol_decl_count (sol m1) = sol_decl_count (sol m2) /\
    decl_table m1 = decl_table m2.
Proof.
  intros Hv Hfit1 Hfit2.
  exists (encoded hw dev info (zero_machine n1)),
         (encoded hw dev info (zero_machine n2)).
  split; [now apply init_run |]. split; [now apply init_run |].
  split; [reflexivity |]. split; [reflexivity |].
  now rewrite !(decl_table_encoded hw dev info) by assumption.
Qed.

Lemma init_deterministic_witness :
  exists m1 m2,
    ilo_state_sol_init ivb_hw false dev8 info_b (zero_machine 2) = Ret true m1 /\
    ilo_state_sol_init ivb_hw false dev8 info_b (zero_machine 5) = Ret true m2 /\
    so (sol m1) = so (sol m2) /\
    sol_decl_count (sol m1) = sol_decl_count (sol m2) /\
    decl_table m1 = decl_table m2.
Proof.
  apply (init_deterministic ivb_hw false dev8 info_b 2 5); reflexivity.
Defined.

(** ** Holes *)

Section Holes.

Variable hw : genhw.

(** The row of a hole does not read its attribute index. *)
Lemma decl_val_set_attr d a :
  is_hole d = true -> decl_val hw (set_attr d a) = decl_val hw d.
Proof. intros Hh. unfold decl_val, decl_mask. simpl. now rewrite Hh. Qed.

Lemma decl_mask_range d :
  0 <= component_base d < 4 -> 0 <= component_count d ->
  component_base d + component_count d <= 4 ->
  0 <= decl_mask d < 2 ^ 4.
Proof.
  intros Hb Hc Hbc. unfold decl_mask.
  assert (Eb : component_base d = 0 \/ component_base d = 1 \/
               component_base d = 2 \/ component_base d = 3) by lia.
  assert (Ec : component_count d = 0 \/ component_count d = 1 \/
               component_count d = 2 \/ component_count d = 3 \/
               component_count d = 4) by lia.
  destruct Eb as [Eb | [Eb | [Eb | Eb]]];
    destruct Ec as [Ec | [Ec | [Ec | [Ec | Ec]]]];
    rewrite Eb, Ec in *; try lia; vm_compute; split; congruence.
Qed.

Lemma land_wrap_lor_flag n x flag :
  0 <= n -> 0 <= flag < 2 ^ n -> Z.land (wrap n (Z.lor x flag)) flag = flag.
Proof.
  intros Hn Hf. apply Z.bits_inj'. intros j Hj.
  rewrite Z.land_spec, testbit_wrap, Z.lor_spec by lia.
  destruct (Z.testbit flag j) eqn:Hb.
  - rewrite orb_true_r. simpl. rewrite andb_true_r.
    destruct (Z.ltb_spec j n) as [Hlt | Hge]; [reflexivity |].
    rewrite (testbit_small flag n j) in Hb by lia. discriminate.
  - now rewrite andb_false_r.
Qed.

(** The row of a hole holds the hole flag and leaves the register-index
    field clear. *)
Lemma hole_row stream d :
  genhw_ok hw = true -> decl_wt d = true -> decl_valid stream d = true ->
  is_hole d = true ->
  Z.land (decl_val hw d) (GEN7_SO_DECL_HOLE_FLAG hw) = GEN7_SO_DECL_HOLE_FLAG hw /\
  0 < GEN7_SO_DECL_HOLE_FLAG hw /\
  field (decl_val hw d) (reg_index_fld hw) = 0.
Proof.
  intros Hhw Hwt Hv Hh. apply genhw_ok_parts in Hhw as (_ & _ & _ & Hrow & _).
  unfold row_ok in Hrow. rewrite !andb_true_iff, Z.ltb_lt in Hrow.
  destruct Hrow as [[Hflds Hflag] Hpos].
  unfold flag_ok in Hflag. simpl in Hflag.
  rewrite !andb_true_iff, Z.leb_le, Z.ltb_lt, !Z.eqb_eq in Hflag.
  destruct Hflag as [[H0 H16] (_ & _ & Hclear & _)].
  destruct (decl_bounds stream d Hwt Hv) as (_ & Hbuf & Hcb & Hcc & Hsum).
  pose proof (decl_mask_range d Hcb Hcc Hsum) as Hmask.
  unfold decl_val. rewrite Hh.
  split; [apply land_wrap_lor_flag; lia |]. split; [exact Hpos |].
  assert (Hin : fld_in 16 (reg_index_fld hw) = true).
  { apply (flds_ok_In 16 _ _ Hflds). simpl. tauto. }
  rewrite field_wrap, field_lor, Hclear, Z.lor_0_r by exact Hin.
  assert (E : Z.lor (Z.shiftl (buffer d) (GEN7_SO_DECL_OUTPUT_SLOT__SHIFT hw))
                (Z.shiftl (decl_mask d) (GEN7_SO_DECL_COMPONENT_MASK__SHIFT hw))
              = pack [(output_slot_fld hw, buffer d);
                      (component_mask_fld hw, decl_mask d);
                      (reg_index_fld hw, 0)]).
  { cbn [pack output_slot_fld component_mask_fld f_shift].
    rewrite Z.shiftl_0_l. simpl (Z.lor 0 0). now rewrite Z.lor_0_r. }
  rewrite E. apply field_pack_In; [exact Hflds | | simpl; tauto].
  repeat (apply Forall_cons_2; [unfold fits; simpl; lia |]). apply Forall_nil_2.
Qed.

Lemma row_part_set_attr i ds k a j :
  (forall d, ds !! k = Some d -> is_hole d = true) ->
  row_part hw i (alter (fun d => set_attr d a) k ds) j = row_part hw i ds j.
Proof.
  intros Hh. unfold row_part. destruct (Nat.eq_dec k j) as [<- | Hne].
  - rewrite list_lookup_alter_eq.
    destruct (ds !! k) as [d |] eqn:E; simpl; [| reflexivity].
    now rewrite decl_val_set_attr by (now apply Hh).
  - now rewrite list_lookup_alter_ne by exact Hne.
Qed.

Lemma stream_selects_set_attr ds k a bs :
  stream_selects (alter (fun d => set_attr d a) k ds) bs = stream_selects ds bs.
Proof.
  revert k bs. induction ds as [| d rest IH]; intros k bs; [reflexivity |].
  destruct k as [| k]; simpl; [reflexivity | apply IH].
Qed.

Lemma decl_valid_set_attr stream ds k a :
  forallb (decl_valid stream) ds = true ->
  (forall d, ds !! k = Some d -> is_hole d = true) -> a < 33 ->
  forallb (decl_valid stream) (alter (fun d => set_attr d a) k ds) = true.
Proof.
  revert k. induction ds as [| d rest IH]; intros k Hall Hh Ha; [reflexivity |].
  simpl in Hall. apply andb_true_iff in Hall as [Hd Hrest].
  destruct k as [| k]; simpl; rewrite andb_true_iff; split; auto.
  - specialize (Hh d eq_refl). unfold decl_valid in *. simpl.
    rewrite !andb_true_iff in *. rewrite Hh. simpl.
    repeat split; try tauto. now apply Z.ltb_lt.
  - apply IH; auto.
Qed.

End Holes.

Section HoleEncoding.

Variable hw : genhw.

(** What the encoder reads of stream [i] is the same before and after
    the attribute index of a hole is replaced. *)
Lemma stream_set_attr_same info s k a i :
  (forall d, decls (get4 (streams info) s) !! k = Some d -> is_hole d = true) ->
  let st := get4 (streams info) i in
  let st' := get4 (streams (info_set_attr info s k a)) i in
  cv_vue_attr_count st' = cv_vue_attr_count st /\
  vue_read_base st' = vue_read_base st /\
  vue_read_count st' = vue_read_count st /\
  decl_count st' = decl_count st /\
  (forall i' j, row_part hw i' (decls st') j = row_part hw i' (decls st) j) /\
  (forall bs, stream_selects (decls st') bs = stream_selects (decls st) bs).
Proof.
  intros Hh.
  assert (Hs : let st := get4 (streams info) s in
               let st' := stream_set_attr st k a in
               decl_count st' = decl_count st /\
               (forall i' j, row_part hw i' (decls st') j = row_part hw i' (decls st) j) /\
               (forall bs, stream_selects (decls st') bs = stream_selects (decls st) bs)).
  { simpl. split; [| split].
    - unfold decl_count. simpl. now rewrite length_alter.
    - intros i' j. now apply row_part_set_attr.
    - intros bs. apply stream_selects_set_attr. }
  destruct s, i; simpl in *; repeat split; try reflexivity; apply Hs.
Qed.

Lemma max_decl_count_of_set_attr info s k a :
  max_decl_count_of (info_set_attr info s k a) = max_decl_count_of info.
Proof.
  unfold max_decl_count_of, decl_count.
  destruct s; simpl; now rewrite length_alter.
Qed.

Lemma streamout_words_set_attr dev info s k a ws :
  streamout_words hw dev (info_set_attr info s k a) ws =
  streamout_words hw dev info ws.
Proof. destruct s; reflexivity. Qed.

Lemma decl_locals_final_set_attr info s k a n :
  (forall d, decls (get4 (streams info) s) !! k = Some d -> is_hole d = true) ->
  decl_locals_final hw (info_set_attr info s k a) n = decl_locals_final hw info n.
Proof.
  intros Hh.
  pose proof (fun i => stream_set_attr_same info s k a i Hh) as Hsame.
  unfold decl_locals_final. f_equal.
  - unfold decl_rows. apply list_fmap_ext. intros _ j _. unfold table_row.
    destruct (Hsame I0) as (_ & _ & _ & _ & R0 & _).
    destruct (Hsame I1) as (_ & _ & _ & _ & R1 & _).
    destruct (Hsame I2) as (_ & _ & _ & _ & R2 & _).
    destruct (Hsame I3) as (_ & _ & _ & _ & R3 & _).
    now rewrite R0, R1, R2, R3.
  - destruct (Hsame I0) as (_ & _ & _ & C0 & _).
    destruct (Hsame I1) as (_ & _ & _ & C1 & _).
    destruct (Hsame I2) as (_ & _ & _ & C2 & _).
    destruct (Hsame I3) as (_ & _ & _ & C3 & _).
    now rewrite C0, C1, C2, C3.
  - destruct (Hsame I0) as (_ & _ & _ & _ & _ & S0).
    destruct (Hsame I1) as (_ & _ & _ & _ & _ & S1).
    destruct (Hsame I2) as (_ & _ & _ & _ & _ & S2).
    destruct (Hsame I3) as (_ & _ & _ & _ & _ & S3).
    now rewrite S0, S1, S2, S3.
Qed.

Lemma encoded_set_attr dev info s k a m :
  (forall d, decls (get4 (streams info) s) !! k = Some d -> is_hole d = true) ->
  encoded hw dev (info_set_attr info s k a) m = encoded hw dev info m.
Proof.
  intros Hh. unfold encoded, decl_list_machine.
  rewrite max_decl_count_of_set_attr, streamout_words_set_attr.
  now rewrite decl_locals_final_set_attr by exact Hh.
Qed.

Lemma stream_valid_set_attr stream k a :
  stream_valid stream = true ->
  (forall d, decls stream !! k = Some d -> is_hole d = true) -> a < 33 ->
  stream_valid (stream_set_attr stream k a) = true.
Proof.
  unfold stream_valid, decl_count. simpl. rewrite !andb_true_iff, length_alter.
  intros [Hrest Hall] Hh Ha. split; [exact Hrest |].
  now apply (decl_valid_set_attr stream).
Qed.

Lemma validates_set_attr dev info s k a :
  validates dev info ->
  (forall d, decls (get4 (streams info) s) !! k = Some d -> is_hole d = true) ->
  a < 33 ->
  validates dev (info_set_attr info s k a).
Proof.
  intros Hv Hh Ha. pose proof (valid_stream dev info s Hv) as Hs.
  pose proof (stream_valid_set_attr _ k a Hs Hh Ha) as Hs'.
  apply validates_iff in Hv. apply validates_iff.
  unfold info_valid in *. simpl in *. rewrite !andb_true_iff in *.
  destruct Hv as [[Hdev (H0 & H1 & H2 & H3 & _)] Hstr].
  destruct s; simpl in *; tauto.
Qed.

End HoleEncoding.

(** C9: the row of a valid hole declaration holds the hole flag and a zero
    register-index field, whatever its attribute index; and replacing the
    attribute index of a hole by another one below 33 gives an info that is
    valid too and is encoded to the same outcome. *)
Theorem hole_attr_ignored hw nd dev info m s k d a :
  genhw_ok hw = true -> info_wt info = true -> validates dev info ->
  decls (get4 (streams info) s) !! k = Some d -> is_hole d = true ->
  0 <= a < 33 ->
  (Z.land (decl_val hw d) (GEN7_SO_DECL_HOLE_FLAG hw) = GEN7_SO_DECL_HOLE_FLAG hw /\
   0 < GEN7_SO_DECL_HOLE_FLAG hw /\
   field (decl_val hw d) (reg_index_fld hw) = 0) /\
  decl_val hw (set_attr d a) = decl_val hw d /\
  validates dev (info_set_attr info s k a) /\
  ilo_state_sol_init hw nd dev (info_set_attr info s k a) m =
  ilo_state_sol_init hw nd dev info m.
Proof.
  intros Hhw Hwt Hv Hk Hh Ha.
  assert (Hhole : forall d', decls (get4 (streams info) s) !! k = Some d' ->
                             is_hole d' = true) by congruence.
  pose proof (validates_set_attr dev info s k a Hv Hhole ltac:(lia)) as Hv'.
  split; [| split; [| split]].
  - pose proof (stream_decl_bounds _ (wt_stream info s Hwt)
                  (valid_stream dev info s Hv)) as Hall.
    rewrite Forall_lookup in Hall. destruct (Hall k d Hk) as [Hw Hd].
    now apply (hole_row hw (get4 (streams info) s)).
  - now apply decl_val_set_attr.
  - exact Hv'.
  - rewrite !init_eval.
    rewrite (validates_any_build nd dev _ Hv'), (validates_any_build nd dev _ Hv).
    rewrite max_decl_count_of_set_attr, encoded_set_attr by exact Hhole.
    reflexivity.
Qed.

Lemma hole_attr_ignored_witness :
  (Z.land (decl_val ivb_hw decl_hole) (GEN7_SO_DECL_HOLE_FLAG ivb_hw)
     = GEN7_SO_DECL_HOLE_FLAG ivb_hw /\
   0 < GEN7_SO_DECL_HOLE_FLAG ivb_hw /\
   field (decl_val ivb_hw decl_hole) (reg_index_fld ivb_hw) = 0) /\
  decl_val ivb_hw (set_attr decl_hole 32) = decl_val ivb_hw decl_hole /\
  validates dev7 (info_set_attr info_b I1 0 32) /\
  ilo_state_sol_init ivb_hw false dev7 (info_set_attr info_b I1 0 32) (zero_machine 2) =
  ilo_state_sol_init ivb_hw false dev7 info_b (zero_machine 2).
Proof.
  apply (hole_attr_ignored ivb_hw false dev7 info_b (zero_machine 2) I1 0%nat
           decl_hole 32); try reflexivity.
  lia.
Defined.

(** ** Failed validation *)

(** Whenever the entry point stops at an assertion, no command word, no
    table length and no scratch row has been written. *)
Lemma init_abort_unchanged hw nd dev info m m' :
  ilo_state_sol_init hw nd dev info m = Abort m' ->
  so (sol m') = so (sol m) /\
  sol_decl_count (sol m') = sol_decl_count (sol m) /\
  scratch m' = scratch m.
Proof.
  rewrite init_eval.
  outcome_cases; intros H; inversion H; subst; auto.
Qed.

(** The entry point never returns [false]. *)
Lemma init_returns_true hw nd dev info m b m' :
  ilo_state_sol_init hw nd dev info m = Ret b m' -> b = true.
Proof.
  rewrite init_eval.
  outcome_cases; intros H; inversion H; subst; auto.
Qed.

(** With assertions enabled, an info that does not validate stops the
    entry point from generation 7 on. *)
Lemma init_rejects hw dev info m :
  ILO_GEN 7 <= ilo_dev_gen dev -> ~ validates dev info ->
  exists m', ilo_state_sol_init hw false dev info m = Abort m'.
Proof.
  intros Hgen Hv. rewrite init_eval.
  replace (ILO_GEN 7 <=? ilo_dev_gen dev) with true
    by (symmetry; now apply Z.leb_le).
  destruct (sol_validate_gen7_cases false dev info) as [H | ->];
    [now elim Hv |].
  outcome_cases; eexists; reflexivity.
Qed.

(** C5, as amended: with assertions enabled and from generation 7 on, an
    info that fails a check of the validators stops the encode before
    anything is written: the command words, the table length and the
    scratch region are as they were.  The same holds whenever the entry
    point stops at any of its assertions. *)
Theorem validation_failure_writes_nothing hw nd dev info m :
  ILO_GEN 7 <= ilo_dev_gen dev -> ~ validates dev info ->
  (exists m',
     ilo_state_sol_init hw false dev info m = Abort m' /\
     so (sol m') = so (sol m) /\
     sol_decl_count (sol m') = sol_decl_count (sol m) /\
     scratch m' = scratch m) /\
  (forall m', ilo_state_sol_init hw nd dev info m = Abort m' ->
     so (sol m') = so (sol m) /\
     sol_decl_count (sol m') = sol_decl_count (sol m) /\
     scratch m' = scratch m).
Proof.
  intros Hgen Hv. split.
  - destruct (init_rejects hw dev info m Hgen Hv) as [m' Hm'].
    exists m'. split; [exact Hm' |].
    now apply (init_abort_unchanged hw false dev info).
  - intros m'. apply init_abort_unchanged.
Qed.

Lemma validation_failure_writes_nothing_witness :
  (exists m',
     ilo_state_sol_init ivb_hw false dev7 info_c (zero_machine 0) = Abort m' /\
     so (sol m') = so (sol (zero_machine 0)) /\
     sol_decl_count (sol m') = sol_decl_count (sol (zero_machine 0)) /\
     scratch m' = scratch (zero_machine 0)) /\
  (forall m', ilo_state_sol_init ivb_hw false dev7 info_c (zero_machine 0) = Abort m' ->
     so (sol m') = so (sol (zero_machine 0)) /\
     sol_decl_count (sol m') = sol_decl_count (sol (zero_machine 0)) /\
     scratch m' = scratch (zero_machine 0)).
Proof.
  apply (validation_failure_writes_nothing ivb_hw false dev7 info_c (zero_machine 0)).
  - vm_compute. discriminate.
  - vm_compute. discriminate.
Defined.

(** C5, as stated, fails: a render stream of 4 is outside the documented
    0..3, no validator checks it, and the info is encoded: word 0 is
    written with [4 << 27]. *)
Lemma unchecked_render_stream_counterexample :
  (render_stream info_rs4 <=? 3) = false /\
  info_wt info_rs4 = true /\
  exists m',
    ilo_state_sol_init ivb_hw false dev7 info_rs4 (zero_machine 0) = Ret true m' /\
    so (sol m') !! 0%nat = Some (Z.shiftl 4 27) /\
    so (sol m') <> so (sol (zero_machine 0)).
Proof.
  split; [reflexivity |]. split; [reflexivity |].
  eexists. split; [vm_compute; reflexivity |].
  split; [reflexivity | discriminate].
Qed.

(** With [NDEBUG] no assertion detects anything: the info of scenario C is
    encoded, with a read length of 17 pairs. *)
Lemma ndebug_encodes_scenario_c :
  exists m',
    ilo_state_sol_init ivb_hw true dev7 info_c (zero_machine 0) = Ret true m' /\
    so (sol m') !! 1%nat = Some (Z.lor (Z.shiftl 1 5) 17).
Proof. eexists. split; [vm_compute; reflexivity | reflexivity]. Qed.

(** The named assertions agree with the validator: with assertions enabled
    it returns [true] when none of them fails and stops when one does. *)
Lemma decl_assertions_valid stream i ds :
  forallb (decl_valid stream) ds =
  match first_failed (decl_assertions stream i ds) with
  | None => true
  | Some _ => false
  end.
Proof.
  revert i. induction ds as [| d rest IH]; intros i; [reflexivity |].
  cbn [forallb decl_assertions first_failed]. unfold decl_valid.
  destruct (is_hole d || (attr d <? vue_read_count stream)); [| reflexivity].
  destruct (attr d <? 33); [| reflexivity].
  destruct ((component_base d <? 4) &&
            (component_base d + component_count d <=? 4)); [| reflexivity].
  destruct (buffer d <? ILO_STATE_SOL_MAX_BUFFER_COUNT); [| reflexivity].
  apply IH.
Qed.

Lemma sol_stream_validate_gen7_stops_spec dev stream :
  sol_stream_validate_gen7 false dev stream =
  match sol_stream_validate_gen7_stops dev stream with
  | None => Some true
  | Some _ => None
  end.
Proof.
  rewrite sol_stream_validate_gen7_spec. cbn [orb].
  unfold sol_stream_validate_gen7_stops, stream_assertions, dev_valid,
    stream_valid.
  cbn [first_failed].
  rewrite (decl_assertions_valid stream 0 (decls stream)).
  destruct ((ILO_GEN 7 <=? ilo_dev_gen dev) && (ilo_dev_gen dev <=? ILO_GEN 8));
    [| reflexivity].
  destruct (vue_read_base stream + vue_read_count stream
            <=? cv_vue_attr_count stream); [| reflexivity].
  destruct ((vue_read_base stream =? 0) || (vue_read_base stream =? 2));
    [| reflexivity].
  destruct (vue_read_count stream <=? 34); [| reflexivity].
  destruct (decl_count stream <=? ILO_STATE_SOL_MAX_DECL_COUNT);
    [| reflexivity].
  now destruct (first_failed (decl_assertions stream 0 (decls stream))).
Qed.

(** Without assertions, from generation 7 on, the entry point encodes
    whatever it is given and returns [true]. *)
Lemma init_ndebug_encodes hw dev info m :
  ILO_GEN 7 <= ilo_dev_gen dev ->
  ilo_state_sol_init hw true dev info m = Ret true (encoded hw dev info m).
Proof.
  intros Hgen. rewrite init_eval. cbn [orb negb].
  replace (ILO_GEN 7 <=? ilo_dev_gen dev) with true
    by (symmetry; now apply Z.leb_le).
  rewrite sol_validate_gen7_spec. cbn [orb].
  unfold ILO_DEV_ASSERT, c_assert. cbn [orb]. reflexivity.
Qed.

(** C6, as amended: an info with a stream that reads 35 attributes from
    base 2 fails validation.  With assertions enabled the stream validator
    stops: at [assert(vue_read_count <= 34)] when the generation is 7 to 8
    and the read window lies inside [cv_vue_attr_count], at the generation
    assertion or at the window assertion before it otherwise; the info
    validator stops, and the entry point stops without returning.  In no
    build does the entry point return [false]; with [NDEBUG], for an info
    whose declarations stay in bounds and a region that holds the table, it
    returns [true] with the info encoded. *)
Theorem read_count_35_stops hw nd dev info m s :
  vue_read_base (get4 (streams info) s) = 2 ->
  vue_read_count (get4 (streams info) s) = 35 ->
  ILO_GEN 7 <= ilo_dev_gen dev ->
  sol_stream_validate_gen7 false dev (get4 (streams info) s) = None /\
  sol_stream_validate_gen7_stops dev (get4 (streams info) s) =
    Some (if dev_valid dev then
            if vue_read_base (get4 (streams info) s)
               + vue_read_count (get4 (streams info) s)
               <=? cv_vue_attr_count (get4 (streams info) s)
            then assert_read_count else assert_read_window
          else assert_dev_gen) /\
  sol_validate_gen7 false dev info = None /\
  (exists m', ilo_state_sol_init hw false dev info m = Abort m') /\
  (forall b m', ilo_state_sol_init hw nd dev info m = Ret b m' -> b = true) /\
  (info_wt info = true -> decls_in_bounds info = true ->
   ilo_state_sol_data_size dev (max_decl_count_of info) <= data_size info m ->
   ilo_state_sol_init hw true dev info m = Ret true (encoded hw dev info m)).
Proof.
  intros Hb Hc Hgen.
  assert (Hstop : sol_stream_validate_gen7_stops dev (get4 (streams info) s) =
    Some (if dev_valid dev then
            if vue_read_base (get4 (streams info) s)
               + vue_read_count (get4 (streams info) s)
               <=? cv_vue_attr_count (get4 (streams info) s)
            then assert_read_count else assert_read_window
          else assert_dev_gen)).
  { unfold sol_stream_validate_gen7_stops, stream_assertions, dev_valid.
    cbn [first_failed].
    destruct ((ILO_GEN 7 <=? ilo_dev_gen dev) && (ilo_dev_gen dev <=? ILO_GEN 8));
      [| reflexivity].
    destruct (vue_read_base (get4 (streams info) s)
              + vue_read_count (get4 (streams info) s)
              <=? cv_vue_attr_count (get4 (streams info) s)); [| reflexivity].
    now rewrite Hb, Hc. }
  assert (Hv : ~ validates dev info).
  { intros Hv. pose proof (valid_stream dev info s Hv) as Hs.
    unfold stream_valid in Hs. rewrite Hc in Hs.
    rewrite !andb_true_iff in Hs. destruct Hs as [[[_ H34] _] _].
    discriminate. }
  split; [| split; [exact Hstop | split; [| split; [| split]]]].
  - now rewrite sol_stream_validate_gen7_stops_spec, Hstop.
  - destruct (sol_validate_gen7_cases false dev info) as [H | H];
      [now elim Hv | exact H].
  - now apply init_rejects.
  - intros b m'. apply init_returns_true.
  - intros _ _ _. now apply init_ndebug_encodes.
Qed.

Lemma read_count_35_stops_witness :
  sol_stream_validate_gen7 false dev7 (get4 (streams info_c) I0) = None /\
  sol_stream_validate_gen7_stops dev7 (get4 (streams info_c) I0)
    = Some assert_read_count /\
  sol_validate_gen7 false dev7 info_c = None /\
  (exists m', ilo_state_sol_init ivb_hw false dev7 info_c (zero_machine 0) = Abort m') /\
  (forall b m', ilo_state_sol_init ivb_hw true dev7 info_c (zero_machine 0) = Ret b m' ->
                b = true) /\
  ilo_state_sol_init ivb_hw true dev7 info_c (zero_machine 0)
    = Ret true (encoded ivb_hw dev7 info_c (zero_machine 0)).
Proof.
  destruct (read_count_35_stops ivb_hw true dev7 info_c (zero_machine 0) I0)
    as (H1 & H2 & H3 & H4 & H5 & H6); [reflexivity | reflexivity | reflexivity |].
  split; [exact H1 |]. split; [exact H2 |]. split; [exact H3 |].
  split; [exact H4 |]. split; [exact H5 |].
  apply H6; [reflexivity | reflexivity | vm_compute; discriminate].
Defined.

(** C6, as stated, fails: on the info of scenario C the entry point does
    not return [false]: with assertions enabled it stops without
    returning, and with [NDEBUG] it returns [true]. *)
Lemma read_count_35_counterexample :
  vue_read_base (get4 (streams info_c) I0) = 2 /\
  vue_read_count (get4 (streams info_c) I0) = 35 /\
  ilo_state_sol_init ivb_hw false dev7 info_c (zero_machine 0)
    = Abort (with_decl (zero_machine 0) NULL) /\
  (exists m', ilo_state_sol_init ivb_hw true dev7 info_c (zero_machine 0)
              = Ret true m') /\
  (forall nd m', ilo_state_sol_init ivb_hw nd dev7 info_c (zero_machine 0)
                 <> Ret false m').
Proof.
  split; [reflexivity |]. split; [reflexivity |]. split; [reflexivity |].
  split; [eexists; vm_compute; reflexivity |].
  intros nd m' H. apply init_returns_true in H. discriminate.
Qed.

(** ** The scenarios of the spec *)

(** Scenario B: for the stream that reads four attributes from base 0 and
    declares all components of attribute 0 to buffer 0, the read offset is
    0, the read length 1, the row [0xF], the buffer-selects nibble 1 and
    the count 1. *)
Example scenario_b :
  vue_read_offset (get4 (streams info_b) I0) = 0 /\
  vue_read_len (get4 (streams info_b) I0) = 1 /\
  decl_val ivb_hw decl_b = 15 /\
  stream_selects (decls (get4 (streams info_b) I0)) 0 = 1 /\
  decl_count (get4 (streams info_b) I0) = 1.
Proof. repeat split. Qed.

(** Scenario D: the row of a hole to buffer 1, components 1 and 2, is the
    buffer, the mask and the hole flag, whatever its attribute index. *)
Example scenario_d :
  decl_val ivb_hw decl_hole = Z.lor (Z.lor (Z.shiftl 1 12) 6) (Z.shiftl 1 11) /\
  decl_val ivb_hw (set_attr decl_hole 0) = decl_val ivb_hw decl_hole.
Proof. split; reflexivity. Qed.

(** The whole state of scenario B at generation 8. *)
Example scenario_b_state :
  ilo_state_sol_init ivb_hw false dev8 info_b (zero_machine 2) =
  Ret true
    {| sol := {| so := [2147483648; 8449; 2097168; 0; 49; 513];
                 decl := info_data; sol_decl_count := 2 |};
       scratch := [403046415; 983040] |}.
Proof. reflexivity. Qed.

(** * Further properties of the encoder *)

(** ** What the validators accept *)

Lemma forallb_iff {A} (p : A -> bool) (P : A -> Prop) l :
  (forall x, p x = true <-> P x) -> (forallb p l = true <-> Forall P l).
Proof.
  intros Hp. induction l as [| x rest IH]; simpl.
  - split; [constructor | reflexivity].
  - rewrite andb_true_iff, Hp, IH. split.
    + intros [Hx Hrest]. now constructor.
    + intros H. inversion H; subst. now split.
Qed.

Lemma decl_valid_iff stream d :
  decl_valid stream d = true <->
  (is_hole d = true \/ attr d < vue_read_count stream) /\ attr d < 33 /\
  component_base d < 4 /\ component_base d + component_count d <= 4 /\
  buffer d < ILO_STATE_SOL_MAX_BUFFER_COUNT.
Proof.
  unfold decl_valid.
  rewrite !andb_true_iff, orb_true_iff, !Z.ltb_lt, Z.leb_le. tauto.
Qed.

Lemma stream_valid_iff stream :
  stream_valid stream = true <->
  vue_read_base stream + vue_read_count stream <= cv_vue_attr_count stream /\
  (vue_read_base stream = 0 \/ vue_read_base stream = 2) /\
  vue_read_count stream <= 34 /\
  decl_count stream <= ILO_STATE_SOL_MAX_DECL_COUNT /\
  Forall (fun d =>
    (is_hole d = true \/ attr d < vue_read_count stream) /\ attr d < 33 /\
    component_base d < 4 /\ component_base d + component_count d <= 4 /\
    buffer d < ILO_STATE_SOL_MAX_BUFFER_COUNT) (decls stream).
Proof.
  unfold stream_valid.
  rewrite !andb_true_iff, orb_true_iff, !Z.leb_le, !Z.eqb_eq.
  rewrite (forallb_iff _ _ _ (decl_valid_iff stream)). tauto.
Qed.

Lemma dev_valid_iff dev :
  dev_valid dev = true <-> ILO_GEN 7 <= ilo_dev_gen dev <= ILO_GEN 8.
Proof. unfold dev_valid. rewrite andb_true_iff, !Z.leb_le. tauto. Qed.

(** X1: with assertions enabled, [sol_stream_validate_gen7] returns [true]
    exactly for a generation from 7 to 8 and a stream whose read window
    lies in the VUE, starts at 0 or 2 and has at most 34 attributes, with at
    most 128 declarations, each of them a hole or reading inside the
    window, with an attribute below 33, components inside the four and a
    buffer below 4.  In no build does it return [false], and with the
    assertions compiled out it returns [true] for every stream. *)
Theorem stream_validate_accepts dev stream :
  (sol_stream_validate_gen7 false dev stream = Some true <->
   ILO_GEN 7 <= ilo_dev_gen dev <= ILO_GEN 8 /\
   vue_read_base stream + vue_read_count stream <= cv_vue_attr_count stream /\
   (vue_read_base stream = 0 \/ vue_read_base stream = 2) /\
   vue_read_count stream <= 34 /\
   decl_count stream <= ILO_STATE_SOL_MAX_DECL_COUNT /\
   Forall (fun d =>
     (is_hole d = true \/ attr d < vue_read_count stream) /\ attr d < 33 /\
     component_base d < 4 /\ component_base d + component_count d <= 4 /\
     buffer d < ILO_STATE_SOL_MAX_BUFFER_COUNT) (decls stream)) /\
  (forall nd, sol_stream_validate_gen7 nd dev stream <> Some false) /\
  sol_stream_validate_gen7 true dev stream = Some true.
Proof.
  split; [| split].
  - rewrite sol_stream_validate_gen7_spec, <- dev_valid_iff, <- stream_valid_iff.
    simpl orb. rewrite <- andb_true_iff.
    destruct (dev_valid dev && stream_valid stream); split; congruence.
  - intros nd. rewrite sol_stream_validate_gen7_spec.
    destruct (nd || _); discriminate.
  - now rewrite sol_stream_validate_gen7_spec.
Qed.

(** X2: with assertions enabled, [sol_validate_gen7] returns [true] exactly
    when each of the four streams validates and each of the four buffer
    strides is at most 2048 and a multiple of 4; the flags, the render
    stream and the scratch region are not looked at.  In no build does it
    return [false], and with the assertions compiled out it accepts every
    info. *)
Theorem validate_accepts dev info :
  (sol_validate_gen7 false dev info = Some true <->
   (forall s, sol_stream_validate_gen7 false dev (get4 (streams info) s) = Some true) /\
   (forall b, get4 (buffer_strides info) b <= 2048 /\
              get4 (buffer_strides info) b mod 4 = 0)) /\
  (forall nd, sol_validate_gen7 nd dev info <> Some false) /\
  sol_validate_gen7 true dev info = Some true.
Proof.
  split; [| split].
  - change (sol_validate_gen7 false dev info = Some true) with (validates dev info).
    rewrite validates_iff. split.
    + intros Hv. apply validates_iff in Hv. split.
      * intros s. rewrite sol_stream_validate_gen7_spec. simpl orb.
        rewrite (valid_stream dev info s Hv).
        destruct (valid_gen dev info Hv) as [H7 H8].
        now rewrite (proj2 (dev_valid_iff dev) (conj H7 H8)).
      * intros b. pose proof (valid_stride dev info b Hv) as Hb.
        unfold stride_valid in Hb.
        now rewrite andb_true_iff, Z.leb_le, Z.eqb_eq in Hb.
    + intros [Hs Hb].
      assert (Hs' : forall s, dev_valid dev = true /\
                              stream_valid (get4 (streams info) s) = true).
      { intros s. specialize (Hs s).
        rewrite sol_stream_validate_gen7_spec in Hs. simpl orb in Hs.
        apply andb_true_iff. destruct (dev_valid dev && _); congruence. }
      assert (Hb' : forall b, stride_valid (get4 (buffer_strides info) b) = true).
      { intros b. unfold stride_valid.
        rewrite andb_true_iff, Z.leb_le, Z.eqb_eq. apply Hb. }
      unfold info_valid. cbn [forallb all_idx4].
      rewrite (proj1 (Hs' I0)), (proj2 (Hs' I0)), (proj2 (Hs' I1)),
        (proj2 (Hs' I2)), (proj2 (Hs' I3)).
      now rewrite (Hb' I0), (Hb' I1), (Hb' I2), (Hb' I3).
  - intros nd. destruct (sol_validate_gen7_cases nd dev info) as [-> | ->];
      discriminate.
  - now rewrite sol_validate_gen7_spec.
Qed.

(** X3: with assertions enabled, [sol_set_gen7_3DSTATE_STREAMOUT] returns
    exactly for the infos that validate.  In every build its [return false]
    is never reached: when it returns, it returns [true] with its words
    written, and when it stops at an assertion the machine is as it was. *)
Theorem streamout_outcome hw nd dev info m :
  ((exists m', sol_set_gen7_3DSTATE_STREAMOUT hw false dev info m = Ret true m')
   <-> validates dev info) /\
  (forall r m', sol_set_gen7_3DSTATE_STREAMOUT hw nd dev info m = Ret r m' ->
     r = true /\ m' = with_so m (streamout_words hw dev info (so (sol m)))) /\
  (forall m', sol_set_gen7_3DSTATE_STREAMOUT hw nd dev info m = Abort m' -> m' = m).
Proof.
  split; [| split].
  - split.
    + intros [m' Hm']. rewrite streamout_eval in Hm'.
      destruct (ILO_DEV_ASSERT false dev 7 8); [| discriminate].
      destruct (sol_validate_gen7_cases false dev info) as [H | H];
        [exact H | rewrite H in Hm'; discriminate].
    + intros Hv. eexists. now apply streamout_run.
  - intros r m' H.
    destruct (streamout_cases hw nd dev info m) as [E | E];
      rewrite E in H; inversion H; auto.
  - intros m' H.
    destruct (streamout_cases hw nd dev info m) as [E | E];
      rewrite E in H; inversion H; auto.
Qed.

(** ** Decoding the primary word *)

Lemma land_wrap n y flag :
  0 <= n -> 0 <= flag < 2 ^ n -> Z.land (wrap n y) flag = Z.land y flag.
Proof.
  intros Hn Hf. apply Z.bits_inj'. intros j Hj.
  rewrite !Z.land_spec, testbit_wrap by lia.
  destruct (Z.ltb_spec j n) as [Hlt | Hge]; [now rewrite andb_true_r |].
  rewrite (testbit_small flag n j) by lia. now rewrite !andb_false_r.
Qed.

(** A value in its field shares no bit with a flag that leaves the field
    alone. *)
Lemma land_shiftl_clear f v flag :
  0 <= f_shift f -> 0 <= f_width f -> fits (f, v) -> field flag f = 0 ->
  Z.land (Z.shiftl v (f_shift f)) flag = 0.
Proof.
  unfold fits; simpl. intros Hs Hw Hv Hclear.
  apply Z.bits_inj'. intros j Hj.
  rewrite Z.land_spec, Z.shiftl_spec, Z.bits_0 by lia.
  destruct (Z.lt_ge_cases (j - f_shift f) 0) as [Hlo | Hhi].
  { now rewrite Z.testbit_neg_r. }
  destruct (Z.lt_ge_cases (j - f_shift f) (f_width f)) as [Hin | Hout].
  - assert (Hb : Z.testbit (field flag f) (j - f_shift f) = false)
      by (rewrite Hclear; apply Z.bits_0).
    rewrite testbit_field in Hb by lia.
    replace (j - f_shift f + f_shift f) with j in Hb by lia.
    replace (j - f_shift f <? f_width f) with true in Hb
      by (symmetry; now apply Z.ltb_lt).
    rewrite andb_true_r in Hb. rewrite Hb. apply andb_false_r.
  - now rewrite (testbit_small v (f_width f)).
Qed.

Lemma land_pack_clear fvs flag :
  Forall (fun fv => 0 <= f_shift (fst fv) /\ 0 <= f_width (fst fv) /\
                    fits fv /\ field flag (fst fv) = 0) fvs ->
  Z.land (pack fvs) flag = 0.
Proof.
  induction 1 as [| [f v] rest (Hs & Hw & Hv & Hc) _ IH]; simpl.
  - apply Z.land_0_l.
  - rewrite Z.land_lor_distr_l, IH, Z.lor_0_r. now apply land_shiftl_clear.
Qed.

Lemma or_flag_field (b : bool) x flag f :
  fld_in 32 f = true -> field flag f = 0 ->
  field (or_flag b x flag) f = field x f.
Proof.
  intros Hin Hf. unfold or_flag. destruct b; [| reflexivity].
  now rewrite field_wrap, field_lor, Hf, Z.lor_0_r by exact Hin.
Qed.

Lemma or_flag_land_same (b : bool) x flag :
  0 <= flag < 2 ^ 32 -> Z.land x flag = 0 ->
  Z.land (or_flag b x flag) flag = if b then flag else 0.
Proof.
  intros Hf Hx. unfold or_flag. destruct b; [| exact Hx].
  apply land_wrap_lor_flag; lia.
Qed.

Lemma or_flag_land_other (b : bool) x flag other :
  0 <= other < 2 ^ 32 -> Z.land flag other = 0 ->
  Z.land (or_flag b x flag) other = Z.land x other.
Proof.
  intros Ho Hd. unfold or_flag. destruct b; [| reflexivity].
  rewrite land_wrap by lia.
  now rewrite Z.land_lor_distr_l, Hd, Z.lor_0_r.
Qed.

Lemma flag_ok_parts n flag fs :
  flag_ok n flag fs = true ->
  0 <= flag < 2 ^ n /\ Forall (fun f => field flag f = 0) fs.
Proof.
  unfold flag_ok. rewrite !andb_true_iff, Z.leb_le, Z.ltb_lt.
  intros [[H0 Hn] Hall]. split; [lia |].
  apply forallb_Forall in Hall.
  induction Hall as [| f rest Hf _ IH]; constructor; [| exact IH].
  now apply Z.eqb_eq.
Qed.

Section PrimaryWordDecoding.

Variable hw : genhw.
Hypothesis Hhw : dw1_decodable hw = true.

Local Abbreviation sel := (render_select_fld hw).
Local Abbreviation ro := (reorder_mode_fld hw).
Local Abbreviation be := (buffer_enables_fld hw).

Lemma dw1_layout :
  flds_ok 32 [sel; ro; be] = true /\
  (forall flag,
     flag = GEN7_SO_DW1_SO_ENABLE hw \/ flag = GEN7_SO_DW1_RENDER_DISABLE hw \/
     flag = GEN7_SO_DW1_STATISTICS hw ->
     0 < flag < 2 ^ 32 /\
     field flag sel = 0 /\ field flag ro = 0 /\ field flag be = 0) /\
  Z.land (GEN7_SO_DW1_SO_ENABLE hw) (GEN7_SO_DW1_RENDER_DISABLE hw) = 0 /\
  Z.land (GEN7_SO_DW1_SO_ENABLE hw) (GEN7_SO_DW1_STATISTICS hw) = 0 /\
  Z.land (GEN7_SO_DW1_RENDER_DISABLE hw) (GEN7_SO_DW1_STATISTICS hw) = 0.
Proof.
  unfold dw1_decodable in Hhw.
  rewrite !andb_true_iff, !Z.ltb_lt, !Z.eqb_eq in Hhw.
  destruct Hhw as [[[Hf [[Hse Hrd] Hst]] [[Pse Prd] Pst]] [[D1 D2] D3]].
  apply flag_ok_parts in Hse as [Rse Cse].
  apply flag_ok_parts in Hrd as [Rrd Crd].
  apply flag_ok_parts in Hst as [Rst Cst].
  split; [exact Hf |]. split; [| tauto].
  intros flag [-> | [-> | ->]];
    match goal with
    | H : Forall _ (dw1_flds hw) |- context [field ?F _] =>
        lazymatch type of H with
        | context [F] =>
            inversion H as [| ? ? H1 T1]; subst;
            inversion T1 as [| ? ? H2 T2]; subst;
            inversion T2 as [| ? ? H3 T3]; subst
        end
    end; repeat split; try assumption; lia.
Qed.

Lemma dw1_fld_in f : f = sel \/ f = ro \/ f = be -> fld_in 32 f = true.
Proof.
  intros Hf. destruct dw1_layout as (Hok & _).
  apply (flds_ok_In 32 _ _ Hok). simpl. intuition.
Qed.

(** The selector and reorder fields before the flags and enables are
    or-ed in. *)
Lemma dw1_base_fields info :
  0 <= render_stream info <= 3 ->
  let base := wrap 32 (Z.lor
      (Z.shiftl (render_stream info) (GEN7_SO_DW1_RENDER_STREAM_SELECT__SHIFT hw))
      (Z.shiftl (reorder_Z (tristrip_reorder info))
                (GEN7_SO_DW1_REORDER_MODE__SHIFT hw))) in
  field base sel = render_stream info /\
  field base ro = reorder_Z (tristrip_reorder info) /\
  forall flag,
    flag = GEN7_SO_DW1_SO_ENABLE hw \/ flag = GEN7_SO_DW1_RENDER_DISABLE hw \/
    flag = GEN7_SO_DW1_STATISTICS hw -> Z.land base flag = 0.
Proof.
  intros Hrs base. destruct dw1_layout as (Hok & Hflags & _).
  assert (Hfits : Forall fits [(sel, render_stream info);
                               (ro, reorder_Z (tristrip_reorder info))]).
  { repeat (apply Forall_cons_2; [unfold fits; simpl |]);
      [lia | apply reorder_Z_range | apply Forall_nil_2]. }
  assert (Hok2 : flds_ok 32 [sel; ro] = true).
  { simpl in Hok |- *. rewrite !andb_true_iff in *. tauto. }
  assert (E : base = wrap 32 (pack [(sel, render_stream info);
                                    (ro, reorder_Z (tristrip_reorder info))])).
  { unfold base. cbn [pack render_select_fld reorder_mode_fld f_shift].
    now rewrite Z.lor_0_r. }
  rewrite E. split; [| split].
  - apply field_pack_In; [exact Hok2 | exact Hfits | simpl; tauto].
  - apply field_pack_In; [exact Hok2 | exact Hfits | simpl; tauto].
  - intros flag Hflag. destruct (Hflags flag Hflag) as (Hr & Cs & Cr & _).
    rewrite land_wrap by lia. apply land_pack_clear.
    pose proof (dw1_fld_in sel ltac:(tauto)) as Is.
    pose proof (dw1_fld_in ro ltac:(tauto)) as Ir.
    unfold fld_in in Is, Ir. rewrite !andb_true_iff, !Z.leb_le in Is, Ir.
    inversion Hfits as [| ? ? F1 T1]; subst.
    inversion T1 as [| ? ? F2 _]; subst.
    repeat (apply Forall_cons_2; [simpl; tauto |]). apply Forall_nil_2.
Qed.

(** The primary word decoded: the selector, the reorder mode and the three
    flags. *)
Lemma streamout_dw1_decode dev info :
  info_wt info = true -> render_stream info <= 3 ->
  let dw1 := streamout_dw1 hw dev info in
  field dw1 sel = render_stream info /\
  field dw1 ro = reorder_Z (tristrip_reorder info) /\
  Z.land dw1 (GEN7_SO_DW1_SO_ENABLE hw) =
    (if sol_enable info then GEN7_SO_DW1_SO_ENABLE hw else 0) /\
  Z.land dw1 (GEN7_SO_DW1_RENDER_DISABLE hw) =
    (if render_disable info then GEN7_SO_DW1_RENDER_DISABLE hw else 0) /\
  Z.land dw1 (GEN7_SO_DW1_STATISTICS hw) =
    (if stats_enable info then GEN7_SO_DW1_STATISTICS hw else 0).
Proof.
  intros Hwt Hrs3.
  assert (Hrs : 0 <= render_stream info <= 3).
  { unfold info_wt, u8 in Hwt. rewrite !andb_true_iff, !Z.leb_le in Hwt. lia. }
  destruct dw1_layout as (Hok & Hflags & D1 & D2 & D3).
  destruct (Hflags _ (or_introl eq_refl)) as (Rse & Sse & Ose & Bse).
  destruct (Hflags _ (or_intror (or_introl eq_refl))) as (Rrd & Srd & Ord & Brd).
  destruct (Hflags _ (or_intror (or_intror eq_refl))) as (Rst & Sst & Ost & Bst).
  pose proof (dw1_fld_in sel ltac:(tauto)) as Is.
  pose proof (dw1_fld_in ro ltac:(tauto)) as Ir.
  pose proof (dw1_fld_in be ltac:(tauto)) as Ib.
  destruct (dw1_base_fields info Hrs) as (Bs & Br & Bf).
  unfold streamout_dw1. cbv zeta.
  set (base := wrap 32 (Z.lor (Z.shiftl (render_stream info) _) _)) in *.
  set (x1 := or_flag (sol_enable info) base _).
  set (x2 := or_flag (render_disable info) x1 _).
  set (x3 := or_flag (stats_enable info) x2 _).
  (* the enables, or-ed in last before generation 8, touch nothing else *)
  assert (Hfin_f : forall f y, f = sel \/ f = ro ->
    field (if ilo_dev_gen dev <? ILO_GEN 8
           then wrap 32 (Z.lor y (Z.shiftl (buffer_enables info)
                                   (GEN7_SO_DW1_BUFFER_ENABLES__SHIFT hw)))
           else y) f = field y f).
  { intros f y Hf. destruct (ilo_dev_gen dev <? ILO_GEN 8); [| reflexivity].
    pose proof (dw1_fld_in f ltac:(tauto)) as If.
    rewrite field_wrap, field_lor by exact If.
    assert (Hd : fld_disj f be = true).
    { simpl in Hok. rewrite !andb_true_iff in Hok.
      destruct Hf as [-> | ->]; tauto. }
    unfold fld_in in If. rewrite !andb_true_iff, !Z.leb_le in If.
    assert (E : field (Z.shiftl (buffer_enables info)
                         (GEN7_SO_DW1_BUFFER_ENABLES__SHIFT hw)) f = 0).
    { apply (field_shiftl_miss f be (buffer_enables info));
        [tauto | tauto | exact Hd |].
      unfold fits; simpl. apply buffer_enables_range. }
    rewrite E. apply Z.lor_0_r. }
  assert (Hfin_l : forall flag y, 0 <= flag < 2 ^ 32 -> field flag be = 0 ->
    Z.land (if ilo_dev_gen dev <? ILO_GEN 8
            then wrap 32 (Z.lor y (Z.shiftl (buffer_enables info)
                                    (GEN7_SO_DW1_BUFFER_ENABLES__SHIFT hw)))
            else y) flag = Z.land y flag).
  { intros flag y Hr Hc. destruct (ilo_dev_gen dev <? ILO_GEN 8); [| reflexivity].
    rewrite land_wrap, Z.land_lor_distr_l by lia.
    unfold fld_in in Ib. rewrite !andb_true_iff, !Z.leb_le in Ib.
    assert (E : Z.land (Z.shiftl (buffer_enables info)
                          (GEN7_SO_DW1_BUFFER_ENABLES__SHIFT hw)) flag = 0).
    { apply (land_shiftl_clear be (buffer_enables info) flag);
        [tauto | tauto | | exact Hc].
      unfold fits; simpl. apply buffer_enables_range. }
    rewrite E. apply Z.lor_0_r. }
  repeat split.
  - rewrite Hfin_f by tauto. unfold x3, x2, x1.
    now rewrite !or_flag_field by assumption.
  - rewrite Hfin_f by tauto. unfold x3, x2, x1.
    now rewrite !or_flag_field by assumption.
  - rewrite Hfin_l by (try lia; assumption). unfold x3, x2.
    rewrite !or_flag_land_other
      by (try lia; rewrite Z.land_comm; assumption).
    unfold x1. apply or_flag_land_same; [lia |]. apply Bf. tauto.
  - rewrite Hfin_l by (try lia; assumption). unfold x3.
    rewrite or_flag_land_other by (try lia; rewrite Z.land_comm; assumption).
    unfold x2. rewrite or_flag_land_same; [reflexivity | lia |].
    unfold x1. rewrite or_flag_land_other by (try lia; assumption).
    apply Bf. tauto.
  - rewrite Hfin_l by (try lia; assumption). unfold x3.
    rewrite or_flag_land_same; [reflexivity | lia |].
    unfold x2, x1. rewrite !or_flag_land_other by (try lia; assumption).
    apply Bf. tauto.
Qed.

End PrimaryWordDecoding.

(** X4: for a valid info whose render stream is one of 0 to 3, word 0 can
    be decoded: its 2-bit selector field is the render stream, its reorder
    bit the triangle-strip reorder mode, and each of the flags
    [SO_ENABLE], [RENDER_DISABLE] and [STATISTICS] is present exactly when
    the info sets it.  (A render stream above 3 is not rejected and spills
    over the selector field.) *)
Theorem streamout_primary_word_decodes hw nd dev info m :
  dw1_decodable hw = true -> info_wt info = true -> validates dev info ->
  render_stream info <= 3 -> length (so (sol m)) = 6%nat ->
  exists m' dw1,
    sol_set_gen7_3DSTATE_STREAMOUT hw nd dev info m = Ret true m' /\
    so (sol m') !! 0%nat = Some dw1 /\
    field dw1 (render_select_fld hw) = render_stream info /\
    field dw1 (reorder_mode_fld hw) = reorder_Z (tristrip_reorder info) /\
    Z.land dw1 (GEN7_SO_DW1_SO_ENABLE hw) =
      (if sol_enable info then GEN7_SO_DW1_SO_ENABLE hw else 0) /\
    Z.land dw1 (GEN7_SO_DW1_RENDER_DISABLE hw) =
      (if render_disable info then GEN7_SO_DW1_RENDER_DISABLE hw else 0) /\
    Z.land dw1 (GEN7_SO_DW1_STATISTICS hw) =
      (if stats_enable info then GEN7_SO_DW1_STATISTICS hw else 0) /\
    0 < GEN7_SO_DW1_SO_ENABLE hw /\ 0 < GEN7_SO_DW1_RENDER_DISABLE hw /\
    0 < GEN7_SO_DW1_STATISTICS hw.
Proof.
  intros Hhw Hwt Hv Hrs Hlen.
  destruct (streamout_words_lookup hw dev info _ Hlen) as (H0 & _).
  destruct (streamout_dw1_decode hw Hhw dev info Hwt Hrs) as (A & B & C & D & E).
  destruct (dw1_layout hw Hhw) as (_ & Hflags & _).
  exists (with_so m (streamout_words hw dev info (so (sol m)))),
         (streamout_dw1 hw dev info).
  split; [now apply streamout_run |]. split; [exact H0 |].
  repeat split; try assumption; apply Hflags; tauto.
Qed.

Lemma streamout_primary_word_decodes_witness :
  exists m' dw1,
    sol_set_gen7_3DSTATE_STREAMOUT ivb_hw false dev7 info_sel (zero_machine 2)
      = Ret true m' /\
    so (sol m') !! 0%nat = Some dw1 /\
    field dw1 (render_select_fld ivb_hw) = 2 /\
    field dw1 (reorder_mode_fld ivb_hw) = 1 /\
    Z.land dw1 (GEN7_SO_DW1_SO_ENABLE ivb_hw) = GEN7_SO_DW1_SO_ENABLE ivb_hw /\
    Z.land dw1 (GEN7_SO_DW1_RENDER_DISABLE ivb_hw) = 0 /\
    Z.land dw1 (GEN7_SO_DW1_STATISTICS ivb_hw) = GEN7_SO_DW1_STATISTICS ivb_hw /\
    0 < GEN7_SO_DW1_SO_ENABLE ivb_hw /\ 0 < GEN7_SO_DW1_RENDER_DISABLE ivb_hw /\
    0 < GEN7_SO_DW1_STATISTICS ivb_hw.
Proof.
  apply (streamout_primary_word_decodes ivb_hw false dev7 info_sel (zero_machine 2));
    try reflexivity.
  vm_compute. discriminate.
Defined.

(** X5: the read length is a count of pairs minus one that covers the
    attributes read: it is 0 for a count of 0 or 1, and for a count of at
    least 1 the [len + 1] pairs hold the count and at most one attribute
    more; for a valid count it is at most 16 and fits its 5 bits. *)
Theorem vue_read_len_covers stream :
  0 <= vue_read_count stream <= 255 ->
  (vue_read_count stream <= 1 -> vue_read_len stream = 0) /\
  (1 <= vue_read_count stream ->
   vue_read_count stream <= 2 * (vue_read_len stream + 1) <= vue_read_count stream + 1) /\
  (vue_read_count stream <= 34 -> 0 <= vue_read_len stream <= 16).
Proof.
  intros Hc. unfold vue_read_len.
  assert (Hq : 0 <= (vue_read_count stream + 1) / 2 <= 128)
    by (Z.div_mod_to_equations; lia).
  rewrite (wrap_small 8 ((vue_read_count stream + 1) / 2)) by lia.
  destruct (Z.eqb_spec ((vue_read_count stream + 1) / 2) 0) as [H0 | Hn0].
  - rewrite H0. repeat split; intros; Z.div_mod_to_equations; lia.
  - rewrite wrap_small by lia.
    repeat split; intros; Z.div_mod_to_equations; lia.
Qed.

Lemma vue_read_len_covers_witness :
  (vue_read_count (get4 (streams info_b) I1) <= 1 ->
   vue_read_len (get4 (streams info_b) I1) = 0) /\
  (1 <= vue_read_count (get4 (streams info_b) I1) ->
   vue_read_count (get4 (streams info_b) I1)
   <= 2 * (vue_read_len (get4 (streams info_b) I1) + 1)
   <= vue_read_count (get4 (streams info_b) I1) + 1) /\
  (vue_read_count (get4 (streams info_b) I1) <= 34 ->
   0 <= vue_read_len (get4 (streams info_b) I1) <= 16).
Proof.
  apply (vue_read_len_covers (get4 (streams info_b) I1)). simpl. lia.
Defined.

(** ** Decoding a row of the declaration table *)

Lemma wrap_lor_wrap n a b :
  0 <= n -> wrap n (Z.lor (wrap n a) b) = wrap n (Z.lor a b).
Proof. intros Hn. now rewrite (wrap_lor n (wrap n a)), wrap_wrap, <- wrap_lor. Qed.

Section RowDecoding.

Variable hw : genhw.

(** The row of a declaration is its three fields packed, with the hole
    flag or-ed in for a hole and the attribute left out. *)
Lemma decl_val_pack d :
  decl_val hw d =
  wrap 16 (Z.lor
    (pack [(output_slot_fld hw, buffer d);
           (component_mask_fld hw, decl_mask d);
           (reg_index_fld hw, if is_hole d then 0 else attr d)])
    (if is_hole d then GEN7_SO_DECL_HOLE_FLAG hw else 0)).
Proof.
  unfold decl_val. cbn [pack output_slot_fld component_mask_fld reg_index_fld f_shift].
  destruct (is_hole d); rewrite wrap_lor_wrap by lia.
  - now rewrite Z.shiftl_0_l, !Z.lor_0_r.
  - now rewrite !Z.lor_0_r, Z.lor_assoc.
Qed.

Lemma decl_fits stream d :
  decl_wt d = true -> decl_valid stream d = true ->
  Forall fits [(output_slot_fld hw, buffer d);
               (component_mask_fld hw, decl_mask d);
               (reg_index_fld hw, if is_hole d then 0 else attr d)].
Proof.
  intros Hwt Hv.
  destruct (decl_bounds stream d Hwt Hv) as (Ha & Hbuf & Hcb & Hcc & Hsum).
  pose proof (decl_mask_range d Hcb Hcc Hsum) as Hmask.
  repeat (apply Forall_cons_2; [unfold fits; simpl |]);
    [lia | lia | destruct (is_hole d); lia | apply Forall_nil_2].
Qed.

End RowDecoding.

(** X6: the packed row of a valid declaration can be decoded: its 2-bit
    output-slot field is the buffer index, its 4-bit field the component
    mask, its 6-bit register-index field the attribute index (0 for a
    hole), and the hole flag is present exactly for a hole. *)
Theorem decl_row_decodes hw stream d :
  genhw_ok hw = true -> decl_wt d = true -> decl_valid stream d = true ->
  field (decl_val hw d) (output_slot_fld hw) = buffer d /\
  field (decl_val hw d) (component_mask_fld hw) = decl_mask d /\
  field (decl_val hw d) (reg_index_fld hw) = (if is_hole d then 0 else attr d) /\
  Z.land (decl_val hw d) (GEN7_SO_DECL_HOLE_FLAG hw) =
    (if is_hole d then GEN7_SO_DECL_HOLE_FLAG hw else 0) /\
  0 < GEN7_SO_DECL_HOLE_FLAG hw.
Proof.
  intros Hhw Hwt Hv. apply genhw_ok_parts in Hhw as (_ & _ & _ & Hrow & _).
  unfold row_ok in Hrow. rewrite !andb_true_iff, Z.ltb_lt in Hrow.
  destruct Hrow as [[Hflds Hflag] Hpos].
  apply flag_ok_parts in Hflag as [Hr Hclear].
  pose proof (decl_fits hw stream d Hwt Hv) as Hfits.
  set (fs := [(output_slot_fld hw, buffer d);
              (component_mask_fld hw, decl_mask d);
              (reg_index_fld hw, if is_hole d then 0 else attr d)]) in *.
  assert (Hfield : forall f v, In (f, v) fs -> field (decl_val hw d) f = v).
  { intros f v Hin. rewrite decl_val_pack. fold fs.
    assert (Hf : fld_in 16 f = true).
    { apply (flds_ok_In 16 _ _ Hflds). apply (in_map fst) in Hin. exact Hin. }
    assert (Hc : field (GEN7_SO_DECL_HOLE_FLAG hw) f = 0).
    { rewrite Forall_forall in Hclear. apply Hclear.
      apply list_elem_of_In. apply (in_map fst) in Hin. exact Hin. }
    rewrite field_wrap, field_lor by exact Hf.
    rewrite (field_pack_In_exact 16 fs f v Hflds Hfits Hin).
    destruct (is_hole d); [rewrite Hc | rewrite field_0]; apply Z.lor_0_r. }
  assert (Hland : Z.land (pack fs) (GEN7_SO_DECL_HOLE_FLAG hw) = 0).
  { apply land_pack_clear.
    assert (Hin : Forall (fun f => fld_in 16 f = true) (map fst fs)).
    { rewrite Forall_forall. intros f Hf.
      apply (flds_ok_In 16 _ _ Hflds). now apply list_elem_of_In. }
    inversion Hfits as [| ? ? F1 T1]; subst.
    inversion T1 as [| ? ? F2 T2]; subst.
    inversion T2 as [| ? ? F3 _]; subst.
    inversion Hclear as [| ? ? C1 U1]; subst.
    inversion U1 as [| ? ? C2 U2]; subst.
    inversion U2 as [| ? ? C3 _]; subst.
    inversion Hin as [| ? ? I1 V1]; subst.
    inversion V1 as [| ? ? I2 V2]; subst.
    inversion V2 as [| ? ? I3 _]; subst.
    unfold fld_in in I1, I2, I3.
    rewrite !andb_true_iff, !Z.leb_le in I1, I2, I3.
    repeat (apply Forall_cons_2; [simpl; tauto |]). apply Forall_nil_2. }
  split; [apply Hfield; simpl; tauto |].
  split; [apply Hfield; simpl; tauto |].
  split; [apply Hfield; simpl; tauto |].
  split; [| exact Hpos].
  rewrite decl_val_pack. fold fs.
  rewrite land_wrap, Z.land_lor_distr_l, Hland, Z.lor_0_l by lia.
  destruct (is_hole d); [apply Z.land_diag | apply Z.land_0_l].
Qed.

Lemma decl_row_decodes_witness :
  field (decl_val ivb_hw decl_b) (output_slot_fld ivb_hw) = buffer decl_b /\
  field (decl_val ivb_hw decl_b) (component_mask_fld ivb_hw) = decl_mask decl_b /\
  field (decl_val ivb_hw decl_b) (reg_index_fld ivb_hw)
    = (if is_hole decl_b then 0 else attr decl_b) /\
  Z.land (decl_val ivb_hw decl_b) (GEN7_SO_DECL_HOLE_FLAG ivb_hw) =
    (if is_hole decl_b then GEN7_SO_DECL_HOLE_FLAG ivb_hw else 0) /\
  0 < GEN7_SO_DECL_HOLE_FLAG ivb_hw.
Proof.
  apply (decl_row_decodes ivb_hw (get4 (streams info_b) I0) decl_b); reflexivity.
Defined.

Lemma decl_mask_testbit d c :
  0 <= component_base d -> 0 <= component_count d ->
  component_base d + component_count d <= 8 ->
  Z.testbit (decl_mask d) c =
  (component_base d <=? c) && (c <? component_base d + component_count d).
Proof.
  intros Hb Hc Hsum. unfold decl_mask.
  replace (Z.shiftl 1 (component_count d) - 1) with (Z.ones (component_count d))
    by (unfold Z.ones; lia).
  destruct (Z.lt_ge_cases c 0) as [Hneg | Hpos].
  - rewrite Z.testbit_neg_r by exact Hneg.
    destruct (Z.leb_spec (component_base d) c); [lia | reflexivity].
  - rewrite testbit_wrap, Z.shiftl_spec by lia.
    destruct (Z.lt_ge_cases (c - component_base d) 0) as [Hlo | Hhi].
    + rewrite Z.testbit_neg_r by exact Hlo.
      destruct (Z.leb_spec (component_base d) c); [lia | reflexivity].
    + rewrite Z.testbit_ones by lia.
      destruct (Z.leb_spec (component_base d) c),
        (Z.leb_spec 0 (c - component_base d)),
        (Z.ltb_spec (c - component_base d) (component_count d)),
        (Z.ltb_spec c (component_base d + component_count d)),
        (Z.ltb_spec c 8); simpl; try reflexivity; lia.
Qed.

(** X7: component [c] is in the mask of a valid declaration exactly when
    [component_base <= c < component_base + component_count]; so the mask
    of a declaration that writes no component is 0, and two valid
    declarations that write a component and have the same mask have the
    same base and count. *)
Theorem decl_mask_components stream d stream' d' :
  decl_wt d = true -> decl_valid stream d = true ->
  decl_wt d' = true -> decl_valid stream' d' = true ->
  (forall c, Z.testbit (decl_mask d) c =
             (component_base d <=? c) &&
             (c <? component_base d + component_count d)) /\
  (component_count d = 0 -> decl_mask d = 0) /\
  (0 < component_count d -> 0 < component_count d' ->
   decl_mask d = decl_mask d' ->
   component_base d = component_base d' /\
   component_count d = component_count d').
Proof.
  intros Hwt Hv Hwt' Hv'.
  destruct (decl_bounds stream d Hwt Hv) as (_ & _ & Hcb & Hcc & Hsum).
  destruct (decl_bounds stream' d' Hwt' Hv') as (_ & _ & Hcb' & Hcc' & Hsum').
  assert (Hbits : forall c, Z.testbit (decl_mask d) c =
    (component_base d <=? c) && (c <? component_base d + component_count d))
    by (intros c; apply decl_mask_testbit; lia).
  assert (Hbits' : forall c, Z.testbit (decl_mask d') c =
    (component_base d' <=? c) && (c <? component_base d' + component_count d'))
    by (intros c; apply decl_mask_testbit; lia).
  split; [exact Hbits |]. split.
  - intros H0. apply Z.bits_inj'. intros c _. rewrite Hbits, Z.bits_0, H0.
    destruct (Z.leb_spec (component_base d) c),
      (Z.ltb_spec c (component_base d + 0)); simpl; try reflexivity; lia.
  - intros Hpos Hpos' Heq.
    assert (Hin : forall c,
      (component_base d <= c < component_base d + component_count d) <->
      (component_base d' <= c < component_base d' + component_count d')).
    { intros c. pose proof (Hbits c) as H1. pose proof (Hbits' c) as H2.
      rewrite Heq in H1. rewrite H1 in H2.
      destruct (Z.leb_spec (component_base d) c),
        (Z.ltb_spec c (component_base d + component_count d)),
        (Z.leb_spec (component_base d') c),
        (Z.ltb_spec c (component_base d' + component_count d'));
        simpl in H2; try discriminate; lia. }
    pose proof (Hin (component_base d)) as A.
    pose proof (Hin (component_base d')) as B.
    pose proof (Hin (component_base d + component_count d - 1)) as C.
    pose proof (Hin (component_base d' + component_count d' - 1)) as D.
    lia.
Qed.

Lemma decl_mask_components_witness :
  (forall c, Z.testbit (decl_mask decl_hole) c =
             (component_base decl_hole <=? c) &&
             (c <? component_base decl_hole + component_count decl_hole)) /\
  (component_count decl_hole = 0 -> decl_mask decl_hole = 0) /\
  (0 < component_count decl_hole -> 0 < component_count decl_b ->
   decl_mask decl_hole = decl_mask decl_b ->
   component_base decl_hole = component_base decl_b /\
   component_count decl_hole = component_count decl_b).
Proof.
  apply (decl_mask_components (get4 (streams info_b) I1) decl_hole
           (get4 (streams info_b) I0) decl_b); reflexivity.
Defined.

(** ** The two encoders on a destination that is in use *)




Lemma streamout_words_insert_hi hw dev info ws i x :
  (4 <= i)%nat ->
  streamout_words hw dev info (<[i := x]> ws) =
  <[i := x]> (streamout_words hw dev info ws).
Proof.
  intros Hi. unfold streamout_words.
  destruct (ILO_GEN 8 <=? ilo_dev_gen dev);
    repeat (rewrite (list_insert_insert_ne _ _ i) by lia); reflexivity.
Qed.

Lemma streamout_words_idem hw dev info ws :
  streamout_words hw dev info (streamout_words hw dev info ws) =
  streamout_words hw dev info ws.
Proof.
  unfold streamout_words.
  destruct (ILO_GEN 8 <=? ilo_dev_gen dev);
    destruct ws as [| w0 [| w1 [| w2 [| w3 ws]]]]; reflexivity.
Qed.

Lemma insert_4_5_idem (ws : list Z) a b :
  <[5%nat := b]> (<[4%nat := a]> (<[5%nat := b]> (<[4%nat := a]> ws))) =
  <[5%nat := b]> (<[4%nat := a]> ws).
Proof.
  destruct ws as [| w0 [| w1 [| w2 [| w3 [| w4 [| w5 ws]]]]]]; reflexivity.
Qed.

(** X9: on a valid info and a destination whose table pointer is set to a
    region of at least [max_decl_count] rows, the two encoders of
    [ilo_state_sol_init] write apart from each other: run in the order of
    the source or in the other order they return [true] with the same
    machine. *)
Theorem encoders_commute hw nd dev info m :
  validates dev info -> info_wt info = true ->
  decl (sol m) = info_data ->
  (Z.to_nat (max_decl_count_of info) <= length (scratch m))%nat ->
  streamout_then_decl_list hw nd dev info m =
  decl_list_then_streamout hw nd dev info m /\
  exists m', streamout_then_decl_list hw nd dev info m = Ret true m'.
Proof.
  intros Hv _ _ _. pose proof (valid_dev nd dev info Hv) as Hdev.
  unfold streamout_then_decl_list, decl_list_then_streamout, bind.
  rewrite (streamout_run hw nd dev info m Hv).
  rewrite (decl_list_run hw nd dev info _ Hdev).
  rewrite (decl_list_run hw nd dev info m Hdev).
  rewrite (streamout_run hw nd dev info _ Hv).
  split; [| eexists; reflexivity].
  unfold ret, decl_list_machine, with_so. simpl. do 3 f_equal.
  now rewrite !streamout_words_insert_hi by lia.
Qed.

Lemma encoders_commute_witness :
  streamout_then_decl_list ivb_hw false dev8 info_b used_machine =
  decl_list_then_streamout ivb_hw false dev8 info_b used_machine /\
  exists m', streamout_then_decl_list ivb_hw false dev8 info_b used_machine
             = Ret true m'.
Proof.
  apply (encoders_commute ivb_hw false dev8 info_b used_machine);
    try reflexivity.
  vm_compute. lia.
Defined.

(** X10: the two encoders overwrite and never accumulate: on a
    destination whose table pointer is set to a region of at least
    [max_decl_count] rows, run once more on their own result, for the same
    valid info, they leave every word, the table length and the scratch
    region as they are. *)
Theorem encoders_idempotent hw nd dev info m :
  validates dev info -> info_wt info = true ->
  decl (sol m) = info_data ->
  (Z.to_nat (max_decl_count_of info) <= length (scratch m))%nat ->
  exists m',
    streamout_then_decl_list hw nd dev info m = Ret true m' /\
    streamout_then_decl_list hw nd dev info m' = Ret true m'.
Proof.
  intros Hv _ Hd Hfit. pose proof (valid_dev nd dev info Hv) as Hdev.
  pose proof (decl_rows_length hw info (max_decl_count_of info)) as Hlen.
  assert (Hrun : forall m0, streamout_then_decl_list hw nd dev info m0 =
    Ret true (decl_list_machine hw info (max_decl_count_of info)
                (with_so m0 (streamout_words hw dev info (so (sol m0)))))).
  { intros m0. unfold streamout_then_decl_list, bind.
    rewrite (streamout_run hw nd dev info m0 Hv).
    now rewrite (decl_list_run hw nd dev info _ Hdev). }
  eexists. split; [apply Hrun |]. rewrite Hrun. f_equal.
  unfold decl_list_machine, with_so. simpl.
  rewrite !streamout_words_insert_hi by lia.
  rewrite streamout_words_idem, insert_4_5_idem. f_equal.
  rewrite Hd.
  rewrite (take_ge (decl_rows hw info (max_decl_count_of info))
             (length (scratch m))) by lia.
  rewrite length_app, length_drop.
  rewrite (take_ge (decl_rows hw info (max_decl_count_of info))) by lia.
  now rewrite drop_app_length.
Qed.

Lemma encoders_idempotent_witness :
  exists m',
    streamout_then_decl_list ivb_hw false dev7 info_b used_machine = Ret true m' /\
    streamout_then_decl_list ivb_hw false dev7 info_b m' = Ret true m'.
Proof.
  apply (encoders_idempotent ivb_hw false dev7 info_b used_machine);
    try reflexivity.
  vm_compute. lia.
Defined.

(** ** The entry point and the hardware generation *)

(** X11: before generation 7 [ilo_state_sol_init] encodes nothing: on a
    zero-initialised destination it returns [true] and leaves the machine
    as it is, in either build and for any info, valid or not. *)
Theorem init_before_gen7 hw nd dev info m :
  ilo_dev_gen dev < ILO_GEN 7 ->
  ilo_is_zeroed_sol (sol m) = true ->
  ilo_is_zeroed (region (data info) m) = true ->
  ilo_state_sol_init hw nd dev info m = Ret true m.
Proof.
  intros Hg Hz1 Hz2. rewrite init_eval, Hz1, Hz2, !orb_true_r. cbn [negb].
  replace (ILO_GEN 7 <=? ilo_dev_gen dev) with false
    by (symmetry; apply Z.leb_gt; lia).
  reflexivity.
Qed.

Lemma init_before_gen7_witness :
  ilo_state_sol_init ivb_hw false dev6 info_c (zero_machine 0)
    = Ret true (zero_machine 0).
Proof.
  apply (init_before_gen7 ivb_hw false dev6 info_c (zero_machine 0));
    reflexivity.
Defined.

(** X12: after generation 8 and with assertions enabled each of the three
    encoding functions stops at its generation assertion; the two command
    encoders leave the machine as it is, and the entry point has written no
    command word, no table length and no scratch row. *)
Theorem generation_above_8_stops hw dev info max m :
  ILO_GEN 8 < ilo_dev_gen dev ->
  sol_set_gen7_3DSTATE_STREAMOUT hw false dev info m = Abort m /\
  sol_set_gen7_3DSTATE_SO_DECL_LIST hw false dev info max m = Abort m /\
  exists m',
    ilo_state_sol_init hw false dev info m = Abort m' /\
    so (sol m') = so (sol m) /\
    sol_decl_count (sol m') = sol_decl_count (sol m) /\
    scratch m' = scratch m.
Proof.
  intros Hg.
  assert (Hd : ILO_DEV_ASSERT false dev 7 8 = None).
  { unfold ILO_DEV_ASSERT, c_assert. cbn [orb].
    replace (ilo_dev_gen dev <=? ILO_GEN 8) with false
      by (symmetry; apply Z.leb_gt; lia).
    now rewrite andb_false_r. }
  split; [now rewrite streamout_eval, Hd |].
  split.
  { unfold sol_set_gen7_3DSTATE_SO_DECL_LIST, bind, lift. now rewrite Hd. }
  assert (Hnv : ~ validates dev info).
  { intros Hv. pose proof (valid_dev false dev info Hv). congruence. }
  assert (Hg7 : ILO_GEN 7 <= ilo_dev_gen dev) by (unfold ILO_GEN in *; lia).
  destruct (init_rejects hw dev info m Hg7 Hnv) as [m' Hm'].
  exists m'. split; [exact Hm' |].
  exact (init_abort_unchanged hw false dev info m m' Hm').
Qed.

Lemma generation_above_8_stops_witness :
  sol_set_gen7_3DSTATE_STREAMOUT ivb_hw false dev9 info_b used_machine
    = Abort used_machine /\
  sol_set_gen7_3DSTATE_SO_DECL_LIST ivb_hw false dev9 info_b 2 used_machine
    = Abort used_machine /\
  exists m',
    ilo_state_sol_init ivb_hw false dev9 info_b used_machine = Abort m' /\
    so (sol m') = so (sol used_machine) /\
    sol_decl_count (sol m') = sol_decl_count (sol used_machine) /\
    scratch m' = scratch used_machine.
Proof.
  apply (generation_above_8_stops ivb_hw dev9 info_b 2 used_machine).
  reflexivity.
Defined.

(** X13: the exact condition under which [ilo_state_sol_init] succeeds in a
    build with assertions: the destination and the region of the info are
    zero-initialised, and either the generation is below 7, and nothing is
    written, or the region holds the largest declaration count in rows of
    8 bytes and the info validates, and the machine is the encoded one. *)
Theorem init_success_iff hw dev info m m' :
  ilo_state_sol_init hw false dev info m = Ret true m' <->
  ilo_is_zeroed_sol (sol m) = true /\
  ilo_is_zeroed (region (data info) m) = true /\
  ((ilo_dev_gen dev < ILO_GEN 7 /\ m' = m) \/
   (ILO_GEN 7 <= ilo_dev_gen dev /\
    8 * max_decl_count_of info <= data_size info m /\
    validates dev info /\
    m' = encoded hw dev info m)).
Proof.
  rewrite init_eval. cbn [orb]. unfold ilo_state_sol_data_size.
  destruct (ilo_is_zeroed_sol (sol m)); cbn [negb];
    [| split; [discriminate | intros [? _]; discriminate]].
  destruct (ilo_is_zeroed (region (data info) m)); cbn [negb];
    [| split; [discriminate | intros (_ & ? & _); discriminate]].
  destruct (Z.leb_spec (ILO_GEN 7) (ilo_dev_gen dev)) as [Hg | Hg].
  - destruct (Z.leb_spec (8 * max_decl_count_of info) (data_size info m))
      as [Hs | Hs]; cbn [negb].
    + destruct (sol_validate_gen7_cases false dev info) as [Hv | Hv].
      * rewrite (valid_dev false dev info Hv), Hv. split.
        -- intros H. inversion H. repeat split; auto.
        -- intros (_ & _ & [[? _] | (_ & _ & _ & ->)]); [lia | reflexivity].
      * rewrite Hv. split.
        -- destruct (ILO_DEV_ASSERT false dev 7 8); discriminate.
        -- intros (_ & _ & [[? _] | (_ & _ & Hv' & _)]); [lia |].
           unfold validates in Hv'. congruence.
    + split; [discriminate |].
      intros (_ & _ & [[? _] | (_ & ? & _)]); lia.
  - split.
    + intros H. inversion H. repeat split; auto.
    + intros (_ & _ & [[_ ->] | (? & _)]); [reflexivity | lia].
Qed.

(** ** The entry point on its own result, in the two builds *)

(** X14: a state encoded with a data region cannot be encoded again as it
    is: its table pointer is set, so a build with assertions stops at the
    first assertion of [ilo_state_sol_init], whatever the new device and
    info are, and leaves the state as it is. *)
Theorem encoded_state_not_reencoded hw nd dev info m m' dev2 info2 :
  ILO_GEN 7 <= ilo_dev_gen dev -> data info = info_data ->
  ilo_state_sol_init hw nd dev info m = Ret true m' ->
  ilo_state_sol_init hw false dev2 info2 m' = Abort m'.
Proof.
  intros Hg Hdata H. rewrite init_eval in H.
  replace (ILO_GEN 7 <=? ilo_dev_gen dev) with true in H
    by (symmetry; now apply Z.leb_le).
  assert (Hm' : m' = encoded hw dev info m).
  { repeat match type of H with
           | context [if ?b then _ else _] => destruct b
           | context [match ?o with Some _ => _ | None => _ end] => destruct o
           end; try discriminate; now inversion H. }
  subst m'. rewrite init_eval.
  assert (Hz : ilo_is_zeroed_sol (sol (encoded hw dev info m)) = false).
  { unfold ilo_is_zeroed_sol, encoded, decl_list_machine, with_so, with_decl.
    cbn [sol decl]. rewrite Hdata. now rewrite andb_false_r. }
  now rewrite Hz.
Qed.

Lemma encoded_state_not_reencoded_witness :
  ilo_state_sol_init ivb_hw false dev8 info_64
    (encoded ivb_hw dev7 info_b (zero_machine 2))
  = Abort (encoded ivb_hw dev7 info_b (zero_machine 2)).
Proof.
  apply (encoded_state_not_reencoded ivb_hw false dev7 info_b (zero_machine 2)).
  - unfold dev7. simpl. lia.
  - reflexivity.
  - vm_compute. reflexivity.
Defined.

Lemma max_decl_count_of_set_cv info s c :
  max_decl_count_of (info_set_cv info s c) = max_decl_count_of info.
Proof.
  unfold max_decl_count_of, info_set_cv. cbn [streams].
  destruct (streams info) as [s0 s1 s2 s3], s; reflexivity.
Qed.

Lemma encoded_set_cv hw dev info s c m :
  encoded hw dev (info_set_cv info s c) m = encoded hw dev info m.
Proof.
  unfold encoded. rewrite max_decl_count_of_set_cv.
  unfold info_set_cv at 1 2. cbn [data].
  destruct info as [dt se ste tr rd rs bs [s0 s1 s2 s3]].
  destruct s; reflexivity.
Qed.

(** X15: [cv_vue_attr_count] is only validated, never encoded: replacing
    it in any stream changes the outcome of [ilo_state_sol_init] at most
    through the validator, so the outcome is the same whenever the
    validator answers the same, as it always does without assertions. *)
Theorem cv_vue_attr_count_only_validated hw nd dev info s c m :
  sol_validate_gen7 nd dev (info_set_cv info s c)
    = sol_validate_gen7 nd dev info ->
  ilo_state_sol_init hw nd dev (info_set_cv info s c) m =
  ilo_state_sol_init hw nd dev info m.
Proof.
  intros Hv. rewrite !init_eval, Hv, encoded_set_cv, max_decl_count_of_set_cv.
  reflexivity.
Qed.

Lemma cv_vue_attr_count_only_validated_witness :
  ilo_state_sol_init ivb_hw false dev7 (info_set_cv info_b I1 9) (zero_machine 2)
  = ilo_state_sol_init ivb_hw false dev7 info_b (zero_machine 2).
Proof.
  apply (cv_vue_attr_count_only_validated ivb_hw false dev7 info_b I1 9
           (zero_machine 2)).
  reflexivity.
Defined.

(** X16: disabling the assertions only adds outcomes: whatever
    [ilo_state_sol_init] returns in a build with assertions, it returns
    the same value and the same machine in a build without them. *)
Theorem ndebug_conservative hw dev info m r m' :
  ilo_state_sol_init hw false dev info m = Ret r m' ->
  ilo_state_sol_init hw true dev info m = Ret r m'.
Proof.
  intros H. rewrite init_eval in H. rewrite init_eval. cbn [orb negb] in *.
  destruct (ilo_is_zeroed_sol (sol m)); cbn [negb] in H; [| discriminate].
  destruct (ilo_is_zeroed (region (data info) m)); cbn [negb] in H;
    [| discriminate].
  destruct (ILO_GEN 7 <=? ilo_dev_gen dev); [| exact H].
  destruct (ilo_state_sol_data_size dev (max_decl_count_of info)
            <=? data_size info m); cbn [negb] in H; [| discriminate].
  destruct (sol_validate_gen7_cases false dev info) as [Hv | Hv];
    rewrite Hv in H.
  - rewrite (valid_dev false dev info Hv) in H.
    now rewrite (valid_dev true dev info Hv),
      (validates_any_build true dev info Hv).
  - destruct (ILO_DEV_ASSERT false dev 7 8); discriminate.
Qed.

Lemma ndebug_conservative_witness :
  ilo_state_sol_init ivb_hw true dev7 info_b (zero_machine 2)
  = Ret true (encoded ivb_hw dev7 info_b (zero_machine 2)).
Proof.
  apply (ndebug_conservative ivb_hw dev7 info_b (zero_machine 2)).
  vm_compute. reflexivity.
Defined.

(** X17: after a successful encode from the zero-initialised destination
    the scratch region keeps its size and is the declaration table
    followed by rows that are still zero. *)
Theorem scratch_after_encode hw nd dev info n :
  validates dev info -> scratch_fits dev info n = true ->
  exists m',
    ilo_state_sol_init hw nd dev info (zero_machine n) = Ret true m' /\
    length (scratch m') = n /\
    scratch m' =
      decl_table m' ++ replicate (n - length (decl_table m')) 0.
Proof.
  intros Hv Hfit. pose proof (valid_gen dev info Hv) as [Hg7 _].
  pose proof (scratch_fits_rows dev info n Hg7 Hfit) as Hle.
  pose proof (decl_rows_length hw info (max_decl_count_of info)) as Hlen.
  exists (encoded hw dev info (zero_machine n)).
  split; [now apply init_run |].
  rewrite (decl_table_encoded hw dev info n Hv Hfit).
  unfold encoded, decl_list_machine. simpl.
  destruct (data info); simpl in *.
  - rewrite length_replicate.
    assert (E : decl_rows hw info (max_decl_count_of info) = [])
      by (apply nil_length_inv; lia).
    rewrite E. simpl. split; [reflexivity |]. f_equal. lia.
  - rewrite length_replicate in *.
    rewrite (take_ge (decl_rows hw info (max_decl_count_of info)) n) by lia.
    rewrite drop_replicate, length_app, length_replicate.
    split; [lia | reflexivity].
Qed.

Lemma scratch_after_encode_witness :
  exists m',
    ilo_state_sol_init ivb_hw false dev7 info_b (zero_machine 5) = Ret true m' /\
    length (scratch m') = 5%nat /\
    scratch m' =
      decl_table m' ++ replicate (5 - length (decl_table m')) 0.
Proof.
  apply (scratch_after_encode ivb_hw false dev7 info_b 5); reflexivity.
Defined.
